(** * DAO governance assistant: reminder scheduling engine

    A shallow embedding of [governance-bot.py]: the three persisted records
    (subscriber preferences, proposal-id map, known Snapshot proposals), the
    in-memory job table [SCHEDULED_JOBS], the job queue of the bot framework,
    and the handlers that read and write them.

    Conventions.
    - Instants ([datetime], UTC) are integers: microseconds since the epoch.
      Durations ([timedelta]) are integers: microseconds.
    - A float is held as the rational it stands for.  [timedelta(hours=h)]
      is read in exact arithmetic, rounded to the microsecond; the product
      of [int(h * 60)] is the product of two doubles.
    - Instants and durations have no bound here, and arithmetic on them
      does not raise; the source raises [OverflowError] (and
      [fromtimestamp] also [ValueError]) where a [datetime] or a
      [timedelta] would leave its range.  The conditions under which the
      source computes the same instants without raising are named in the
      section on ranges, and a statement that says that a handler returns
      or runs to its end assumes them.
    - A chat id is the string [str(chat_id)] under which the source keys it.
    - Every read of the clock, every [uuid.uuid4()] and the availability of
      the chat transport are inputs of the handler that uses them.
    - Log lines are not part of the state. *)

From Stdlib Require Import QArith Qround Ascii.
From Stdlib Require Floats.SpecFloat.
From stdpp Require Import gmap strings list fin_maps pretty.

Open Scope string_scope.
Open Scope list_scope.
Open Scope Z_scope.

(** ** Ordered dictionaries

    Python dictionaries keep insertion order, and the source iterates over
    two of them; they are association lists here.  Assigning an existing key
    keeps its position, assigning a new key appends it. *)

Definition dict (V : Type) : Type := list (string * V).

Fixpoint dict_get {V} (d : dict V) (k : string) : option V :=
  match d with
  | [] => None
  | (k', v) :: d' => if decide (k' = k) then Some v else dict_get d' k
  end.

Fixpoint dict_set {V} (d : dict V) (k : string) (v : V) : dict V :=
  match d with
  | [] => [(k, v)]
  | (k', v') :: d' =>
      if decide (k' = k) then (k, v) :: d' else (k', v') :: dict_set d' k v
  end.

Definition dict_keys {V} (d : dict V) : list string := d.*1.

(** ** Time *)

(** Round a rational to the nearest integer, ties to even. *)
Definition round_half_even (q : Q) : Z :=
  let f := Qfloor q in
  match Qcompare (q - inject_Z f) (1 # 2) with
  | Lt => f
  | Gt => f + 1
  | Eq => if Z.even f then f else f + 1
  end.

(** [timedelta(hours=h)], in microseconds.  The source raises
    [OverflowError] where the duration is no [timedelta] ([is_timedelta]
    below). *)
Definition timedelta_hours (h : Q) : Z :=
  round_half_even (h * inject_Z 3600000000).

(** [timedelta(seconds=n)] for an integer [n], in microseconds; the source
    raises [OverflowError] where the duration is no [timedelta]. *)
Definition timedelta_seconds (n : Z) : Z := n * 1000000.

(** [datetime.fromtimestamp(ts, tz=timezone.utc)] for integer unix seconds;
    the source raises [ValueError] or [OverflowError] where the instant is
    no [datetime] ([is_datetime] below). *)
Definition fromtimestamp (ts : Z) : Z := ts * 1000000.

(** *** Doubles

    A Python float is an IEEE 754 double: precision 53, exponents up to
    1024. *)

(** The double of an integer. *)
Definition double_of_Z (z : Z) : SpecFloat.spec_float :=
  SpecFloat.binary_normalize 53 1024 z 0 false.

(** The double nearest to a rational given by a numerator and a denominator
    that are doubles themselves; for the rational a double stands for, this
    is that double. *)
Definition double_of_Q (q : Q) : SpecFloat.spec_float :=
  SpecFloat.SFdiv 53 1024 (double_of_Z (Qnum q)) (double_of_Z (Z.pos (Qden q))).

(** [int(x)] for a double: truncation towards zero; [None] for an infinity
    or a NaN, where [int] raises. *)
Definition int_of_double (x : SpecFloat.spec_float) : option Z :=
  match x with
  | SpecFloat.S754_zero _ => Some 0
  | SpecFloat.S754_finite sign m e =>
      let magnitude := if 0 <=? e then Z.pos m * 2 ^ e else Z.pos m / 2 ^ (- e) in
      Some (if sign then - magnitude else magnitude)
  | _ => None
  end.

(** [int(h * 60)]: the product is taken in doubles and rounded there, then
    truncated towards zero.  It is finite for every [h] of which
    [timedelta(hours=h)] exists, and line 417 has made that [timedelta]
    before line 422 takes the product. *)
Definition minutes_of_hours (h : Q) : Z :=
  default 0 (int_of_double (SpecFloat.SFmul 53 1024 (double_of_Q h) (double_of_Z 60))).

(** ** The range of [datetime] and [timedelta]

    [datetime.min] is the first microsecond of year 1 and [datetime.max] the
    last of year 9999; a [timedelta] has at most 999999999 days on either
    side. *)

Definition datetime_min : Z := -62135596800000000.
Definition datetime_max : Z := 253402300799999999.

Definition is_datetime (t : Z) : bool := (datetime_min <=? t) && (t <=? datetime_max).

Definition is_timedelta (d : Z) : bool :=
  (-999999999 * 86400000000 <=? d) && (d <=? 1000000000 * 86400000000 - 1).

(** [t + timedelta(hours=h)] is computed without [OverflowError]. *)
Definition hours_after (t : Z) (h : Q) : bool :=
  is_timedelta (timedelta_hours h) && is_datetime (t + timedelta_hours h).

(** [t - timedelta(hours=h)] is computed without [OverflowError]. *)
Definition hours_before (t : Z) (h : Q) : bool :=
  is_timedelta (timedelta_hours h) && is_datetime (t - timedelta_hours h).

(** The two loops of [schedule_reminders] over the offsets [from_start] and
    [before_end] compute every instant without [OverflowError]. *)
Definition schedulable (from_start before_end : list Q) (start_time end_time : Z) : bool :=
  forallb (hours_after start_time) from_start &&
  forallb (hours_before end_time) before_end.

(** ** Messages and buttons *)

(** The texts the bot sends, one constructor per template of the source,
    carrying the values substituted into it. *)
Inductive Text : Type :=
  | VotingStarted (title proposal_id proposal_link : string)
  | MinutesLeft (minutes_left : Z) (title proposal_id proposal_link : string)
  | TimeToVote (proposal_id : string)
  | ThanksForVoting
  | ReminderSet (remind_in_hours : Q)
  | AddedToList
  | TestProposalCreated (proposal_id : string)
  | ErrorOccurred.

(** An inline button, by the callback payload it carries:
    [voted|short_id] or [remind_in|short_id|hours]. *)
Inductive InlineKeyboardButton : Type :=
  | VotedButton (short_id : string)
  | RemindInButton (short_id : string) (hours : Q).

Definition Keyboard : Type := list (list InlineKeyboardButton).

(** Calls made on the chat transport. *)
Inductive BotCall : Type :=
  | SendMessage (chat_id : string) (text : Text) (reply_markup : option Keyboard)
  | AnswerCallbackQuery (chat_id : string) (text : option Text).

(** ** Configuration *)

Record Config : Type := {
  reminders_from_start : list Q;
  reminders_before_end : list Q;
  button_reminder_times : list Q;
  snapshot_space : string;
  base_url : string;
  chain_prefix : string;
  frontend_display_contract_address : string
}.

(** ** Persisted subscriber state *)

(** The value stored for one proposal under one chat in
    [user_preferences.json]: [null], the literal ["voted"], the ISO-8601 text
    of an instant, or a mapping that may carry ['from_start'] and
    ['before_end'] offset lists. *)
Inductive ReminderPref : Type :=
  | PNull
  | PVoted
  | PInstant (next_reminder_time : Z)
  | PDict (from_start before_end : option (list Q)).

(** ** Jobs *)

(** [context.job.data] *)
Record JobData : Type := {
  jd_chat_id : string;
  jd_proposal_id : string;
  jd_message_text : Text;
  jd_buttons : Keyboard
}.

(** A job object of the framework's job queue.  [removed] is the flag the
    source reads as [job.removed]; only [schedule_removal] sets it.
    [executed] is set by the queue once the callback of the job has run. *)
Record Job : Type := {
  when : Z;
  data : JobData;
  removed : bool;
  executed : bool
}.

Definition job_live (j : Job) : bool := negb (removed j) && negb (executed j).

(** The job with its [removed] flag set, and with its [executed] flag set. *)
Definition mark_removed (job : Job) : Job :=
  {| when := when job; data := data job; removed := true; executed := executed job |}.

Definition mark_executed (job : Job) : Job :=
  {| when := when job; data := data job; removed := removed job; executed := true |}.

(** ** Program state *)

Record State : Type := {
  (** [user_preferences.json], the mapping under ["reminders"]; a file that
      does not exist loads as the empty mapping. *)
  user_preferences : dict (gmap string ReminderPref);
  (** [proposal_id_map.json] *)
  proposal_id_map : dict string;
  (** the set held by the Snapshot monitor and its copy on disk *)
  known_proposals : gset string;
  (** the module-level table: chat id -> proposal id -> job handles *)
  SCHEDULED_JOBS : gmap string (gmap string (list nat));
  (** every job object created so far; a handle is an index into it *)
  job_queue : list Job;
  (** calls accepted by the chat transport, oldest first *)
  sent : list BotCall
}.

Definition set_user_preferences (p : dict (gmap string ReminderPref)) (s : State) : State :=
  {| user_preferences := p; proposal_id_map := proposal_id_map s;
     known_proposals := known_proposals s; SCHEDULED_JOBS := SCHEDULED_JOBS s;
     job_queue := job_queue s; sent := sent s |}.

Definition set_proposal_id_map (m : dict string) (s : State) : State :=
  {| user_preferences := user_preferences s; proposal_id_map := m;
     known_proposals := known_proposals s; SCHEDULED_JOBS := SCHEDULED_JOBS s;
     job_queue := job_queue s; sent := sent s |}.

Definition set_known_proposals (k : gset string) (s : State) : State :=
  {| user_preferences := user_preferences s; proposal_id_map := proposal_id_map s;
     known_proposals := k; SCHEDULED_JOBS := SCHEDULED_JOBS s;
     job_queue := job_queue s; sent := sent s |}.

Definition set_SCHEDULED_JOBS (t : gmap string (gmap string (list nat))) (s : State) : State :=
  {| user_preferences := user_preferences s; proposal_id_map := proposal_id_map s;
     known_proposals := known_proposals s; SCHEDULED_JOBS := t;
     job_queue := job_queue s; sent := sent s |}.

Definition set_job_queue (q : list Job) (s : State) : State :=
  {| user_preferences := user_preferences s; proposal_id_map := proposal_id_map s;
     known_proposals := known_proposals s; SCHEDULED_JOBS := SCHEDULED_JOBS s;
     job_queue := q; sent := sent s |}.

Definition set_sent (o : list BotCall) (s : State) : State :=
  {| user_preferences := user_preferences s; proposal_id_map := proposal_id_map s;
     known_proposals := known_proposals s; SCHEDULED_JOBS := SCHEDULED_JOBS s;
     job_queue := job_queue s; sent := o |}.

(** ** Handlers as state transformers that may raise *)

Inductive exn : Type :=
  | AttributeError | IndexError | KeyError | ValueError
  | JobLookupError | TelegramError.

Inductive outcome (A : Type) : Type :=
  | Return (a : A)
  | Raise (e : exn).
Arguments Return {A} a.
Arguments Raise {A} e.

(** A computation runs on a state and ends by returning or raising; the
    writes made before a raise stay. *)
Definition M (A : Type) : Type := State -> outcome A * State.

Definition ret {A} (a : A) : M A := fun s => (Return a, s).
Definition raise {A} (e : exn) : M A := fun s => (Raise e, s).

Definition bind {A B} (m : M A) (k : A -> M B) : M B :=
  fun s => match m s with
           | (Return a, s') => k a s'
           | (Raise e, s') => (Raise e, s')
           end.

(** [try: m except Exception: log] *)
Definition try_except (m : M unit) : M unit :=
  fun s => match m s with
           | (Return _, s') => (Return tt, s')
           | (Raise _, s') => (Return tt, s')
           end.

Definition get_state {A} (f : State -> A) : M A := fun s => (Return (f s), s).
Definition modify (f : State -> State) : M unit := fun s => (Return tt, f s).

Notation "'let*' x ':=' m 'in' k" := (bind m (fun x => k))
  (at level 10, x pattern, m at level 100, k at level 200).
Notation "m ';;;' k" := (bind m (fun _ => k))
  (at level 100, k at level 200, right associativity).

Definition returns {A} (r : outcome A * State) : bool :=
  match r.1 with Return _ => true | Raise _ => false end.

(** ** The program *)

Section Bot.

(** [config.ini] *)
Variable cfg : Config.

(** Python's [float] on a callback parameter: [None] where it raises
    [ValueError], or yields a value [timedelta] refuses. *)
Variable float : string -> option Q.

(** *** Persistence *)

Definition load_user_preferences : M (dict (gmap string ReminderPref)) :=
  get_state user_preferences.

Definition save_user_preferences (preferences : dict (gmap string ReminderPref)) : M unit :=
  modify (set_user_preferences preferences).

Definition load_proposal_id_map : M (dict string) := get_state proposal_id_map.

Definition save_proposal_id_map (m : dict string) : M unit :=
  modify (set_proposal_id_map m).

Definition save_known_proposals (k : gset string) : M unit :=
  modify (set_known_proposals k).

(** *** Chat transport and job queue (framework side) *)

(** A call on the bot API: recorded when the transport accepts it ([net]),
    a [TelegramError] otherwise. *)
Definition bot_call (net : bool) (c : BotCall) : M unit :=
  if net then modify (fun s => set_sent (sent s ++ [c]) s)
  else raise TelegramError.

Definition send_message (net : bool) (chat_id : string) (text : Text)
    (reply_markup : option Keyboard) : M unit :=
  bot_call net (SendMessage chat_id text reply_markup).

Definition query_answer (net : bool) (chat_id : string) (text : option Text) : M unit :=
  bot_call net (AnswerCallbackQuery chat_id text).

(** What the transport does with the two calls of one button interaction:
    the reply to the chat and the acknowledgement of the query are awaited
    one after the other, and each is accepted or refused on its own. *)
Record Transport : Type := {
  reply_ok : bool;
  answer_ok : bool
}.

(** [job_queue.run_once(callback, when=..., data=...)]: a new pending job;
    the handle returned is its index. *)
Definition run_once (when : Z) (data : JobData) : M nat :=
  fun s =>
    (Return (length (job_queue s)),
     set_job_queue (job_queue s ++
       [{| when := when; data := data; removed := false; executed := false |}]) s).

(** [job.removed] *)
Definition job_removed (j : nat) : M bool :=
  get_state (fun s => from_option removed true (job_queue s !! j)).

(** [job.schedule_removal()]: a pending job is taken off the queue and
    flagged; a job that already ran is unknown to the scheduler. *)
Definition schedule_removal (j : nat) : M unit :=
  fun s =>
    match job_queue s !! j with
    | Some job =>
        if executed job then (Raise JobLookupError, s)
        else (Return tt, set_job_queue (<[j := mark_removed job]> (job_queue s)) s)
    | None => (Raise JobLookupError, s)
    end.

(** *** [send_reminder_message] *)

Definition send_reminder_message (net : bool) (d : JobData) : M unit :=
  try_except
    (send_message net (jd_chat_id d) (jd_message_text d) (Some (jd_buttons d))).

(** The queue runs a due job once: a job that is neither removed nor already
    run has its callback called and is then marked as run. *)
Definition job_fires (net : bool) (j : nat) : M unit :=
  fun s =>
    match job_queue s !! j with
    | Some job =>
        if job_live job then
          (send_reminder_message net (data job) ;;;
           modify (fun s' =>
             set_job_queue (<[j := mark_executed job]> (job_queue s')) s')) s
        else (Return tt, s)
    | None => (Return tt, s)
    end.

(** *** [cancel_scheduled_reminders] *)

Fixpoint cancel_jobs (jobs : list nat) : M unit :=
  match jobs with
  | [] => ret tt
  | job :: jobs' =>
      try_except
        (let* r := job_removed job in
         if r then ret tt else schedule_removal job) ;;;
      cancel_jobs jobs'
  end.

(** [del SCHEDULED_JOBS[chat_id][proposal_id]] *)
Definition table_delete (chat_id proposal_id : string)
    (table : gmap string (gmap string (list nat))) : gmap string (gmap string (list nat)) :=
  <[chat_id := delete proposal_id (default ∅ (table !! chat_id))]> table.

Definition cancel_scheduled_reminders (chat_id proposal_id : string) : M unit :=
  let* table := get_state SCHEDULED_JOBS in
  match table !! chat_id with
  | Some per_chat =>
      match per_chat !! proposal_id with
      | Some jobs =>
          cancel_jobs jobs ;;;
          modify (fun s =>
            set_SCHEDULED_JOBS (table_delete chat_id proposal_id (SCHEDULED_JOBS s)) s)
      | None => ret tt
      end
  | None => ret tt
  end.

(** *** [create_inline_buttons] *)

Definition create_inline_buttons (short_id : string) : Keyboard :=
  [VotedButton short_id] ::
  map (fun hours => [RemindInButton short_id hours]) (button_reminder_times cfg).

(** *** [get_reminder_intervals] *)

Definition get_reminder_intervals (chat_id proposal_id : string) : M (list Q * list Q) :=
  let* preferences := load_user_preferences in
  let user_reminders :=
    default (PDict None None)
      (default ∅ (dict_get preferences chat_id) !! proposal_id) in
  match user_reminders with
  | PDict from_start before_end =>
      ret (default (reminders_from_start cfg) from_start,
           default (reminders_before_end cfg) before_end)
  | _ => raise AttributeError
  end.

(** *** [schedule_reminders] *)

Definition proposal_link (proposal_type proposal_id : string) : string :=
  if decide (proposal_type = "snapshot") then
    ("https://snapshot.org/#/" ++ snapshot_space cfg ++ "/proposal/" ++ proposal_id)%string
  else if decide (proposal_type = "on-chain") then
    (base_url cfg ++ proposal_id ++ "?dao=" ++ chain_prefix cfg ++ ":"
       ++ frontend_display_contract_address cfg)%string
  else "".

(** [SCHEDULED_JOBS[chat_id][proposal_id].append(job)], after the source has
    made sure that both keys are there. *)
Definition table_append (chat_id proposal_id : string) (job : nat)
    (table : gmap string (gmap string (list nat))) : gmap string (gmap string (list nat)) :=
  let per_chat := default ∅ (table !! chat_id) in
  <[chat_id := <[proposal_id := default [] (per_chat !! proposal_id) ++ [job]]> per_chat]>
    table.

Definition track_job (chat_id proposal_id : string) (job : nat) : M unit :=
  modify (fun s =>
    set_SCHEDULED_JOBS (table_append chat_id proposal_id job (SCHEDULED_JOBS s)) s).

(** [SCHEDULED_JOBS[chat_id][proposal_id] = []], the chat's entry created if
    missing. *)
Definition table_reset (chat_id proposal_id : string)
    (table : gmap string (gmap string (list nat))) : gmap string (gmap string (list nat)) :=
  <[chat_id := <[proposal_id := []]> (default ∅ (table !! chat_id))]> table.

(** The loop over the from-start offsets. *)
Fixpoint schedule_from_start (now start_time : Z)
    (chat_id proposal_id short_id title link : string) (intervals : list Q) : M unit :=
  match intervals with
  | [] => ret tt
  | hours_after_start :: rest =>
      let when := start_time + timedelta_hours hours_after_start in
      if decide (when < now) then
        schedule_from_start now start_time chat_id proposal_id short_id title link rest
      else
        let buttons := create_inline_buttons short_id in
        let message_text := VotingStarted title proposal_id link in
        let* job := run_once when
                      {| jd_chat_id := chat_id; jd_proposal_id := proposal_id;
                         jd_message_text := message_text; jd_buttons := buttons |} in
        track_job chat_id proposal_id job ;;;
        schedule_from_start now start_time chat_id proposal_id short_id title link rest
  end.

(** The loop over the before-end offsets. *)
Fixpoint schedule_before_end (now end_time : Z)
    (chat_id proposal_id short_id title link : string) (intervals : list Q) : M unit :=
  match intervals with
  | [] => ret tt
  | hours_before_end :: rest =>
      let when := end_time - timedelta_hours hours_before_end in
      if decide (when < now) then
        schedule_before_end now end_time chat_id proposal_id short_id title link rest
      else
        let buttons := create_inline_buttons short_id in
        let minutes_left := minutes_of_hours hours_before_end in
        let message_text := MinutesLeft minutes_left title proposal_id link in
        let* job := run_once when
                      {| jd_chat_id := chat_id; jd_proposal_id := proposal_id;
                         jd_message_text := message_text; jd_buttons := buttons |} in
        track_job chat_id proposal_id job ;;;
        schedule_before_end now end_time chat_id proposal_id short_id title link rest
  end.

(** [now] is the clock as read on entry. *)
Definition schedule_reminders (now : Z) (chat_id proposal_id short_id title : string)
    (start_time end_time : Z) (proposal_type : string) : M unit :=
  let* (from_start_intervals, before_end_intervals) :=
    get_reminder_intervals chat_id proposal_id in
  let link := proposal_link proposal_type proposal_id in
  modify (fun s =>
    set_SCHEDULED_JOBS (table_reset chat_id proposal_id (SCHEDULED_JOBS s)) s) ;;;
  schedule_from_start now start_time chat_id proposal_id short_id title link
    from_start_intervals ;;;
  schedule_before_end now end_time chat_id proposal_id short_id title link
    before_end_intervals.

(** *** [button_callback] *)

(** [{v: k for k, v in proposal_id_map.items()}]: a later entry with the
    same short id overwrites an earlier one. *)
Definition reverse_map (m : dict string) : dict string :=
  foldl (fun acc kv => dict_set acc kv.2 kv.1) [] m.

(** [preferences["reminders"].setdefault(chat_id, {})[proposal_id] = v] *)
Definition set_reminder_pref (preferences : dict (gmap string ReminderPref))
    (chat_id proposal_id : string) (v : ReminderPref) : dict (gmap string ReminderPref) :=
  dict_set preferences chat_id
    (<[proposal_id := v]> (default ∅ (dict_get preferences chat_id))).

(** [data] is [query.data.split('|')], [now] the clock read by the snooze
    branch. *)
Definition button_callback (net : Transport) (now : Z) (chat_id : string)
    (data : list string) : M unit :=
  let* action := from_option ret (raise IndexError) (data !! 0%nat) in
  let* short_id := from_option ret (raise IndexError) (data !! 1%nat) in
  let* proposal_id_map := load_proposal_id_map in
  let short_id_to_proposal_id := reverse_map proposal_id_map in
  match dict_get short_id_to_proposal_id short_id with
  | None => query_answer (answer_ok net) chat_id (Some ErrorOccurred)
  | Some proposal_id =>
      let* preferences := load_user_preferences in
      (if decide (action = "voted") then
         save_user_preferences (set_reminder_pref preferences chat_id proposal_id PVoted) ;;;
         cancel_scheduled_reminders chat_id proposal_id ;;;
         send_message (reply_ok net) chat_id ThanksForVoting None
       else if decide (action = "remind_in") then
         let* param := from_option ret (raise IndexError) (data !! 2%nat) in
         let* remind_in_hours := from_option ret (raise ValueError) (float param) in
         let next_reminder_time := now + timedelta_hours remind_in_hours in
         save_user_preferences
           (set_reminder_pref preferences chat_id proposal_id (PInstant next_reminder_time)) ;;;
         let buttons := create_inline_buttons short_id in
         let message_text := TimeToVote proposal_id in
         let* job := run_once next_reminder_time
                       {| jd_chat_id := chat_id; jd_proposal_id := proposal_id;
                          jd_message_text := message_text; jd_buttons := buttons |} in
         track_job chat_id proposal_id job ;;;
         send_message (reply_ok net) chat_id (ReminderSet remind_in_hours) None
       else ret tt) ;;;
      query_answer (answer_ok net) chat_id None
  end.

(** *** [handle_new_proposal] *)

(** The loop over the registered chats.  [clock chat_id] is the clock as
    read by the call of [schedule_reminders] made for [chat_id]. *)
Fixpoint for_each_subscriber (clock : string -> Z)
    (proposal_id short_id title : string) (start_time end_time : Z)
    (proposal_type : string) (chats : list string)
    (preferences : dict (gmap string ReminderPref)) : M (dict (gmap string ReminderPref)) :=
  match chats with
  | [] => ret preferences
  | chat_id :: rest =>
      match dict_get preferences chat_id with
      | None => raise KeyError
      | Some per_chat =>
          match per_chat !! proposal_id with
          | None =>
              let preferences' :=
                dict_set preferences chat_id (<[proposal_id := PNull]> per_chat) in
              schedule_reminders (clock chat_id) chat_id proposal_id short_id title
                start_time end_time proposal_type ;;;
              for_each_subscriber clock proposal_id short_id title start_time end_time
                proposal_type rest preferences'
          | Some _ =>
              for_each_subscriber clock proposal_id short_id title start_time end_time
                proposal_type rest preferences
          end
      end
  end.

(** The short id of a proposal: the stored one, or the first eight
    characters of a fresh [uuid4], stored at once. *)
Definition resolve_short_id (uuid4 : string) (proposal_id : string) : M string :=
  let* proposal_id_map := load_proposal_id_map in
  match dict_get proposal_id_map proposal_id with
  | None =>
      let short_id := String.substring 0 8 uuid4 in
      save_proposal_id_map (dict_set proposal_id_map proposal_id short_id) ;;;
      ret short_id
  | Some short_id => ret short_id
  end.

Definition handle_new_proposal (uuid4 : string) (clock : string -> Z)
    (proposal_id title : string) (start_time end_time : Z)
    (proposal_type : string) : M unit :=
  let* preferences := load_user_preferences in
  let* short_id := resolve_short_id uuid4 proposal_id in
  let* preferences' :=
    for_each_subscriber clock proposal_id short_id title start_time end_time
      proposal_type (dict_keys preferences) preferences in
  save_user_preferences preferences'.

(** *** [start] and [test_proposal] *)

Definition start (net : bool) (chat_id : string) : M unit :=
  let* preferences := load_user_preferences in
  match dict_get preferences chat_id with
  | None => save_user_preferences (dict_set preferences chat_id ∅)
  | Some _ => ret tt
  end ;;;
  send_message net chat_id AddedToList None.

(** [uuid_id] names the proposal, [now1] and [now2] are the two clock reads. *)
Definition test_proposal (net : bool) (uuid_id uuid4 : string) (now1 now2 : Z)
    (clock : string -> Z) (chat_id : string) : M unit :=
  let proposal_id := ("test_proposal_id_" ++ uuid_id)%string in
  let title := "Test Proposal" in
  let start_time := now1 + timedelta_seconds 5 in
  let end_time := now2 + timedelta_seconds 120 in
  handle_new_proposal uuid4 clock proposal_id title start_time end_time "snapshot" ;;;
  send_message net chat_id (TestProposalCreated proposal_id) None.

(** *** The two monitors: what each does with one delivered proposal *)

(** One entry of the Snapshot response. *)
Record SnapshotProposal : Type := {
  sp_id : string;
  sp_title : string;
  sp_start : Z;
  sp_end : Z
}.

(** The body of the loop of [monitor_snapshot_proposals]. *)
Definition snapshot_proposal (uuid4 : string) (clock : string -> Z)
    (proposal : SnapshotProposal) : M unit :=
  let proposal_id := sp_id proposal in
  let title := sp_title proposal in
  let* known := get_state known_proposals in
  if decide (proposal_id ∈ known) then ret tt
  else
    save_known_proposals ({[proposal_id]} ∪ known) ;;;
    let start_time := fromtimestamp (sp_start proposal) in
    let end_time := fromtimestamp (sp_end proposal) in
    handle_new_proposal uuid4 clock proposal_id title start_time end_time "snapshot".

(** The body of the loop of [monitor_new_proposals_async]: one
    [ProposalInitialized] event, the chain height and two clock reads. *)
Definition onchain_proposal (uuid4 : string) (clock : string -> Z)
    (proposalId votingEndBlock current_block : Z) (now1 now2 : Z) : M unit :=
  let blocks_remaining := votingEndBlock - current_block in
  let average_block_time := 12 in
  let end_time := now1 + timedelta_seconds (blocks_remaining * average_block_time) in
  let start_time := now2 in
  let title := ("On-Chain Proposal " ++ pretty proposalId)%string in
  handle_new_proposal uuid4 clock (pretty proposalId) title start_time end_time "on-chain".

(** ** The event loop *)

(** What the single-threaded loop can run next. *)
Inductive Event : Type :=
  | EStart (net : bool) (chat_id : string)
  | ETestProposal (net : bool) (uuid_id uuid4 : string) (now1 now2 : Z)
      (clock : string -> Z) (chat_id : string)
  | EButton (net : Transport) (now : Z) (chat_id : string) (data : list string)
  | ESnapshot (uuid4 : string) (clock : string -> Z) (proposal : SnapshotProposal)
  | EOnChain (uuid4 : string) (clock : string -> Z)
      (proposalId votingEndBlock current_block : Z) (now1 now2 : Z)
  | EJobFires (net : bool) (job : nat).

Definition handler (e : Event) : M unit :=
  match e with
  | EStart net chat_id => start net chat_id
  | ETestProposal net uuid_id uuid4 now1 now2 clock chat_id =>
      test_proposal net uuid_id uuid4 now1 now2 clock chat_id
  | EButton net now chat_id data => button_callback net now chat_id data
  | ESnapshot uuid4 clock proposal => snapshot_proposal uuid4 clock proposal
  | EOnChain uuid4 clock proposalId votingEndBlock current_block now1 now2 =>
      onchain_proposal uuid4 clock proposalId votingEndBlock current_block now1 now2
  | EJobFires net job => job_fires net job
  end.

(** An exception that leaves a handler is caught and logged by the loop that
    called it; the state keeps the writes made so far. *)
Definition step (s : State) (e : Event) : State := (handler e s).2.

Definition run (s : State) (es : list Event) : State := foldl step s es.

End Bot.

(** ** Observations on a state *)

(** The value a preferences mapping holds for [proposal_id] under [chat_id]. *)
Definition pref_get (preferences : dict (gmap string ReminderPref))
    (chat_id proposal_id : string) : option ReminderPref :=
  dict_get preferences chat_id ≫= (.!! proposal_id).

(** The value persisted for [proposal_id] under [chat_id], if any. *)
Definition stored_pref (s : State) (chat_id proposal_id : string) : option ReminderPref :=
  pref_get (user_preferences s) chat_id proposal_id.

(** The handles a job table holds for a pair, if it has the pair. *)
Definition table_get (table : gmap string (gmap string (list nat)))
    (chat_id proposal_id : string) : option (list nat) :=
  table !! chat_id ≫= (.!! proposal_id).

(** The handles the job table holds for a pair, if it has the pair. *)
Definition tracked (s : State) (chat_id proposal_id : string) : option (list nat) :=
  table_get (SCHEDULED_JOBS s) chat_id proposal_id.

Definition job_for (chat_id proposal_id : string) (job : Job) : bool :=
  bool_decide (jd_chat_id (data job) = chat_id ∧ jd_proposal_id (data job) = proposal_id).

(** The jobs of the queue that are still to fire for a pair. *)
Definition live_jobs (s : State) (chat_id proposal_id : string) : list Job :=
  List.filter (fun job => job_live job && job_for chat_id proposal_id job) (job_queue s).

(** The fire times of the jobs created after the queue had [n] jobs. *)
Definition fire_times_from (n : nat) (s : State) : list Z :=
  map when (drop n (job_queue s)).

(** The offsets a stored value configures, if it is a mapping. *)
Definition configured_from_start (v : option ReminderPref) : option (list Q) :=
  match v with Some (PDict from_start _) => from_start | _ => None end.

Definition configured_before_end (v : option ReminderPref) : option (list Q) :=
  match v with Some (PDict _ before_end) => before_end | _ => None end.

Definition absent_or_mapping (v : option ReminderPref) : Prop :=
  match v with None | Some (PDict _ _) => True | _ => False end.

(** ** Sample configuration and states *)

Module Sample.

Definition cfg : Config :=
  {| reminders_from_start := [0%Q; 1%Q];
     reminders_before_end := [1%Q];
     button_reminder_times := [1%Q; (1 # 2)%Q];
     snapshot_space := "dao.eth";
     base_url := "https://app.example/proposals/";
     chain_prefix := "eth";
     frontend_display_contract_address := "0xabc" |}.

(** A stand-in for [float] that reads the payloads the sample buttons carry. *)
Definition float (s : string) : option Q :=
  if decide (s = "1.0") then Some 1%Q
  else if decide (s = "0.5") then Some (1 # 2)%Q
  else None.

(** A transport that accepts both calls of a button interaction. *)
Definition up : Transport := {| reply_ok := true; answer_ok := true |}.

(** A fresh process on empty files. *)
Definition empty : State :=
  {| user_preferences := []; proposal_id_map := []; known_proposals := ∅;
     SCHEDULED_JOBS := ∅; job_queue := []; sent := [] |}.

Definition uuid : string := "abcdef01-2345-4789-8abc-def012345678".

(** Proposal P1 opens at second 1000 and closes four hours later. *)
Definition P1 : SnapshotProposal :=
  {| sp_id := "P1"; sp_title := "Raise the quorum"; sp_start := 1000;
     sp_end := 1000 + 4 * 3600 |}.

Definition t0 : Z := fromtimestamp 1000.

(** Chat 42 subscribes, then P1 arrives at the instant it opens. *)
Definition subscribed : State := run cfg float empty [EStart true "42"].

Definition scheduled : State :=
  run cfg float subscribed [ESnapshot uuid (fun _ => t0) P1].

(** Chat 42 then asks to be reminded in an hour. *)
Definition snoozed : State :=
  run cfg float scheduled [EButton up (t0 + 5) "42" ["remind_in"; "abcdef01"; "1.0"]].

(** Chat 42 says it has voted. *)
Definition voted : State :=
  run cfg float scheduled [EButton up (t0 + 5) "42" ["voted"; "abcdef01"]].

End Sample.

(** ** What one call of [schedule_reminders] registers *)

Section Registered.

Context (cfg : Config) (now : Z) (chat_id proposal_id short_id title link : string).

Definition from_start_job (start_time : Z) (h : Q) : Job :=
  {| when := start_time + timedelta_hours h;
     data := {| jd_chat_id := chat_id; jd_proposal_id := proposal_id;
                jd_message_text := VotingStarted title proposal_id link;
                jd_buttons := create_inline_buttons cfg short_id |};
     removed := false; executed := false |}.

Definition before_end_job (end_time : Z) (h : Q) : Job :=
  {| when := end_time - timedelta_hours h;
     data := {| jd_chat_id := chat_id; jd_proposal_id := proposal_id;
                jd_message_text :=
                  MinutesLeft (minutes_of_hours h) title proposal_id link;
                jd_buttons := create_inline_buttons cfg short_id |};
     removed := false; executed := false |}.

(** The offsets whose instant is not before [now]. *)
Definition kept_from_start (start_time : Z) (hs : list Q) : list Q :=
  filter (fun h => now <= start_time + timedelta_hours h) hs.

Definition kept_before_end (end_time : Z) (hs : list Q) : list Q :=
  filter (fun h => now <= end_time - timedelta_hours h) hs.

Definition registered_jobs (start_time end_time : Z) (from_start before_end : list Q)
    : list Job :=
  (from_start_job start_time <$> kept_from_start start_time from_start) ++
  (before_end_job end_time <$> kept_before_end end_time before_end).

End Registered.

(** The two loops of [schedule_reminders], told apart by the end of the
    voting window their offsets are counted from. *)
Inductive Anchor : Type := FromStart | BeforeEnd.

Definition offset_instant (a : Anchor) (start_time end_time : Z) (h : Q) : Z :=
  match a with
  | FromStart => start_time + timedelta_hours h
  | BeforeEnd => end_time - timedelta_hours h
  end.

Definition schedule_loop (cfg : Config) (a : Anchor) (now start_time end_time : Z)
    (chat_id proposal_id short_id title link : string) (intervals : list Q) : M unit :=
  match a with
  | FromStart =>
      schedule_from_start cfg now start_time chat_id proposal_id short_id title link intervals
  | BeforeEnd =>
      schedule_before_end cfg now end_time chat_id proposal_id short_id title link intervals
  end.

(** The table after the handles [jobs] were appended for a pair, in order. *)
Definition track_all (chat_id proposal_id : string) (jobs : list nat)
    (table : gmap string (gmap string (list nat))) : gmap string (gmap string (list nat)) :=
  foldl (fun t j => table_append chat_id proposal_id j t) table jobs.

(** ** What a cancellation does to the queue *)

(** A pending job is flagged as removed; a job that ran or was removed
    before is left as it is. *)
Definition cancelled (job : Job) : Job :=
  if removed job || executed job then job else mark_removed job.

Definition cancel_queue (jobs : list nat) (queue : list Job) : list Job :=
  foldl (fun q j => alter cancelled j q) queue jobs.

(** ** Where the branches of [button_callback] leave the state *)

(** The job a snooze registers. *)
Definition snooze_job (cfg : Config) (chat_id proposal_id short_id : string)
    (next_reminder_time : Z) : Job :=
  {| when := next_reminder_time;
     data := {| jd_chat_id := chat_id; jd_proposal_id := proposal_id;
                jd_message_text := TimeToVote proposal_id;
                jd_buttons := create_inline_buttons cfg short_id |};
     removed := false; executed := false |}.

(** The state in which the snooze branch of [button_callback] starts to talk
    to the transport. *)
Definition snoozed_state (cfg : Config) (chat_id proposal_id short_id : string)
    (next_reminder_time : Z) (s : State) : State :=
  set_SCHEDULED_JOBS
    (table_append chat_id proposal_id (length (job_queue s)) (SCHEDULED_JOBS s))
    (set_job_queue
       (job_queue s ++ [snooze_job cfg chat_id proposal_id short_id next_reminder_time])
       (set_user_preferences
          (set_reminder_pref (user_preferences s) chat_id proposal_id
             (PInstant next_reminder_time)) s)).

(** The state in which the voted branch starts to talk to the transport. *)
Definition voted_state (chat_id proposal_id : string) (s : State) : State :=
  (cancel_scheduled_reminders chat_id proposal_id
     (set_user_preferences
        (set_reminder_pref (user_preferences s) chat_id proposal_id PVoted) s)).2.

(** The reply of a branch followed by the acknowledgement of the query: a
    refused reply ends the handler, and so does a refused acknowledgement,
    the reply then being sent. *)
Definition reply_and_answer (net : Transport) (chat_id : string) (text : Text) (s : State)
    : outcome unit * State :=
  if reply_ok net then
    if answer_ok net then
      (Return tt,
       set_sent (sent s ++ [SendMessage chat_id text None;
                            AnswerCallbackQuery chat_id None]) s)
    else (Raise TelegramError, set_sent (sent s ++ [SendMessage chat_id text None]) s)
  else (Raise TelegramError, s).

(** ** Consistency of the job table with the queue and the preferences *)

(** Every job of the queue belongs to a pair the preferences have a value
    for. *)
Definition jobs_have_prefs (preferences : dict (gmap string ReminderPref))
    (queue : list Job) : Prop :=
  forall job, job ∈ queue ->
    is_Some (pref_get preferences (jd_chat_id (data job)) (jd_proposal_id (data job))).

(** Every job that can still fire is tracked under its pair: no orphans. *)
Definition live_jobs_tracked (table : gmap string (gmap string (list nat)))
    (queue : list Job) : Prop :=
  forall j job, queue !! j = Some job -> job_live job = true ->
    exists l, table_get table (jd_chat_id (data job)) (jd_proposal_id (data job)) = Some l
              /\ j ∈ l.

Definition consistent (s : State) : Prop :=
  jobs_have_prefs (user_preferences s) (job_queue s) /\
  live_jobs_tracked (SCHEDULED_JOBS s) (job_queue s).

(** A process starts with an empty queue and an empty table, on whatever the
    three files hold. *)
Definition fresh (s : State) : Prop := job_queue s = [] /\ SCHEDULED_JOBS s = ∅.

(** The states the event loop can be in. *)
Inductive reachable (cfg : Config) (float : string -> option Q) : State -> Prop :=
  | reachable_fresh s : fresh s -> reachable cfg float s
  | reachable_step s e :
      reachable cfg float s -> reachable cfg float (step cfg float s e).



(** ** Notions used by the statements *)

(** [P] survives a run of [m], whether [m] returns or raises. *)
Definition stable {A} (P : State -> Prop) (m : M A) : Prop :=
  forall s, P s -> P (m s).2.

(** [s'] differs from [s] at most in the calls seen by the transport. *)
Definition same_but_sent (s s' : State) : Prop :=
  user_preferences s' = user_preferences s /\
  proposal_id_map s' = proposal_id_map s /\
  known_proposals s' = known_proposals s /\
  SCHEDULED_JOBS s' = SCHEDULED_JOBS s /\
  job_queue s' = job_queue s.

(** [P] does not read the preferences, the job table, the job queue or the
    transport log. *)
Definition frame (P : State -> Prop) : Prop :=
  (forall s p, P s -> P (set_user_preferences p s)) /\
  (forall s t, P s -> P (set_SCHEDULED_JOBS t s)) /\
  (forall s q, P s -> P (set_job_queue q s)) /\
  (forall s o, P s -> P (set_sent o s)).

Create HintDb stable discriminated.

(** * The rest of the program *)

(** ** Text

    Configuration values and callback payloads are text.  A character is a
    code point below 256. *)

(** [s.split(sep)] for a separator of one character: always at least one
    field. *)
Fixpoint split_on (sep : ascii) (s : string) : list string :=
  match s with
  | EmptyString => [EmptyString]
  | String c s' =>
      if decide (c = sep) then EmptyString :: split_on sep s'
      else match split_on sep s' with
           | [] => [String c EmptyString]
           | field :: fields => String c field :: fields
           end
  end.

(** [str.isspace] on one character: tab, line feed, vertical tab, form feed,
    carriage return, the four separators 28 to 31, space, next line (133) and
    no-break space (160). *)
Definition is_space (c : ascii) : bool :=
  let n := nat_of_ascii c in
  ((9 <=? n) && (n <=? 13) || (28 <=? n) && (n <=? 32) || (n =? 133) || (n =? 160))%nat.

Fixpoint lstrip (s : string) : string :=
  match s with
  | EmptyString => EmptyString
  | String c s' => if is_space c then lstrip s' else s
  end.

Fixpoint rstrip (s : string) : string :=
  match s with
  | EmptyString => EmptyString
  | String c s' =>
      match rstrip s' with
      | EmptyString => if is_space c then EmptyString else String c EmptyString
      | r => String c r
      end
  end.

(** [s.strip()] *)
Definition strip (s : string) : string := lstrip (rstrip s).

(** The characters of a string. *)
Fixpoint chars (s : string) : list ascii :=
  match s with
  | EmptyString => []
  | String c s' => c :: chars s'
  end.

(** ** [parse_intervals] *)

Section Intervals.

(** Python's floats and [float] on a string; [None] where it raises
    [ValueError]. *)
Context {F : Type} (float : string -> option F).

(** [[float(x.strip()) for x in fields if x.strip()]] *)
Fixpoint floats_of_fields (fields : list string) : outcome (list F) :=
  match fields with
  | [] => Return []
  | x :: rest =>
      if decide (strip x = EmptyString) then floats_of_fields rest
      else match float (strip x) with
           | None => Raise ValueError
           | Some f =>
               match floats_of_fields rest with
               | Return fs => Return (f :: fs)
               | Raise e => Raise e
               end
           end
  end.

Definition parse_intervals (value : string) : outcome (list F) :=
  let value := hd EmptyString (split_on "#" value) in
  floats_of_fields (split_on "," value).

End Intervals.

(** Two results in sequence: the lists joined, or the first exception. *)
Definition outcome_app {A} (r1 r2 : outcome (list A)) : outcome (list A) :=
  match r1 with
  | Raise e => Raise e
  | Return l1 => match r2 with
                 | Raise e => Raise e
                 | Return l2 => Return (l1 ++ l2)
                 end
  end.

(** ** Callback payloads *)

Section Payloads.

Variable cfg : Config.
Variable float : string -> option Q.

(** The text an f-string puts for a float. *)
Variable repr : Q -> string.

(** [callback_data] of a button made by [create_inline_buttons] *)
Definition callback_data (b : InlineKeyboardButton) : string :=
  match b with
  | VotedButton short_id => ("voted|" ++ short_id)%string
  | RemindInButton short_id hours =>
      ("remind_in|" ++ short_id ++ "|" ++ repr hours)%string
  end.

(** [button_callback] on the payload as it arrives: [query.data] is split
    on the bar. *)
Definition on_callback_query (net : Transport) (now : Z) (chat_id query_data : string)
    : M unit :=
  button_callback cfg float net now chat_id (split_on "|" query_data).

End Payloads.

(** ** The monitors, one poll at a time *)

Section Monitors.

Variable cfg : Config.

(** One entry of the list under [data.proposals]; a field is [None] when
    the entry lacks it. *)
Record SnapshotEntry : Type := {
  se_id : option string;
  se_title : option string;
  se_start : option Z;
  se_end : option Z
}.

Definition entry_of (p : SnapshotProposal) : SnapshotEntry :=
  {| se_id := Some (sp_id p); se_title := Some (sp_title p);
     se_start := Some (sp_start p); se_end := Some (sp_end p) |}.

(** [proposal[key]] *)
Definition field {A} (v : option A) : M A := from_option ret (raise KeyError) v.

(** The body of the loop of [monitor_snapshot_proposals] on an entry as it
    comes: the id and the title are read first, the start and the end only
    once the id is in the known set. *)
Definition snapshot_entry (uuid4 : string) (clock : string -> Z)
    (proposal : SnapshotEntry) : M unit :=
  let* proposal_id := field (se_id proposal) in
  let* title := field (se_title proposal) in
  let* known := get_state known_proposals in
  if decide (proposal_id ∈ known) then ret tt
  else
    save_known_proposals ({[proposal_id]} ∪ known) ;;;
    let* start := field (se_start proposal) in
    let start_time := fromtimestamp start in
    let* end_ := field (se_end proposal) in
    let end_time := fromtimestamp end_ in
    handle_new_proposal cfg uuid4 clock proposal_id title start_time end_time "snapshot".

(** What one request to the Snapshot hub comes back with. *)
Inductive SnapshotResponse : Type :=
  | SnapshotFailed (e : exn)
  | SnapshotErrors
  | SnapshotData (proposals : list SnapshotEntry).

(** [for proposal in proposals: ...]; [uuid4 i] is the uuid drawn, and
    [clock i] the clock read, while the entry at position [i] of the loop
    is processed. *)
Fixpoint snapshot_for (uuid4 : nat -> string) (clock : nat -> string -> Z) (i : nat)
    (proposals : list SnapshotEntry) : M unit :=
  match proposals with
  | [] => ret tt
  | proposal :: rest =>
      snapshot_entry (uuid4 i) (clock i) proposal ;;;
      snapshot_for uuid4 clock (S i) rest
  end.

(** One turn of the loop of [monitor_snapshot_proposals]. *)
Definition snapshot_poll (uuid4 : nat -> string) (clock : nat -> string -> Z)
    (response : SnapshotResponse) : M unit :=
  try_except
    match response with
    | SnapshotFailed e => raise e
    | SnapshotErrors => ret tt
    | SnapshotData proposals => snapshot_for uuid4 clock 0 (reverse proposals)
    end.

(** A [ProposalInitialized] event with what the environment answers while
    it is processed: the chain height ([None] when the call raises), two
    clock reads, the uuid drawn and the clock read per chat. *)
Record OnChainDelivery : Type := {
  oc_proposalId : Z;
  oc_votingEndBlock : Z;
  oc_block_number : option Z;
  oc_now1 : Z;
  oc_now2 : Z;
  oc_uuid4 : string;
  oc_clock : string -> Z
}.

(** The body of the loop of [monitor_new_proposals_async]. *)
Definition onchain_event (d : OnChainDelivery) : M unit :=
  let* current_block := from_option ret (raise ValueError) (oc_block_number d) in
  onchain_proposal cfg (oc_uuid4 d) (oc_clock d) (oc_proposalId d) (oc_votingEndBlock d)
    current_block (oc_now1 d) (oc_now2 d).

Fixpoint onchain_for (events : list OnChainDelivery) : M unit :=
  match events with
  | [] => ret tt
  | event :: rest => onchain_event event ;;; onchain_for rest
  end.

(** One turn of the loop of [monitor_new_proposals_async]; [None] when
    [get_new_entries] raises. *)
Definition onchain_poll (events : option (list OnChainDelivery)) : M unit :=
  try_except
    match events with
    | None => raise ValueError
    | Some events => onchain_for events
    end.

End Monitors.

(** ** Deliveries and events within range

    The conditions under which the source gets through its time arithmetic
    without [OverflowError] or [ValueError] while it handles a delivery. *)

(** [fromtimestamp] accepts the start and the end of the entry, and the
    default offsets can be applied to them. *)
Definition snapshot_in_range (cfg : Config) (p : SnapshotProposal) : bool :=
  is_datetime (fromtimestamp (sp_start p)) && is_datetime (fromtimestamp (sp_end p)) &&
  schedulable (reminders_from_start cfg) (reminders_before_end cfg)
    (fromtimestamp (sp_start p)) (fromtimestamp (sp_end p)).

(** The estimate of the end of the vote can be computed, and the default
    offsets can be applied to the window. *)
Definition onchain_in_range (cfg : Config) (votingEndBlock current_block now1 now2 : Z)
    : bool :=
  let remaining := timedelta_seconds ((votingEndBlock - current_block) * 12) in
  is_timedelta remaining && is_datetime (now1 + remaining) &&
  schedulable (reminders_from_start cfg) (reminders_before_end cfg) now2 (now1 + remaining).

(** The chain height is read and the event is within range. *)
Definition delivery_in_range (cfg : Config) (d : OnChainDelivery) : bool :=
  match oc_block_number d with
  | Some current_block =>
      onchain_in_range cfg (oc_votingEndBlock d) current_block (oc_now1 d) (oc_now2 d)
  | None => false
  end.

(** An event of the loop during which no time arithmetic leaves the range:
    a snooze of a length that [now] can be moved by, a proposal with a
    window the default offsets can be applied to. *)
Definition event_in_range (cfg : Config) (float : string -> option Q) (e : Event) : bool :=
  match e with
  | EStart _ _ => true
  | ETestProposal _ _ _ now1 now2 _ _ =>
      is_datetime (now1 + timedelta_seconds 5) && is_datetime (now2 + timedelta_seconds 120) &&
      schedulable (reminders_from_start cfg) (reminders_before_end cfg)
        (now1 + timedelta_seconds 5) (now2 + timedelta_seconds 120)
  | EButton _ now _ data =>
      if decide (data !! 0%nat = Some "remind_in")
      then from_option (hours_after now) true (data !! 2%nat ≫= float)
      else true
  | ESnapshot _ _ p => snapshot_in_range cfg p
  | EOnChain _ _ _ votingEndBlock current_block now1 now2 =>
      onchain_in_range cfg votingEndBlock current_block now1 now2
  | EJobFires _ _ => true
  end.

(** The deliveries a loop of the Snapshot monitor over complete entries
    amounts to, the entry at position [k] handled with the uuid and the
    clock of turn [i + k]. *)
Definition snapshot_events (uuid4 : nat -> string) (clock : nat -> string -> Z) (i : nat)
    (proposals : list SnapshotProposal) : list Event :=
  imap (fun k p => ESnapshot (uuid4 (i + k)%nat) (clock (i + k)%nat) p) proposals.

(** ** What the handlers keep *)

(** The state a first scheduling for a pair ends in, with the default
    offsets. *)
Definition first_scheduling (cfg : Config) (now : Z)
    (chat_id proposal_id short_id title : string) (start_time end_time : Z)
    (proposal_type : string) (s : State) : State :=
  let new := registered_jobs cfg now chat_id proposal_id short_id title
               (proposal_link cfg proposal_type proposal_id) start_time end_time
               (reminders_from_start cfg) (reminders_before_end cfg) in
  set_SCHEDULED_JOBS
    (track_all chat_id proposal_id (seq (length (job_queue s)) (length new))
       (table_reset chat_id proposal_id (SCHEDULED_JOBS s)))
    (set_job_queue (job_queue s ++ new) s).

(** Every handle of the table points to a job of the queue that was created
    for the pair the handle is tracked under. *)
Definition handles_own (s : State) : Prop :=
  forall c p l j, tracked s c p = Some l -> j ∈ l ->
    exists job, job_queue s !! j = Some job /\
                jd_chat_id (data job) = c /\ jd_proposal_id (data job) = p.

(** [job'] is [job] later in its life: same time, same content, flags that
    were set still set. *)
Definition job_ages (job job' : Job) : Prop :=
  when job' = when job /\ data job' = data job /\
  (removed job = true -> removed job' = true) /\
  (executed job = true -> executed job' = true).

(** Every job of [q] is still in [q'], under its handle, later in its
    life. *)
Definition queue_ages (q q' : list Job) : Prop :=
  forall j job, q !! j = Some job -> exists job', q' !! j = Some job' /\ job_ages job job'.

(** No chat and no stored value of [s] is missing from [s']. *)
Definition prefs_grow (s s' : State) : Prop :=
  (forall c, c ∈ dict_keys (user_preferences s) -> c ∈ dict_keys (user_preferences s')) /\
  (forall c p, is_Some (stored_pref s c p) -> is_Some (stored_pref s' c p)).

(** The buttons of every job carry a short id under which the proposal of
    the job is stored. *)
Definition buttons_resolve (cfg : Config) (s : State) : Prop :=
  forall job, job ∈ job_queue s ->
    exists sid, (jd_proposal_id (data job), sid) ∈ proposal_id_map s /\
                jd_buttons (data job) = create_inline_buttons cfg sid.

(** ** More sample data *)

Module MoreSample.

Import Sample.

(** A stand-in for the text of a float that writes the two snooze lengths
    of the sample configuration. *)
Definition repr (h : Q) : string :=
  if (Qden h =? 1)%positive then "1.0" else "0.5".

Definition uuid2 : string := "12345678-2345-4789-8abc-def012345678".

(** Proposal P2 has the window of P1. *)
Definition P2 : SnapshotProposal :=
  {| sp_id := "P2"; sp_title := "Lower the fee"; sp_start := 1000;
     sp_end := 1000 + 4 * 3600 |}.

(** Chat 42 with pending reminders for P1 and for P2. *)
Definition two_proposals : State :=
  run cfg float scheduled [ESnapshot uuid2 (fun _ => t0) P2].

(** An entry for P2 that came without its start. *)
Definition P2_without_start : SnapshotEntry :=
  {| se_id := Some "P2"; se_title := Some "Lower the fee"; se_start := None;
     se_end := Some (1000 + 4 * 3600) |}.

(** Event 7 with the chain height read, event 8 with the read failing. *)
Definition event7 : OnChainDelivery :=
  {| oc_proposalId := 7; oc_votingEndBlock := 1300; oc_block_number := Some 1000;
     oc_now1 := t0; oc_now2 := t0; oc_uuid4 := uuid2; oc_clock := fun _ => t0 |}.

Definition event8 : OnChainDelivery :=
  {| oc_proposalId := 8; oc_votingEndBlock := 1400; oc_block_number := None;
     oc_now1 := t0; oc_now2 := t0; oc_uuid4 := uuid; oc_clock := fun _ => t0 |}.

End MoreSample.

(** * Properties *)

(** A lemma depends on the section variables its statement mentions. *)
Set Default Proof Using "Type*".

Section Properties.

Context (cfg : Config) (float : string -> option Q).

(** ** Dictionaries *)

Lemma dict_get_set_eq {V} (d : dict V) k v : dict_get (dict_set d k v) k = Some v.
Proof.
  induction d as [|[k' v'] d IH]; simpl.
  - by rewrite decide_True.
  - destruct (decide (k' = k)) as [->|Hne]; simpl.
    + by rewrite decide_True.
    + by rewrite decide_False.
Qed.

Lemma dict_get_set_ne {V} (d : dict V) k k' v :
  k ≠ k' -> dict_get (dict_set d k v) k' = dict_get d k'.
Proof.
  intros Hne. induction d as [|[k0 v0] d IH]; simpl.
  - by rewrite decide_False.
  - destruct (decide (k0 = k)) as [->|Hne0]; simpl.
    + by rewrite !decide_False.
    + destruct (decide (k0 = k')); [done | exact IH].
Qed.

Lemma dict_keys_set {V} (d : dict V) k v :
  is_Some (dict_get d k) -> dict_keys (dict_set d k v) = dict_keys d.
Proof.
  unfold dict_keys. induction d as [|[k0 v0] d IH]; simpl; intros Hs.
  - by destruct Hs.
  - destruct (decide (k0 = k)) as [->|Hne]; simpl; [done|].
    f_equal. by apply IH.
Qed.

Lemma dict_get_keys {V} (d : dict V) k :
  k ∈ dict_keys d -> is_Some (dict_get d k).
Proof.
  unfold dict_keys. induction d as [|[k0 v0] d IH]; simpl.
  - by intros ?%elem_of_nil.
  - intros [->|Hin]%elem_of_cons.
    + rewrite decide_True; eauto.
    + destruct (decide (k0 = k)); eauto.
Qed.

Lemma dict_set_id {V} (d : dict V) k v :
  dict_get d k = Some v -> dict_set d k v = d.
Proof.
  induction d as [|[k0 v0] d IH]; simpl; [done|].
  destruct (decide (k0 = k)) as [->|Hne].
  - by intros [= ->].
  - intros Hg. by rewrite IH.
Qed.

(** ** Stability through the monad *)

Lemma stable_ret {A} P (a : A) : stable P (ret a).
Proof. by intros s. Qed.

Lemma stable_raise {A} P e : stable P (@raise A e).
Proof. by intros s. Qed.

Lemma stable_bind {A B} P (m : M A) (k : A -> M B) :
  stable P m -> (forall a, stable P (k a)) -> stable P (bind m k).
Proof.
  intros Hm Hk s HP. unfold bind.
  specialize (Hm s HP). destruct (m s) as [[a|e] s']; simpl in *; [|done].
  by apply Hk.
Qed.

Lemma stable_try_except P m : stable P m -> stable P (try_except m).
Proof.
  intros Hm s HP. unfold try_except.
  specialize (Hm s HP). by destruct (m s) as [[a|e] s'].
Qed.

Lemma stable_get_state {A} P (f : State -> A) : stable P (get_state f).
Proof. by intros s. Qed.

Lemma stable_modify P f : (forall s, P s -> P (f s)) -> stable P (modify f).
Proof. intros Hf s HP. by apply Hf. Qed.

Lemma stable_from_option {A B} P (f : A -> M B) (m : M B) (o : option A) :
  (forall a, stable P (f a)) -> stable P m -> stable P (from_option f m o).
Proof. intros Hf Hm. destruct o; simpl; [apply Hf | exact Hm]. Qed.

#[local] Hint Resolve stable_ret stable_raise stable_get_state stable_try_except : stable.
#[local] Hint Extern 1 (stable _ (bind _ _)) => apply stable_bind; [|intros ?] : stable.
#[local] Hint Extern 1 (stable _ (from_option _ _ _)) =>
  apply stable_from_option; [intros ?|] : stable.
#[local] Hint Extern 1 (stable _ (modify _)) => apply stable_modify; intros ? ? : stable.
#[local] Hint Extern 2 (stable _ (if ?c then _ else _)) => destruct c : stable.
#[local] Hint Extern 2 (stable _ (match ?x with _ => _ end)) => destruct x : stable.

(** ** What a handler cannot touch *)

Section Frame.

Context (P : State -> Prop) (HP : frame P).

Lemma frame_preferences s p : P s -> P (set_user_preferences p s).
Proof. apply HP. Qed.
Lemma frame_table s t : P s -> P (set_SCHEDULED_JOBS t s).
Proof. apply HP. Qed.
Lemma frame_queue s q : P s -> P (set_job_queue q s).
Proof. apply HP. Qed.
Lemma frame_sent s o : P s -> P (set_sent o s).
Proof. apply HP. Qed.

#[local] Hint Resolve frame_preferences frame_table frame_queue frame_sent : stable.

Lemma stable_save_user_preferences p : stable P (save_user_preferences p).
Proof. unfold save_user_preferences. auto with stable. Qed.

Lemma stable_bot_call net c : stable P (bot_call net c).
Proof. unfold bot_call. auto with stable. Qed.

Lemma stable_run_once w d : stable P (run_once w d).
Proof. intros s Hs. by apply frame_queue. Qed.

Lemma stable_schedule_removal j : stable P (schedule_removal j).
Proof.
  intros s Hs. unfold schedule_removal.
  destruct (job_queue s !! j) as [job|]; [|done].
  destruct (executed job); [done|]. by apply frame_queue.
Qed.

Lemma stable_track_job c p j : stable P (track_job c p j).
Proof. unfold track_job. auto with stable. Qed.

#[local] Hint Resolve stable_save_user_preferences stable_bot_call stable_run_once
  stable_schedule_removal stable_track_job : stable.

Lemma stable_cancel_jobs js : stable P (cancel_jobs js).
Proof. induction js as [|j js IH]; simpl; unfold job_removed; auto 10 with stable. Qed.

#[local] Hint Resolve stable_cancel_jobs : stable.

Lemma stable_cancel_scheduled_reminders c p :
  stable P (cancel_scheduled_reminders c p).
Proof. unfold cancel_scheduled_reminders. auto 10 with stable. Qed.

Lemma stable_send_reminder_message net d : stable P (send_reminder_message net d).
Proof. unfold send_reminder_message, send_message. auto with stable. Qed.

#[local] Hint Resolve stable_cancel_scheduled_reminders stable_send_reminder_message : stable.

Lemma stable_job_fires net j : stable P (job_fires net j).
Proof.
  intros s Hs. unfold job_fires.
  destruct (job_queue s !! j) as [job|]; [|done].
  destruct (job_live job); [|done].
  revert s Hs. apply stable_bind; [auto with stable|].
  intros _. apply stable_modify. intros. by apply frame_queue.
Qed.

Lemma stable_get_reminder_intervals c p : stable P (get_reminder_intervals cfg c p).
Proof. unfold get_reminder_intervals, load_user_preferences. auto with stable. Qed.

Lemma stable_schedule_from_start now st c p sid t l hs :
  stable P (schedule_from_start cfg now st c p sid t l hs).
Proof. induction hs as [|h hs IH]; simpl; auto 10 with stable. Qed.

Lemma stable_schedule_before_end now en c p sid t l hs :
  stable P (schedule_before_end cfg now en c p sid t l hs).
Proof. induction hs as [|h hs IH]; simpl; auto 10 with stable. Qed.

#[local] Hint Resolve stable_get_reminder_intervals stable_schedule_from_start
  stable_schedule_before_end : stable.

Lemma stable_schedule_reminders now c p sid t st en ty :
  stable P (schedule_reminders cfg now c p sid t st en ty).
Proof.
  unfold schedule_reminders.
  apply stable_bind; [auto with stable|]. intros [fs be]. auto 10 with stable.
Qed.

#[local] Hint Resolve stable_schedule_reminders : stable.

Lemma stable_for_each_subscriber clock p sid t st en ty chats prefs :
  stable P (for_each_subscriber cfg clock p sid t st en ty chats prefs).
Proof.
  revert prefs. induction chats as [|c chats IH]; intros prefs; simpl;
    auto 10 with stable.
Qed.

Lemma stable_start net c : stable P (start net c).
Proof. unfold start, load_user_preferences, send_message. auto 10 with stable. Qed.

Lemma stable_button_callback net now c d :
  stable P (button_callback cfg float net now c d).
Proof.
  unfold button_callback, load_proposal_id_map, load_user_preferences,
    send_message, query_answer.
  auto 30 with stable.
Qed.

#[local] Hint Resolve stable_for_each_subscriber : stable.

(** A handler that is given a proposal touches the proposal-id map only by
    resolving the short id. *)
Lemma stable_handle_new_proposal uuid4 clock p t st en ty :
  stable P (resolve_short_id uuid4 p) ->
  stable P (handle_new_proposal cfg uuid4 clock p t st en ty).
Proof.
  intros Hr. unfold handle_new_proposal, load_user_preferences.
  auto 10 with stable.
Qed.

End Frame.

(** ** Every handler of the loop *)

Lemma stable_handler (P : State -> Prop) :
  frame P ->
  (forall uuid4 p, stable P (resolve_short_id uuid4 p)) ->
  (forall s p, P s -> P (set_known_proposals ({[p]} ∪ known_proposals s) s)) ->
  forall e, stable P (handler cfg float e).
Proof.
  intros HP Hr Hk [net c|net u1 u2 n1 n2 clock c|net now c d|u clock p
                  |u clock i v b n1 n2|net j]; simpl.
  - by apply stable_start.
  - unfold test_proposal, send_message. apply stable_bind.
    + by apply stable_handle_new_proposal.
    + intros _. by apply stable_bot_call.
  - by apply stable_button_callback.
  - intros s Hs. unfold snapshot_proposal, bind, get_state, save_known_proposals, modify.
    destruct (decide (sp_id p ∈ known_proposals s)); [done|].
    apply stable_handle_new_proposal; auto.
  - by apply stable_handle_new_proposal.
  - by apply stable_job_fires.
Qed.

Lemma stable_run (P : State -> Prop) :
  (forall e, stable P (handler cfg float e)) ->
  forall es s, P s -> P (run cfg float s es).
Proof.
  intros Hh es. induction es as [|e es IH]; intros s Hs; [done|].
  simpl. apply IH. by apply Hh.
Qed.

(** ** Short ids *)

Lemma frame_short_id pid sid :
  frame (fun s => dict_get (proposal_id_map s) pid = Some sid).
Proof. by repeat split. Qed.

Lemma resolve_short_id_keeps pid sid uuid4 p :
  stable (fun s => dict_get (proposal_id_map s) pid = Some sid)
         (resolve_short_id uuid4 p).
Proof.
  intros s Hs. unfold resolve_short_id, bind, load_proposal_id_map, get_state.
  destruct (dict_get (proposal_id_map s) p) eqn:Hp; simpl; [done|].
  rewrite dict_get_set_ne; [done|]. intros ->. congruence.
Qed.

Lemma resolve_short_id_stored uuid4 pid sid s :
  dict_get (proposal_id_map s) pid = Some sid ->
  resolve_short_id uuid4 pid s = (Return sid, s).
Proof.
  intros Hs. unfold resolve_short_id, bind, load_proposal_id_map, get_state.
  by rewrite Hs.
Qed.

Lemma resolve_short_id_assigns uuid4 pid s :
  let sid := default (String.substring 0 8 uuid4) (dict_get (proposal_id_map s) pid) in
  (resolve_short_id uuid4 pid s).1 = Return sid /\
  dict_get (proposal_id_map (resolve_short_id uuid4 pid s).2) pid = Some sid.
Proof.
  unfold resolve_short_id, bind, load_proposal_id_map, get_state.
  destruct (dict_get (proposal_id_map s) pid) eqn:Hp; simpl; [done|].
  by rewrite dict_get_set_eq.
Qed.

Lemma short_id_kept_by_run pid sid es s :
  dict_get (proposal_id_map s) pid = Some sid ->
  dict_get (proposal_id_map (run cfg float s es)) pid = Some sid.
Proof.
  apply (stable_run (fun s => dict_get (proposal_id_map s) pid = Some sid)).
  apply stable_handler.
  - apply frame_short_id.
  - intros. apply resolve_short_id_keeps.
  - done.
Qed.

(** C4. The first handling of a proposal leaves it with a short id in the
    proposal-id map: the one already stored if there was one, else the first
    eight characters of the fresh uuid.  Whatever the loop runs afterwards,
    resolving the same proposal again returns that same short id and writes
    nothing. *)
Theorem short_id_assigned_once uuid4 clock pid title st en ty s :
  let s1 := (handle_new_proposal cfg uuid4 clock pid title st en ty s).2 in
  let sid := default (String.substring 0 8 uuid4) (dict_get (proposal_id_map s) pid) in
  dict_get (proposal_id_map s1) pid = Some sid /\
  forall es uuid4',
    let s2 := run cfg float s1 es in
    resolve_short_id uuid4' pid s2 = (Return sid, s2).
Proof.
  intros s1 sid.
  assert (H1 : dict_get (proposal_id_map s1) pid = Some sid).
  { subst s1. unfold handle_new_proposal.
    unfold bind at 1. unfold load_user_preferences, get_state.
    unfold bind at 1.
    destruct (resolve_short_id_assigns uuid4 pid s) as [Hr Hm].
    destruct (resolve_short_id uuid4 pid s) as [[sid'|e] s'] eqn:Hres;
      simpl in Hr, Hm; [|done].
    injection Hr as ->.
    revert Hm.
    apply (stable_bind (fun s => dict_get (proposal_id_map s) pid = Some sid)).
    - apply stable_for_each_subscriber, frame_short_id.
    - intros prefs. apply stable_save_user_preferences, frame_short_id. }
  split; [exact H1|].
  intros es uuid4' s2. apply resolve_short_id_stored.
  subst s2. by apply short_id_kept_by_run.
Qed.

(** ** Subscribing *)

(** C10. [start] for a chat that is already registered writes nothing: the
    preferences, and with them the chat's per-proposal states, are what they
    were, as are the other records, the job table and the job queue. *)
Theorem start_registered_is_noop net chat_id per_chat s :
  dict_get (user_preferences s) chat_id = Some per_chat ->
  same_but_sent s (start net chat_id s).2 /\
  dict_get (user_preferences (start net chat_id s).2) chat_id = Some per_chat.
Proof.
  intros Hreg. unfold start, bind, load_user_preferences, get_state, send_message,
    bot_call. rewrite Hreg. simpl.
  destruct net; simpl; by repeat split.
Qed.

Lemma start_registers net chat_id s :
  is_Some (dict_get (user_preferences (start net chat_id s).2) chat_id).
Proof.
  unfold start, bind, load_user_preferences, get_state, send_message, bot_call.
  destruct (dict_get (user_preferences s) chat_id) eqn:Hreg; simpl.
  - destruct net; simpl; rewrite Hreg; eauto.
  - destruct net; simpl; rewrite dict_get_set_eq; eauto.
Qed.

(** ** Offsets *)

Lemma get_reminder_intervals_spec chat_id proposal_id s :
  get_reminder_intervals cfg chat_id proposal_id s =
  match stored_pref s chat_id proposal_id with
  | None => (Return (reminders_from_start cfg, reminders_before_end cfg), s)
  | Some (PDict from_start before_end) =>
      (Return (default (reminders_from_start cfg) from_start,
               default (reminders_before_end cfg) before_end), s)
  | Some _ => (Raise AttributeError, s)
  end.
Proof.
  unfold get_reminder_intervals, stored_pref, pref_get, bind, load_user_preferences,
    get_state.
  destruct (dict_get (user_preferences s) chat_id) as [per_chat|]; simpl.
  - destruct (per_chat !! proposal_id) as [[| |t|fs be]|]; simpl; done.
  - rewrite lookup_empty. done.
Qed.

Lemma get_reminder_intervals_returns chat_id proposal_id s :
  absent_or_mapping (stored_pref s chat_id proposal_id) ->
  get_reminder_intervals cfg chat_id proposal_id s =
    (Return (default (reminders_from_start cfg)
               (configured_from_start (stored_pref s chat_id proposal_id)),
             default (reminders_before_end cfg)
               (configured_before_end (stored_pref s chat_id proposal_id))), s).
Proof.
  intros Hok. rewrite get_reminder_intervals_spec.
  by destruct (stored_pref s chat_id proposal_id) as [[| |t|fs be]|].
Qed.


(** ** The job table *)

Lemma table_append_lookup_eq c p j (T : gmap string (gmap string (list nat))) :
  table_get (table_append c p j T) c p = Some (default [] (table_get T c p) ++ [j]).
Proof.
  unfold table_get, table_append. rewrite lookup_insert_eq. simpl. rewrite lookup_insert_eq.
  destruct (T !! c); simpl; [done|]. by rewrite lookup_empty.
Qed.

Lemma table_append_lookup_ne c p c' p' j (T : gmap string (gmap string (list nat))) :
  (c', p') ≠ (c, p) ->
  table_get (table_append c p j T) c' p' = table_get T c' p'.
Proof.
  intros Hne. unfold table_get, table_append.
  destruct (decide (c = c')) as [->|Hc].
  - rewrite lookup_insert_eq. simpl. rewrite lookup_insert_ne by congruence.
    destruct (T !! c'); simpl; [done|]. by rewrite lookup_empty.
  - by rewrite lookup_insert_ne.
Qed.

Lemma table_reset_lookup_eq c p (T : gmap string (gmap string (list nat))) :
  table_get (table_reset c p T) c p = Some [].
Proof.
  unfold table_get, table_reset. rewrite lookup_insert_eq. simpl.
  by rewrite lookup_insert_eq.
Qed.

Lemma table_reset_lookup_ne c p c' p' (T : gmap string (gmap string (list nat))) :
  (c', p') ≠ (c, p) ->
  table_get (table_reset c p T) c' p' = table_get T c' p'.
Proof.
  intros Hne. unfold table_get, table_reset.
  destruct (decide (c = c')) as [->|Hc].
  - rewrite lookup_insert_eq. simpl. rewrite lookup_insert_ne by congruence.
    destruct (T !! c'); simpl; [done|]. by rewrite lookup_empty.
  - by rewrite lookup_insert_ne.
Qed.

Lemma track_all_lookup_eq c p js l (T : gmap string (gmap string (list nat))) :
  table_get T c p = Some l ->
  table_get (track_all c p js T) c p = Some (l ++ js).
Proof.
  revert l T. induction js as [|j js IH]; intros l T HT; simpl.
  - by rewrite app_nil_r.
  - unfold track_all in *. simpl. rewrite (IH (l ++ [j])).
    + by rewrite <- app_assoc.
    + rewrite table_append_lookup_eq. by rewrite HT.
Qed.

Lemma track_all_lookup_ne c p c' p' js (T : gmap string (gmap string (list nat))) :
  (c', p') ≠ (c, p) ->
  table_get (track_all c p js T) c' p' = table_get T c' p'.
Proof.
  intros Hne. revert T. induction js as [|j js IH]; intros T; [done|].
  unfold track_all in *. simpl. rewrite IH. by apply table_append_lookup_ne.
Qed.

(** ** Scheduling *)

Lemma State_eta s :
  set_SCHEDULED_JOBS (SCHEDULED_JOBS s) (set_job_queue (job_queue s) s) = s.
Proof. by destruct s. Qed.

Lemma schedule_from_start_spec now st c p sid t l hs s :
  schedule_from_start cfg now st c p sid t l hs s =
  (Return tt,
   set_SCHEDULED_JOBS
     (track_all c p (seq (length (job_queue s)) (length (kept_from_start now st hs)))
        (SCHEDULED_JOBS s))
     (set_job_queue
        (job_queue s ++ (from_start_job cfg c p sid t l st <$> kept_from_start now st hs))
        s)).
Proof.
  revert s. induction hs as [|h hs IH]; intros s; simpl.
  - unfold ret. by rewrite app_nil_r, State_eta.
  - unfold kept_from_start in *. destruct (decide (st + timedelta_hours h < now)) as [Hlt|Hge].
    + rewrite filter_cons_False by lia. apply IH.
    + rewrite filter_cons_True by lia.
      unfold bind, run_once, track_job, modify. rewrite IH. simpl.
      f_equal. unfold set_SCHEDULED_JOBS, set_job_queue. simpl. f_equal.
      * rewrite length_app. simpl. by rewrite Nat.add_1_r.
      * by rewrite <- app_assoc.
Qed.

Lemma schedule_before_end_spec now en c p sid t l hs s :
  schedule_before_end cfg now en c p sid t l hs s =
  (Return tt,
   set_SCHEDULED_JOBS
     (track_all c p (seq (length (job_queue s)) (length (kept_before_end now en hs)))
        (SCHEDULED_JOBS s))
     (set_job_queue
        (job_queue s ++ (before_end_job cfg c p sid t l en <$> kept_before_end now en hs))
        s)).
Proof.
  revert s. induction hs as [|h hs IH]; intros s; simpl.
  - unfold ret. by rewrite app_nil_r, State_eta.
  - unfold kept_before_end in *. destruct (decide (en - timedelta_hours h < now)) as [Hlt|Hge].
    + rewrite filter_cons_False by lia. apply IH.
    + rewrite filter_cons_True by lia.
      unfold bind, run_once, track_job, modify. rewrite IH. simpl.
      f_equal. unfold set_SCHEDULED_JOBS, set_job_queue. simpl. f_equal.
      * rewrite length_app. simpl. by rewrite Nat.add_1_r.
      * by rewrite <- app_assoc.
Qed.

Lemma track_all_app c p js1 js2 T :
  track_all c p (js1 ++ js2) T = track_all c p js2 (track_all c p js1 T).
Proof. unfold track_all. by rewrite foldl_app. Qed.

(** The whole of [schedule_reminders], once the offsets are known. *)
Lemma schedule_reminders_spec now c p sid t st en ty fs be s :
  get_reminder_intervals cfg c p s = (Return (fs, be), s) ->
  let new := registered_jobs cfg now c p sid t (proposal_link cfg ty p) st en fs be in
  schedule_reminders cfg now c p sid t st en ty s =
  (Return tt,
   set_SCHEDULED_JOBS
     (track_all c p (seq (length (job_queue s)) (length new))
        (table_reset c p (SCHEDULED_JOBS s)))
     (set_job_queue (job_queue s ++ new) s)).
Proof.
  intros Hg new. unfold schedule_reminders.
  unfold bind at 1. rewrite Hg.
  unfold bind at 1. unfold modify at 1.
  unfold bind. rewrite schedule_from_start_spec, schedule_before_end_spec. simpl.
  f_equal. unfold set_SCHEDULED_JOBS, set_job_queue. simpl.
  subst new. unfold registered_jobs. f_equal.
  - by rewrite !length_app, !length_fmap, seq_app, track_all_app.
  - by rewrite <- app_assoc.
Qed.

Lemma when_from_start_jobs now c p sid t l st hs :
  when <$> (from_start_job cfg c p sid t l st <$> kept_from_start now st hs) =
  filter (fun w => now <= w) ((fun h => st + timedelta_hours h) <$> hs).
Proof.
  unfold kept_from_start. induction hs as [|h hs IH]; [done|].
  rewrite fmap_cons.
  destruct (decide (now <= st + timedelta_hours h)).
  - rewrite !filter_cons_True by done. rewrite !fmap_cons. by rewrite IH.
  - by rewrite !filter_cons_False by done.
Qed.

Lemma when_before_end_jobs now c p sid t l en hs :
  when <$> (before_end_job cfg c p sid t l en <$> kept_before_end now en hs) =
  filter (fun w => now <= w) ((fun h => en - timedelta_hours h) <$> hs).
Proof.
  unfold kept_before_end. induction hs as [|h hs IH]; [done|].
  rewrite fmap_cons.
  destruct (decide (now <= en - timedelta_hours h)).
  - rewrite !filter_cons_True by done. rewrite !fmap_cons. by rewrite IH.
  - by rewrite !filter_cons_False by done.
Qed.

Lemma schedule_loop_spec a now st en c p sid t l hs s :
  exists new,
    schedule_loop cfg a now st en c p sid t l hs s =
      (Return tt,
       set_SCHEDULED_JOBS
         (track_all c p (seq (length (job_queue s)) (length new)) (SCHEDULED_JOBS s))
         (set_job_queue (job_queue s ++ new) s)) /\
    when <$> new = filter (fun w => now <= w) (offset_instant a st en <$> hs).
Proof.
  destruct a; simpl.
  - exists (from_start_job cfg c p sid t l st <$> kept_from_start now st hs).
    split; [rewrite length_fmap; apply schedule_from_start_spec
           |apply when_from_start_jobs].
  - exists (before_end_job cfg c p sid t l en <$> kept_before_end now en hs).
    split; [rewrite length_fmap; apply schedule_before_end_spec
           |apply when_before_end_jobs].
Qed.

(** C2 (corrected form). An offset whose instant is strictly before [now] makes
    its loop register nothing: the loop ends in the very state it would end
    in without that offset.  An offset whose instant is [now] or later gets a
    job with that fire time.  No job a loop registers has a fire time before
    [now]. *)
Theorem past_offset_registers_no_job a now st en c p sid t l before h after s :
  let run_loop := schedule_loop cfg a now st en c p sid t l in
  (offset_instant a st en h < now ->
   run_loop (before ++ h :: after) s = run_loop (before ++ after) s) /\
  (now <= offset_instant a st en h ->
   offset_instant a st en h ∈
     fire_times_from (length (job_queue s)) (run_loop (before ++ h :: after) s).2) /\
  Forall (fun w => now <= w)
    (fire_times_from (length (job_queue s)) (run_loop (before ++ h :: after) s).2).
Proof.
  intros run_loop. subst run_loop. split; [|split].
  - intros Hpast. destruct a; simpl in *.
    + rewrite !schedule_from_start_spec. unfold kept_from_start.
      rewrite !filter_app, filter_cons_False by lia. done.
    + rewrite !schedule_before_end_spec. unfold kept_before_end.
      rewrite !filter_app, filter_cons_False by lia. done.
  - intros Hnow.
    destruct (schedule_loop_spec a now st en c p sid t l (before ++ h :: after) s)
      as (new & -> & Hw).
    unfold fire_times_from. simpl. rewrite drop_app_length.
    change (map when new) with (when <$> new). rewrite Hw.
    apply list_elem_of_filter. split; [done|].
    apply list_elem_of_fmap_2, elem_of_app. right. apply elem_of_cons. by left.
  - destruct (schedule_loop_spec a now st en c p sid t l (before ++ h :: after) s)
      as (new & -> & Hw).
    unfold fire_times_from. simpl. rewrite drop_app_length.
    change (map when new) with (when <$> new). rewrite Hw.
    apply Forall_forall. intros w Hin. apply list_elem_of_filter in Hin.
    by destruct Hin.
Qed.

(** C7 (corrected form). Where the instants of all the offsets in force are
    within the range of [datetime] (lines 393 and 417 raise otherwise), a
    first scheduling for a pair appends to the queue one pending job per
    offset whose instant is not before [now] (an instant equal to [now] is
    kept, and offsets that give the same instant each get their job): first
    those of [start_time + h] in the order of the from-start offsets, then
    those of [end_time - h] in the order of the before-end offsets, the
    latter with the minutes that [int(h * 60)] gives in doubles; the table
    then tracks exactly these jobs for the pair.  With from-start offsets 1
    and 2, no before-end offset and [start_time] + 1h not before [now], the
    jobs registered are two, at +1h and +2h. *)
Theorem schedule_reminders_registers now c p sid t st en ty s :
  absent_or_mapping (stored_pref s c p) ->
  schedulable
    (default (reminders_from_start cfg) (configured_from_start (stored_pref s c p)))
    (default (reminders_before_end cfg) (configured_before_end (stored_pref s c p)))
    st en = true ->
  let fs := default (reminders_from_start cfg) (configured_from_start (stored_pref s c p)) in
  let be := default (reminders_before_end cfg) (configured_before_end (stored_pref s c p)) in
  let s' := (schedule_reminders cfg now c p sid t st en ty s).2 in
  let times :=
    filter (fun w => now <= w) ((fun h => st + timedelta_hours h) <$> fs) ++
    filter (fun w => now <= w) ((fun h => en - timedelta_hours h) <$> be) in
  job_queue s' =
    job_queue s ++ registered_jobs cfg now c p sid t (proposal_link cfg ty p) st en fs be /\
  fire_times_from (length (job_queue s)) s' = times /\
  tracked s' c p = Some (seq (length (job_queue s)) (length times)) /\
  (fs = [1%Q; 2%Q] -> be = [] -> now <= st + 3600000000 ->
   fire_times_from (length (job_queue s)) s' = [st + 3600000000; st + 7200000000]).
Proof.
  intros Hok _ fs be s' times.
  pose proof (get_reminder_intervals_returns c p s Hok) as Hg.
  fold fs be in Hg.
  pose proof (schedule_reminders_spec now c p sid t st en ty fs be s Hg) as Hs.
  simpl in Hs. subst s'. rewrite Hs. simpl.
  assert (Ht : when <$> registered_jobs cfg now c p sid t (proposal_link cfg ty p) st en fs be
               = times).
  { unfold registered_jobs. rewrite fmap_app.
    by rewrite when_from_start_jobs, when_before_end_jobs. }
  assert (Hf : fire_times_from (length (job_queue s))
                 (set_SCHEDULED_JOBS
                    (track_all c p
                       (seq (length (job_queue s))
                          (length (registered_jobs cfg now c p sid t
                                     (proposal_link cfg ty p) st en fs be)))
                       (table_reset c p (SCHEDULED_JOBS s)))
                    (set_job_queue
                       (job_queue s ++
                        registered_jobs cfg now c p sid t (proposal_link cfg ty p) st en fs be)
                       s)) = times).
  { unfold fire_times_from. simpl. by rewrite drop_app_length. }
  split; [done|]. split; [exact Hf|]. split.
  - unfold tracked. simpl. rewrite <- Ht, length_fmap.
    apply (track_all_lookup_eq c p _ []). apply table_reset_lookup_eq.
  - intros Hfs Hbe Hnow. rewrite Hf. subst times. rewrite Hfs, Hbe. simpl.
    change (timedelta_hours 1) with 3600000000.
    change (timedelta_hours 2) with 7200000000.
    rewrite !filter_cons_True by lia. by rewrite filter_nil.
Qed.

(** ** Cancellation *)

Lemma cancelled_idemp job : cancelled (cancelled job) = cancelled job.
Proof.
  unfold cancelled. destruct job as [w d [] []]; simpl; done.
Qed.

Lemma cancelled_not_live job : job_live (cancelled job) = false.
Proof. unfold cancelled, job_live. by destruct job as [w d [] []]. Qed.

Lemma cancelled_data job : data (cancelled job) = data job.
Proof. unfold cancelled. by destruct (removed job || executed job). Qed.

Lemma alter_lookup_None {A} (f : A -> A) (l : list A) j :
  l !! j = None -> alter f j l = l.
Proof.
  intros Hn. apply list_eq. intros i. destruct (decide (i = j)) as [->|Hne].
  - rewrite list_lookup_alter_eq. by rewrite Hn.
  - by rewrite list_lookup_alter_ne.
Qed.

Lemma alter_lookup_Some {A} (f : A -> A) (l : list A) j x :
  l !! j = Some x -> alter f j l = <[j := f x]> l.
Proof.
  intros Hs. apply list_eq. intros i. destruct (decide (i = j)) as [->|Hne].
  - rewrite list_lookup_alter_eq, Hs. simpl.
    rewrite list_lookup_insert_eq; [done|]. by eapply lookup_lt_Some.
  - by rewrite list_lookup_alter_ne, list_lookup_insert_ne.
Qed.

Lemma set_job_queue_id s : set_job_queue (job_queue s) s = s.
Proof. by destruct s. Qed.

(** One turn of the loop of [cancel_scheduled_reminders]. *)
Lemma cancel_one_spec j s :
  try_except
    (let* r := job_removed j in if r then ret tt else schedule_removal j) s =
  (Return tt, set_job_queue (alter cancelled j (job_queue s)) s).
Proof.
  unfold try_except, bind, job_removed, get_state, schedule_removal.
  destruct (job_queue s !! j) as [job|] eqn:Hj; simpl.
  - rewrite (alter_lookup_Some _ _ _ _ Hj). unfold cancelled.
    destruct (removed job) eqn:Hr; simpl.
    + rewrite list_insert_id by done. by rewrite set_job_queue_id.
    + rewrite Hj. destruct (executed job) eqn:He; simpl.
      * rewrite list_insert_id by done. by rewrite set_job_queue_id.
      * done.
  - rewrite alter_lookup_None by done. by rewrite set_job_queue_id.
Qed.

Lemma cancel_jobs_spec js s :
  cancel_jobs js s = (Return tt, set_job_queue (cancel_queue js (job_queue s)) s).
Proof.
  revert s. induction js as [|j js IH]; intros s; simpl.
  - unfold ret. by rewrite set_job_queue_id.
  - unfold bind at 1. rewrite cancel_one_spec. rewrite IH. by destruct s.
Qed.

Lemma cancel_queue_lookup js q j :
  cancel_queue js q !! j =
  if decide (j ∈ js) then cancelled <$> q !! j else q !! j.
Proof.
  revert q. induction js as [|j0 js IH]; intros q.
  - unfold cancel_queue. cbn [foldl].
    rewrite decide_False; [done|]. apply not_elem_of_nil.
  - unfold cancel_queue in *. cbn [foldl]. rewrite IH.
    destruct (decide (j = j0)) as [->|Hne].
    + rewrite list_lookup_alter_eq.
      rewrite (decide_True (P := j0 ∈ j0 :: js)) by (apply elem_of_cons; by left).
      destruct (decide (j0 ∈ js)); [|done].
      destruct (q !! j0); simpl; [|done]. by rewrite cancelled_idemp.
    + rewrite list_lookup_alter_ne by done.
      destruct (decide (j ∈ js)) as [Hin|Hnin].
      * rewrite decide_True; [done|]. apply elem_of_cons; by right.
      * rewrite decide_False; [done|]. by intros [?|?]%elem_of_cons.
Qed.

Lemma table_delete_lookup_eq c p (T : gmap string (gmap string (list nat))) :
  table_get (table_delete c p T) c p = None.
Proof.
  unfold table_get, table_delete. rewrite lookup_insert_eq. simpl.
  by rewrite lookup_delete_eq.
Qed.

Lemma table_delete_lookup_ne c p c' p' (T : gmap string (gmap string (list nat))) :
  (c', p') ≠ (c, p) ->
  table_get (table_delete c p T) c' p' = table_get T c' p'.
Proof.
  intros Hne. unfold table_get, table_delete.
  destruct (decide (c = c')) as [->|Hc].
  - rewrite lookup_insert_eq. simpl. rewrite lookup_delete_ne by congruence.
    destruct (T !! c'); simpl; [done|]. by rewrite lookup_empty.
  - by rewrite lookup_insert_ne.
Qed.

(** The whole of [cancel_scheduled_reminders]: the jobs tracked for the pair
    are cancelled in the queue and the pair leaves the table; a pair that is
    not in the table changes nothing.  It never raises. *)
Lemma cancel_scheduled_reminders_spec c p s :
  cancel_scheduled_reminders c p s =
  (Return tt,
   match tracked s c p with
   | Some js =>
       set_SCHEDULED_JOBS (table_delete c p (SCHEDULED_JOBS s))
         (set_job_queue (cancel_queue js (job_queue s)) s)
   | None => s
   end).
Proof.
  unfold cancel_scheduled_reminders, tracked, table_get.
  unfold bind at 1. unfold get_state.
  destruct (SCHEDULED_JOBS s !! c) as [per_chat|]; simpl; [|done].
  destruct (per_chat !! p) as [js|]; simpl; [|done].
  unfold bind. by rewrite cancel_jobs_spec.
Qed.

(** ** The button handler, branch by branch *)

Lemma reply_and_answer_spec net c text s :
  (send_message (reply_ok net) c text None ;;; query_answer (answer_ok net) c None) s =
  reply_and_answer net c text s.
Proof.
  unfold reply_and_answer, bind, send_message, query_answer, bot_call.
  destruct (reply_ok net); simpl; [|done].
  destruct (answer_ok net); simpl; [|done].
  unfold modify, set_sent. simpl. by rewrite <- app_assoc.
Qed.

Lemma button_callback_unknown net now c data action sid s :
  data !! 0%nat = Some action -> data !! 1%nat = Some sid ->
  dict_get (reverse_map (proposal_id_map s)) sid = None ->
  button_callback cfg float net now c data s =
  query_answer (answer_ok net) c (Some ErrorOccurred) s.
Proof.
  intros H0 H1 Hm. unfold button_callback. rewrite H0, H1. simpl.
  unfold bind at 1. unfold ret at 1. unfold bind at 1. unfold ret at 1.
  unfold bind at 1. unfold load_proposal_id_map, get_state. by rewrite Hm.
Qed.

Lemma button_callback_voted net now c data sid pid s :
  data !! 0%nat = Some "voted" -> data !! 1%nat = Some sid ->
  dict_get (reverse_map (proposal_id_map s)) sid = Some pid ->
  button_callback cfg float net now c data s =
  reply_and_answer net c ThanksForVoting (voted_state c pid s).
Proof.
  intros H0 H1 Hm. unfold button_callback. rewrite H0, H1. simpl.
  unfold bind at 1. unfold ret at 1. unfold bind at 1. unfold ret at 1.
  unfold bind at 1. unfold load_proposal_id_map, get_state. rewrite Hm.
  unfold bind at 1. unfold load_user_preferences, get_state.
  rewrite decide_True by done.
  rewrite <- reply_and_answer_spec. unfold voted_state.
  unfold save_user_preferences, modify.
  rewrite cancel_scheduled_reminders_spec. unfold bind. simpl.
  rewrite cancel_scheduled_reminders_spec. done.
Qed.

Lemma button_callback_remind_in net now c data sid pid param h s :
  data !! 0%nat = Some "remind_in" -> data !! 1%nat = Some sid ->
  dict_get (reverse_map (proposal_id_map s)) sid = Some pid ->
  data !! 2%nat = Some param -> float param = Some h ->
  button_callback cfg float net now c data s =
  reply_and_answer net c (ReminderSet h)
    (snoozed_state cfg c pid sid (now + timedelta_hours h) s).
Proof.
  intros H0 H1 Hm H2 Hf. unfold button_callback. rewrite H0, H1. simpl.
  unfold bind at 1. unfold ret at 1. unfold bind at 1. unfold ret at 1.
  unfold bind at 1. unfold load_proposal_id_map, get_state. rewrite Hm.
  unfold bind at 1. unfold load_user_preferences, get_state.
  rewrite decide_False by done. rewrite decide_True by done.
  unfold bind. rewrite H2. simpl. rewrite Hf. simpl.
  unfold reply_and_answer, snoozed_state, send_message, query_answer, bot_call.
  destruct (reply_ok net); simpl; [|done].
  destruct (answer_ok net); simpl; [|done].
  unfold modify, set_sent. simpl. by rewrite <- app_assoc.
Qed.

(** An interaction without a short id, or with a snooze parameter that is
    missing or that [float] refuses, raises before the handler has written or
    sent anything. *)
Lemma button_callback_raises_early net now c data s :
  (data !! 1%nat = None \/
   exists sid pid,
     data !! 0%nat = Some "remind_in" /\ data !! 1%nat = Some sid /\
     dict_get (reverse_map (proposal_id_map s)) sid = Some pid /\
     (data !! 2%nat = None \/ exists param, data !! 2%nat = Some param /\ float param = None)) ->
  exists e, button_callback cfg float net now c data s = (Raise e, s).
Proof.
  intros [H1|(sid & pid & H0 & H1 & Hm & H2)]; unfold button_callback.
  - rewrite H1. destruct (data !! 0%nat); simpl; by eexists.
  - rewrite H0, H1. simpl.
    unfold bind at 1. unfold ret at 1. unfold bind at 1. unfold ret at 1.
    unfold bind at 1. unfold load_proposal_id_map, get_state. rewrite Hm.
    unfold bind at 1. unfold load_user_preferences, get_state.
    rewrite decide_False by done. rewrite decide_True by done.
    unfold bind.
    destruct H2 as [H2|(param & H2 & Hf)]; rewrite H2; simpl.
    + by eexists.
    + rewrite Hf. simpl. by eexists.
Qed.

Lemma button_callback_other net now c data action sid pid s :
  data !! 0%nat = Some action -> action ≠ "voted" -> action ≠ "remind_in" ->
  data !! 1%nat = Some sid ->
  dict_get (reverse_map (proposal_id_map s)) sid = Some pid ->
  button_callback cfg float net now c data s = query_answer (answer_ok net) c None s.
Proof.
  intros H0 Hv Hr H1 Hm. unfold button_callback. rewrite H0, H1. simpl.
  unfold bind at 1. unfold ret at 1. unfold bind at 1. unfold ret at 1.
  unfold bind at 1. unfold load_proposal_id_map, get_state. rewrite Hm.
  unfold bind at 1. unfold load_user_preferences, get_state.
  rewrite !decide_False by done. done.
Qed.

Lemma pref_get_set_eq prefs c p v :
  pref_get (set_reminder_pref prefs c p v) c p = Some v.
Proof.
  unfold pref_get, set_reminder_pref. rewrite dict_get_set_eq. simpl.
  by rewrite lookup_insert_eq.
Qed.

Lemma pref_get_set_ne prefs c p c' p' v :
  (c', p') ≠ (c, p) ->
  pref_get (set_reminder_pref prefs c p v) c' p' = pref_get prefs c' p'.
Proof.
  intros Hne. unfold pref_get, set_reminder_pref.
  destruct (decide (c = c')) as [->|Hc].
  - rewrite dict_get_set_eq. simpl. rewrite lookup_insert_ne by congruence.
    destruct (dict_get prefs c'); simpl; [done|]. by rewrite lookup_empty.
  - by rewrite dict_get_set_ne.
Qed.

Lemma reply_and_answer_same net c text s :
  same_but_sent s (reply_and_answer net c text s).2.
Proof.
  unfold reply_and_answer. destruct (reply_ok net), (answer_ok net); by repeat split.
Qed.

Lemma sent_voted_state c p s : sent (voted_state c p s) = sent s.
Proof.
  unfold voted_state. rewrite cancel_scheduled_reminders_spec. simpl.
  by destruct (tracked _ c p).
Qed.

(** C1 (corrected form). A snooze whose short id resolves, whose parameter
    [float] accepts, and whose length makes [now] plus that many hours an
    instant within the range of [datetime] (line 191 raises otherwise, with
    nothing written) registers exactly one new pending job, with fire time
    [now] plus the hours asked for, appends its handle to the handles the
    table already tracks for the pair, and persists the new reminder time.
    It cancels nothing: the jobs that were live for the pair are still live,
    followed by the new one.  This holds whatever the transport does with
    the reply and the acknowledgement, both of which come after the
    writes. *)
Theorem remind_in_adds_one_job net now c data sid pid param h s :
  data !! 0%nat = Some "remind_in" -> data !! 1%nat = Some sid ->
  dict_get (reverse_map (proposal_id_map s)) sid = Some pid ->
  data !! 2%nat = Some param -> float param = Some h ->
  hours_after now h = true ->
  let s' := (button_callback cfg float net now c data s).2 in
  let job := snooze_job cfg c pid sid (now + timedelta_hours h) in
  job_queue s' = job_queue s ++ [job] /\
  tracked s' c pid = Some (default [] (tracked s c pid) ++ [length (job_queue s)]) /\
  stored_pref s' c pid = Some (PInstant (now + timedelta_hours h)) /\
  live_jobs s' c pid = live_jobs s c pid ++ [job].
Proof.
  intros H0 H1 Hm H2 Hf _ s' job. subst s'.
  rewrite (button_callback_remind_in net now c data sid pid param h s) by done.
  destruct (reply_and_answer_same net c (ReminderSet h)
              (snoozed_state cfg c pid sid (now + timedelta_hours h) s))
    as (Hp & _ & _ & Ht & Hq).
  unfold tracked, stored_pref, live_jobs. rewrite Hp, Ht, Hq. simpl.
  repeat split.
  - apply table_append_lookup_eq.
  - apply pref_get_set_eq.
  - rewrite List.filter_app. simpl.
    unfold job_for. simpl. by rewrite bool_decide_eq_true_2.
Qed.

(** C9 (corrected form). An interaction whose short id does not resolve changes
    no state and answers the query with the generic failure text, which is
    both the report to the user and the acknowledgement; it raises only if
    the transport refuses that call.  An interaction whose short id resolves
    is acknowledged whenever the handler runs to its end, the acknowledgement
    being the last call it makes.  It runs to its end when the transport
    accepts the reply and the acknowledgement, unless the action is a snooze
    whose parameter is missing, refused by [float] or too long for
    [datetime] (line 191 raises then).  When it raises, the query is not
    acknowledged: either nothing was sent, or the reply was sent and the
    acknowledgement refused. *)
Theorem button_callback_acknowledges net now c data action sid s :
  data !! 0%nat = Some action -> data !! 1%nat = Some sid ->
  let r := button_callback cfg float net now c data s in
  match dict_get (reverse_map (proposal_id_map s)) sid with
  | None =>
      r = if answer_ok net then
            (Return tt,
             set_sent (sent s ++ [AnswerCallbackQuery c (Some ErrorOccurred)]) s)
          else (Raise TelegramError, s)
  | Some pid =>
      (returns r = true ->
       exists calls, sent r.2 = sent s ++ calls ++ [AnswerCallbackQuery c None]) /\
      (reply_ok net = true -> answer_ok net = true ->
       (action = "remind_in" ->
        exists param h, data !! 2%nat = Some param /\ float param = Some h /\
                        hours_after now h = true) ->
       returns r = true) /\
      (returns r = false ->
       sent r.2 = sent s \/
       exists text, answer_ok net = false /\
                    sent r.2 = sent s ++ [SendMessage c text None])
  end.
Proof.
  intros H0 H1 r.
  destruct (dict_get (reverse_map (proposal_id_map s)) sid) as [pid|] eqn:Hm.
  - destruct (decide (action = "voted")) as [->|Hv];
      [|destruct (decide (action = "remind_in")) as [->|Hr]].
    + subst r. rewrite (button_callback_voted net now c data sid pid s) by done.
      unfold reply_and_answer, returns.
      destruct (reply_ok net), (answer_ok net); simpl.
      * split; [|done]. intros _. rewrite sent_voted_state.
        by exists [SendMessage c ThanksForVoting None].
      * repeat split; try done. intros _. right. exists ThanksForVoting.
        by rewrite sent_voted_state.
      * repeat split; try done. intros _. left. apply sent_voted_state.
      * repeat split; try done. intros _. left. apply sent_voted_state.
    + destruct (data !! 2%nat) as [param|] eqn:H2;
        [destruct (float param) as [h|] eqn:Hf|].
      * subst r.
        rewrite (button_callback_remind_in net now c data sid pid param h s) by done.
        unfold reply_and_answer, returns.
        destruct (reply_ok net), (answer_ok net); simpl.
        -- split; [|done]. intros _. by exists [SendMessage c (ReminderSet h) None].
        -- repeat split; try done. intros _. right. by exists (ReminderSet h).
        -- repeat split; try done. intros _. by left.
        -- repeat split; try done. intros _. by left.
      * destruct (button_callback_raises_early net now c data s) as [e He].
        { right. exists sid, pid. repeat split; try done. right. by exists param. }
        subst r. rewrite He. unfold returns. simpl. split; [done|]. split; [|by left].
        intros _ _ Hex. destruct (Hex eq_refl) as (param' & h & [= <-] & Hf' & _).
        congruence.
      * destruct (button_callback_raises_early net now c data s) as [e He].
        { right. exists sid, pid. repeat split; try done. by left. }
        subst r. rewrite He. unfold returns. simpl. split; [done|]. split; [|by left].
        intros _ _ Hex. by destruct (Hex eq_refl) as (param' & h & ? & _).
    + subst r.
      rewrite (button_callback_other net now c data action sid pid s) by done.
      unfold query_answer, bot_call, returns. destruct (answer_ok net); simpl.
      * split; [|done]. intros _. by exists [].
      * repeat split; try done. intros _. by left.
  - subst r. rewrite (button_callback_unknown net now c data action sid s) by done.
    unfold query_answer, bot_call. by destruct (answer_ok net).
Qed.

(** ** A job fires *)

Lemma job_fires_live net j job s :
  job_queue s !! j = Some job -> job_live job = true ->
  job_fires net j s =
  (Return tt,
   set_job_queue (<[j := mark_executed job]> (job_queue s))
     (if net then
        set_sent (sent s ++ [SendMessage (jd_chat_id (data job))
                               (jd_message_text (data job))
                               (Some (jd_buttons (data job)))]) s
      else s)).
Proof.
  intros Hj Hl. unfold job_fires. rewrite Hj, Hl.
  unfold bind, send_reminder_message, try_except, send_message, bot_call.
  by destruct net.
Qed.

Lemma job_fires_dead net j s :
  (forall job, job_queue s !! j = Some job -> job_live job = false) ->
  job_fires net j s = (Return tt, s).
Proof.
  intros Hd. unfold job_fires.
  destruct (job_queue s !! j) as [job|] eqn:Hj; [|done].
  by rewrite (Hd job).
Qed.

(** C6 (corrected form). A job that fires has the transport send, to the chat it
    was created for, the text and the buttons stored in it when it was
    scheduled (a refusal of the transport is caught and the message is
    dropped), and is marked as run, so that it cannot fire again.  The firing
    writes neither the job table nor the preferences: the handle of the job
    stays in the table under its pair. *)
Theorem fired_job_stays_tracked net j job s :
  job_queue s !! j = Some job -> job_live job = true ->
  let s' := (job_fires net j s).2 in
  returns (job_fires net j s) = true /\
  sent s' = sent s ++
    (if net then [SendMessage (jd_chat_id (data job)) (jd_message_text (data job))
                    (Some (jd_buttons (data job)))]
     else []) /\
  job_queue s' = <[j := mark_executed job]> (job_queue s) /\
  SCHEDULED_JOBS s' = SCHEDULED_JOBS s /\
  user_preferences s' = user_preferences s /\
  (forall net', job_fires net' j s' = (Return tt, s')).
Proof.
  intros Hj Hl s'. subst s'. rewrite (job_fires_live net j job s Hj Hl).
  unfold returns. simpl. repeat split.
  - destruct net; simpl; [done|]. by rewrite app_nil_r.
  - by destruct net.
  - by destruct net.
  - intros net'. apply job_fires_dead. simpl. intros job'.
    rewrite list_lookup_insert_eq by (by eapply lookup_lt_Some).
    intros [= <-]. unfold job_live, mark_executed. simpl. apply andb_false_r.
Qed.

(** ** The job table stays consistent *)

Lemma consistent_same s s' : same_but_sent s s' -> consistent s -> consistent s'.
Proof.
  intros (Hp & _ & _ & Ht & Hq) [H1 H2]. unfold consistent. by rewrite Hp, Ht, Hq.
Qed.

Lemma jobs_have_prefs_set prefs c p v q :
  jobs_have_prefs prefs q -> jobs_have_prefs (set_reminder_pref prefs c p v) q.
Proof.
  intros H job Hin. specialize (H job Hin).
  destruct (decide ((jd_chat_id (data job), jd_proposal_id (data job)) = (c, p)))
    as [[= -> ->]|Hne].
  - rewrite pref_get_set_eq. eauto.
  - by rewrite pref_get_set_ne.
Qed.

Lemma jobs_have_prefs_app prefs q new :
  jobs_have_prefs prefs q -> jobs_have_prefs prefs new -> jobs_have_prefs prefs (q ++ new).
Proof. intros H1 H2 job [?|?]%elem_of_app; auto. Qed.

(** Jobs appended for a pair and tracked under it, on a table in which the
    old live jobs stay tracked. *)
Lemma live_jobs_tracked_app c p T T' q new :
  live_jobs_tracked T q ->
  (forall c' p' l, (c', p') ≠ (c, p) -> table_get T c' p' = Some l ->
                   table_get T' c' p' = Some l) ->
  (exists l, table_get T' c p = Some (l ++ seq (length q) (length new)) /\
             (forall j job l0, q !! j = Some job -> job_live job = true ->
                jd_chat_id (data job) = c -> jd_proposal_id (data job) = p ->
                table_get T c p = Some l0 -> j ∈ l0 -> j ∈ l)) ->
  (forall job, job ∈ new -> jd_chat_id (data job) = c /\ jd_proposal_id (data job) = p) ->
  live_jobs_tracked T' (q ++ new).
Proof.
  intros Hold Hother (l & Hl & Hkeep) Hnew j job Hj Hlive.
  destruct (decide (j < length q)%nat) as [Hlt|Hge].
  - rewrite lookup_app_l in Hj by done.
    destruct (Hold j job Hj Hlive) as (l0 & Hl0 & Hin).
    destruct (decide ((jd_chat_id (data job), jd_proposal_id (data job)) = (c, p)))
      as [[= Hc Hp]|Hne].
    + rewrite Hc, Hp in Hl0. rewrite Hc, Hp. eexists. split; [exact Hl|].
      apply elem_of_app. left. by eapply Hkeep.
    + exists l0. split; [|done]. by apply Hother.
  - rewrite lookup_app_r in Hj by lia.
    destruct (Hnew job) as [-> ->]; [by eapply list_elem_of_lookup_2|].
    eexists. split; [exact Hl|]. apply elem_of_app. right.
    apply elem_of_seq. apply lookup_lt_Some in Hj. lia.
Qed.

Lemma consistent_snoozed_state c p sid t s :
  consistent s -> consistent (snoozed_state cfg c p sid t s).
Proof.
  intros [H1 H2]. unfold consistent, snoozed_state. simpl. split.
  - apply jobs_have_prefs_app; [by apply jobs_have_prefs_set|].
    intros job ->%list_elem_of_singleton. simpl. rewrite pref_get_set_eq. eauto.
  - apply (live_jobs_tracked_app c p (SCHEDULED_JOBS s)); [done| | |].
    + intros c' p' l Hne Hl. by rewrite table_append_lookup_ne.
    + exists (default [] (table_get (SCHEDULED_JOBS s) c p)). split.
      * apply table_append_lookup_eq.
      * intros j job l0 _ _ _ _ Hl0 Hin. by rewrite Hl0.
    + by intros job ->%list_elem_of_singleton.
Qed.

Lemma consistent_voted_state c p s :
  consistent s -> consistent (voted_state c p s).
Proof.
  intros [H1 H2]. unfold voted_state. rewrite cancel_scheduled_reminders_spec.
  unfold tracked. simpl.
  destruct (table_get (SCHEDULED_JOBS s) c p) as [js|] eqn:Hjs; simpl.
  - split; simpl.
    + intros job' (j & Hj)%list_elem_of_lookup_1.
      rewrite cancel_queue_lookup in Hj.
      assert (exists job, job_queue s !! j = Some job /\ data job' = data job)
        as (job & Hq & ->).
      { destruct (decide (j ∈ js)).
        - destruct (job_queue s !! j) as [job|]; simpl in Hj; [|done].
          injection Hj as <-. exists job. by rewrite cancelled_data.
        - by exists job'. }
      apply (jobs_have_prefs_set _ c p PVoted _ H1 job).
      by eapply list_elem_of_lookup_2.
    + intros j job' Hj Hlive. rewrite cancel_queue_lookup in Hj.
      destruct (decide (j ∈ js)) as [Hin|Hnin].
      * destruct (job_queue s !! j) as [job|]; simpl in Hj; [|done].
        injection Hj as <-. by rewrite cancelled_not_live in Hlive.
      * destruct (H2 j job' Hj Hlive) as (l & Hl & Hjl).
        exists l. split; [|done]. rewrite table_delete_lookup_ne; [done|].
        intros [= Hc Hp]. rewrite Hc, Hp in Hl. congruence.
  - split; simpl; [by apply jobs_have_prefs_set|done].
Qed.

Lemma consistent_job_fires net j s :
  consistent s -> consistent (job_fires net j s).2.
Proof.
  intros [H1 H2].
  destruct (job_queue s !! j) as [job|] eqn:Hj.
  - destruct (job_live job) eqn:Hl.
    + rewrite (job_fires_live net j job s Hj Hl). simpl.
      assert (Hlen : (j < length (job_queue s))%nat) by by eapply lookup_lt_Some.
      assert (Hc : consistent (set_job_queue (<[j := mark_executed job]> (job_queue s)) s)).
      { split; simpl.
        - intros job' (i & Hi)%list_elem_of_lookup_1.
          destruct (decide (i = j)) as [->|Hne].
          + rewrite list_lookup_insert_eq in Hi by done. injection Hi as <-.
            simpl. apply H1. by eapply list_elem_of_lookup_2.
          + rewrite list_lookup_insert_ne in Hi by done.
            apply H1. by eapply list_elem_of_lookup_2.
        - intros i job' Hi Hlive.
          destruct (decide (i = j)) as [->|Hne].
          + rewrite list_lookup_insert_eq in Hi by done. injection Hi as <-.
            unfold job_live in Hlive. simpl in Hlive.
            by rewrite andb_false_r in Hlive.
          + rewrite list_lookup_insert_ne in Hi by done. by apply H2. }
      destruct net; [|done].
      revert Hc. apply consistent_same. by repeat split.
    + rewrite job_fires_dead; [done|]. intros job'. rewrite Hj. by intros [= <-].
  - rewrite job_fires_dead; [done|]. intros job'. by rewrite Hj.
Qed.

Lemma consistent_start net c s : consistent s -> consistent (start net c s).2.
Proof.
  intros [H1 H2].
  unfold start, bind, load_user_preferences, get_state, send_message, bot_call.
  destruct (dict_get (user_preferences s) c) as [per_chat|] eqn:Hc; simpl.
  - by destruct net.
  - assert (consistent (set_user_preferences (dict_set (user_preferences s) c ∅) s)).
    { split; simpl; [|done]. intros job Hin. specialize (H1 job Hin).
      unfold pref_get in *.
      destruct (decide (c = jd_chat_id (data job))) as [Heq|Hne].
      - rewrite <- Heq, Hc in H1. by destruct H1.
      - by rewrite dict_get_set_ne. }
    by destruct net.
Qed.

(** ** The dispatcher *)

Lemma dict_get_set_is_Some {V} (d : dict V) k k' v :
  is_Some (dict_get d k') -> is_Some (dict_get (dict_set d k v) k').
Proof.
  intros Hs. destruct (decide (k = k')) as [->|Hne].
  - rewrite dict_get_set_eq. eauto.
  - by rewrite dict_get_set_ne.
Qed.

Lemma set_reminder_pref_keys prefs c p v :
  is_Some (dict_get prefs c) ->
  dict_keys (set_reminder_pref prefs c p v) = dict_keys prefs.
Proof. intros Hs. unfold set_reminder_pref. by apply dict_keys_set. Qed.

(** A first scheduling returns when nothing is persisted for the pair, and
    leaves the preferences file alone. *)
Lemma schedule_reminders_first now c p sid t st en ty s :
  stored_pref s c p = None ->
  let new := registered_jobs cfg now c p sid t (proposal_link cfg ty p) st en
               (reminders_from_start cfg) (reminders_before_end cfg) in
  schedule_reminders cfg now c p sid t st en ty s =
  (Return tt,
   set_SCHEDULED_JOBS
     (track_all c p (seq (length (job_queue s)) (length new))
        (table_reset c p (SCHEDULED_JOBS s)))
     (set_job_queue (job_queue s ++ new) s)).
Proof.
  intros Hnone. apply schedule_reminders_spec.
  rewrite get_reminder_intervals_returns; rewrite Hnone; done.
Qed.

Section Loop.

Context (clock : string -> Z) (pid sid title : string) (st en : Z) (ty : string).

(** What the loop over the chats maintains, given that one scheduling
    maintains it. *)
Context (K : dict (gmap string ReminderPref) -> State -> Prop).
Context (HK : forall mem s c,
  K mem s -> pref_get mem c pid = None -> stored_pref s c pid = None ->
  K (set_reminder_pref mem c pid PNull)
    (schedule_reminders cfg (clock c) c pid sid title st en ty s).2).

Lemma for_each_subscriber_spec chats mem s :
  (forall c, c ∈ chats -> is_Some (dict_get mem c)) ->
  (forall c, pref_get mem c pid = None -> stored_pref s c pid = None) ->
  K mem s ->
  exists mem' s',
    for_each_subscriber cfg clock pid sid title st en ty chats mem s = (Return mem', s') /\
    K mem' s' /\
    user_preferences s' = user_preferences s /\
    proposal_id_map s' = proposal_id_map s /\
    known_proposals s' = known_proposals s /\
    sent s' = sent s /\
    dict_keys mem' = dict_keys mem /\
    (forall c p, is_Some (pref_get mem c p) -> pref_get mem' c p = pref_get mem c p) /\
    (forall c, c ∈ chats -> is_Some (pref_get mem' c pid)).
Proof.
  revert mem s. induction chats as [|c chats IH]; intros mem s Hkeys Hfile HKs.
  - exists mem, s. simpl. repeat split; try done. by intros c ?%elem_of_nil.
  - simpl.
    destruct (Hkeys c) as [per_chat Hc]; [apply elem_of_cons; by left|].
    rewrite Hc.
    assert (Hpg : pref_get mem c pid = per_chat !! pid).
    { unfold pref_get. by rewrite Hc. }
    destruct (per_chat !! pid) as [v|] eqn:Hp.
    + destruct (IH mem s) as (mem' & s' & Hrun & HK' & Hu & Hm & Hkn & Hse & Hk & Hkept & Hall);
        [intros; apply Hkeys, elem_of_cons; by right|done|done|].
      exists mem', s'. repeat split; try done.
      intros c' [->|Hin]%elem_of_cons; [|by apply Hall].
      rewrite Hkept; rewrite Hpg; eauto.
    + assert (Hset : dict_set mem c (<[pid := PNull]> per_chat)
                     = set_reminder_pref mem c pid PNull).
      { unfold set_reminder_pref. by rewrite Hc. }
      rewrite Hset.
      pose proof (Hfile c Hpg) as Hnone.
      pose proof (HK mem s c HKs Hpg Hnone) as HK1.
      pose proof (schedule_reminders_first (clock c) c pid sid title st en ty s Hnone) as Hs.
      simpl in Hs. unfold bind at 1. rewrite Hs in HK1 |- *. simpl in HK1.
      match type of HK1 with K _ ?s1 => set (s1' := s1) in * end.
      destruct (IH (set_reminder_pref mem c pid PNull) s1')
        as (mem' & s' & Hrun & HK' & Hu & Hm & Hkn & Hse & Hk & Hkept & Hall).
      * intros c' Hin. unfold set_reminder_pref. apply dict_get_set_is_Some.
        apply Hkeys, elem_of_cons. by right.
      * intros c' Hc'. change (stored_pref s1' c' pid) with (stored_pref s c' pid).
        apply Hfile. rewrite <- Hc'. symmetry. apply pref_get_set_ne.
        intros [= ->]. by rewrite pref_get_set_eq in Hc'.
      * exact HK1.
      * exists mem', s'. repeat split; try done.
        -- rewrite Hk. apply set_reminder_pref_keys. eauto.
        -- intros c' p' Hsome. rewrite Hkept.
           ++ apply pref_get_set_ne. intros [= -> ->]. rewrite Hpg in Hsome.
              by destruct Hsome.
           ++ rewrite pref_get_set_ne; [done|]. intros [= -> ->].
              rewrite Hpg in Hsome. by destruct Hsome.
        -- intros c' [->|Hin]%elem_of_cons; [|by apply Hall].
           rewrite Hkept; rewrite pref_get_set_eq; eauto.
Qed.

End Loop.

Lemma resolve_short_id_spec uuid4 pid s :
  exists sid m, resolve_short_id uuid4 pid s = (Return sid, set_proposal_id_map m s).
Proof.
  unfold resolve_short_id, bind, load_proposal_id_map, get_state.
  destruct (dict_get (proposal_id_map s) pid) as [sid|]; simpl.
  - exists sid, (proposal_id_map s). by destruct s.
  - by eexists _, _.
Qed.

(** [handle_new_proposal] returns; it ends by saving preferences that have
    the chats they had, the values they had, and a value for the proposal
    under every chat. *)
Lemma handle_new_proposal_spec
    (K : dict (gmap string ReminderPref) -> State -> Prop) uuid4 clock pid title st en ty s :
  (forall sid mem s c,
     K mem s -> pref_get mem c pid = None -> stored_pref s c pid = None ->
     K (set_reminder_pref mem c pid PNull)
       (schedule_reminders cfg (clock c) c pid sid title st en ty s).2) ->
  K (user_preferences s) (resolve_short_id uuid4 pid s).2 ->
  exists mem' s',
    handle_new_proposal cfg uuid4 clock pid title st en ty s =
      (Return tt, set_user_preferences mem' s') /\
    K mem' s' /\
    proposal_id_map s' = proposal_id_map (resolve_short_id uuid4 pid s).2 /\
    known_proposals s' = known_proposals s /\
    sent s' = sent s /\
    dict_keys mem' = dict_keys (user_preferences s) /\
    (forall c p, is_Some (stored_pref s c p) -> pref_get mem' c p = stored_pref s c p) /\
    (forall c, c ∈ dict_keys (user_preferences s) -> is_Some (pref_get mem' c pid)).
Proof.
  intros HK HK0. unfold handle_new_proposal.
  unfold bind at 1. unfold load_user_preferences, get_state.
  unfold bind at 1.
  destruct (resolve_short_id_spec uuid4 pid s) as (sid & m & Hr).
  rewrite Hr in HK0 |- *. simpl in HK0.
  destruct (for_each_subscriber_spec clock pid sid title st en ty K (HK sid)
              (dict_keys (user_preferences s)) (user_preferences s)
              (set_proposal_id_map m s))
    as (mem' & s' & Hrun & HK' & Hu & Hm & Hkn & Hse & Hk & Hkept & Hall).
  - apply dict_get_keys.
  - done.
  - done.
  - exists mem', s'. unfold bind. rewrite Hrun. simpl. repeat split; done.
Qed.

Lemma consistent_handle_new_proposal uuid4 clock pid title st en ty s :
  consistent s ->
  consistent (handle_new_proposal cfg uuid4 clock pid title st en ty s).2.
Proof.
  intros Hc.
  destruct (handle_new_proposal_spec
              (fun mem s => jobs_have_prefs mem (job_queue s) /\
                            live_jobs_tracked (SCHEDULED_JOBS s) (job_queue s))
              uuid4 clock pid title st en ty s)
    as (mem' & s' & Hrun & HK' & _).
  - intros sid mem s0 c [H1 H2] Hmem Hnone.
    rewrite (schedule_reminders_first (clock c) c pid sid title st en ty s0 Hnone).
    simpl.
    assert (Hnew : forall job,
      job ∈ registered_jobs cfg (clock c) c pid sid title (proposal_link cfg ty pid) st en
              (reminders_from_start cfg) (reminders_before_end cfg) ->
      jd_chat_id (data job) = c /\ jd_proposal_id (data job) = pid).
    { intros job [Hin|Hin]%elem_of_app;
        apply list_elem_of_fmap in Hin as (h & -> & _); done. }
    split.
    + apply jobs_have_prefs_app; [by apply jobs_have_prefs_set|].
      intros job Hin. destruct (Hnew job Hin) as [-> ->].
      rewrite pref_get_set_eq. eauto.
    + apply (live_jobs_tracked_app c pid (SCHEDULED_JOBS s0)); [done| | |done].
      * intros c' p' l Hne Hl.
        by rewrite track_all_lookup_ne, table_reset_lookup_ne.
      * exists []. split.
        -- apply (track_all_lookup_eq c pid _ []), table_reset_lookup_eq.
        -- intros j job l0 Hj _ Hjc Hjp _ _.
           destruct (H1 job) as [v Hv]; [by eapply list_elem_of_lookup_2|].
           rewrite Hjc, Hjp in Hv. congruence.
  - destruct (resolve_short_id_spec uuid4 pid s) as (sid & m & ->). exact Hc.
  - rewrite Hrun. exact HK'.
Qed.

Lemma lookup_1_0 (data : list string) sid :
  data !! 1%nat = Some sid -> exists action, data !! 0%nat = Some action.
Proof. destruct data as [|a data]; [done|]. by exists a. Qed.

(** Whatever the interaction, the handler leaves, up to the calls it made on
    the transport, the state it found, or the state of the voted branch, or
    the state of the snooze branch. *)
Lemma button_callback_state net now c data s :
  exists s1,
    same_but_sent s1 (button_callback cfg float net now c data s).2 /\
    (s1 = s \/ (exists pid, s1 = voted_state c pid s) \/
     (exists pid sid t,
        data !! 0%nat = Some "remind_in" /\ s1 = snoozed_state cfg c pid sid t s)).
Proof.
  destruct (data !! 1%nat) as [sid|] eqn:H1.
  - destruct (lookup_1_0 data sid H1) as [action H0].
    destruct (dict_get (reverse_map (proposal_id_map s)) sid) as [pid|] eqn:Hm.
    + destruct (decide (action = "voted")) as [->|Hv];
        [|destruct (decide (action = "remind_in")) as [->|Hr]].
      * rewrite (button_callback_voted net now c data sid pid s) by done.
        eexists. split; [apply reply_and_answer_same|]. right. left. by exists pid.
      * destruct (data !! 2%nat) as [param|] eqn:H2;
          [destruct (float param) as [h|] eqn:Hf|].
        -- rewrite (button_callback_remind_in net now c data sid pid param h s) by done.
           eexists. split; [apply reply_and_answer_same|]. right. right.
           by eexists _, _, _.
        -- destruct (button_callback_raises_early net now c data s) as [e ->].
           { right. exists sid, pid. repeat split; try done. right. by exists param. }
           exists s. split; [by repeat split|by left].
        -- destruct (button_callback_raises_early net now c data s) as [e ->].
           { right. exists sid, pid. repeat split; try done. by left. }
           exists s. split; [by repeat split|by left].
      * rewrite (button_callback_other net now c data action sid pid s) by done.
        exists s. split; [|by left].
        unfold query_answer, bot_call. destruct (answer_ok net); by repeat split.
    + rewrite (button_callback_unknown net now c data action sid s) by done.
      exists s. split; [|by left].
      unfold query_answer, bot_call. destruct (answer_ok net); by repeat split.
  - destruct (button_callback_raises_early net now c data s) as [e ->]; [by left|].
    exists s. split; [by repeat split|by left].
Qed.

Lemma consistent_button_callback net now c data s :
  consistent s -> consistent (button_callback cfg float net now c data s).2.
Proof.
  intros Hc.
  destruct (button_callback_state net now c data s)
    as (s1 & Hsame & [->|[[pid ->]|(pid & sid & t & _ & ->)]]);
    apply (consistent_same _ _ Hsame).
  - done.
  - by apply consistent_voted_state.
  - by apply consistent_snoozed_state.
Qed.

Lemma consistent_step e s : consistent s -> consistent (step cfg float s e).
Proof.
  intros Hc. unfold step.
  destruct e as [net c|net u1 u2 n1 n2 clock c|net now c d|u clock p
                |u clock i v b n1 n2|net j]; simpl.
  - by apply consistent_start.
  - unfold test_proposal, bind, send_message, bot_call.
    pose proof (consistent_handle_new_proposal u2 clock
                  ("test_proposal_id_" ++ u1)%string "Test Proposal"
                  (n1 + timedelta_seconds 5) (n2 + timedelta_seconds 120)
                  "snapshot" s Hc) as H.
    destruct (handle_new_proposal _ _ _ _ _ _ _ _ s) as [[[]|e] s']; simpl in *;
      [|done].
    by destruct net.
  - by apply consistent_button_callback.
  - unfold snapshot_proposal, bind, get_state, save_known_proposals, modify.
    destruct (decide (sp_id p ∈ known_proposals s)); [done|].
    by apply consistent_handle_new_proposal.
  - by apply consistent_handle_new_proposal.
  - by apply consistent_job_fires.
Qed.

Lemma reachable_consistent s : reachable cfg float s -> consistent s.
Proof.
  induction 1 as [s [Hq Ht]|s e _ IH].
  - split.
    + rewrite Hq. by intros job ?%elem_of_nil.
    + rewrite Hq. by intros j job ?.
  - by apply consistent_step.
Qed.

(** ** After "I have already voted" *)










(** ** A proposal delivered again *)

Lemma for_each_subscriber_noop clock pid sid title st en ty chats mem s :
  (forall c, c ∈ chats -> is_Some (pref_get mem c pid)) ->
  for_each_subscriber cfg clock pid sid title st en ty chats mem s = (Return mem, s).
Proof.
  induction chats as [|c chats IH]; intros Hall; simpl; [done|].
  destruct (Hall c) as [v Hv]; [apply elem_of_cons; by left|].
  unfold pref_get in Hv.
  destruct (dict_get mem c) as [per_chat|]; simpl in Hv; [|done].
  rewrite Hv. apply IH. intros c' Hin. apply Hall, elem_of_cons. by right.
Qed.

Lemma set_user_preferences_id s : set_user_preferences (user_preferences s) s = s.
Proof. by destruct s. Qed.

(** A proposal that has its short id, and a value under every registered
    chat, is handled without a single write. *)
Lemma handle_new_proposal_noop uuid4 clock pid title st en ty s :
  is_Some (dict_get (proposal_id_map s) pid) ->
  (forall c, c ∈ dict_keys (user_preferences s) -> is_Some (stored_pref s c pid)) ->
  handle_new_proposal cfg uuid4 clock pid title st en ty s = (Return tt, s).
Proof.
  intros [sid Hsid] Hall. unfold handle_new_proposal.
  unfold bind at 1. unfold load_user_preferences, get_state.
  unfold bind at 1. rewrite (resolve_short_id_stored uuid4 pid sid s Hsid).
  unfold bind. rewrite for_each_subscriber_noop by done.
  unfold save_user_preferences, modify. by rewrite set_user_preferences_id.
Qed.

(** After one handling the proposal is in that situation. *)
Lemma handle_new_proposal_settles uuid4 clock pid title st en ty s :
  let s1 := (handle_new_proposal cfg uuid4 clock pid title st en ty s).2 in
  is_Some (dict_get (proposal_id_map s1) pid) /\
  (forall c, c ∈ dict_keys (user_preferences s1) -> is_Some (stored_pref s1 c pid)).
Proof.
  intros s1.
  destruct (handle_new_proposal_spec (fun _ _ => True)
              uuid4 clock pid title st en ty s)
    as (mem' & s' & Hrun & _ & Hm & _ & _ & Hk & _ & Hall); [done|done|].
  subst s1. rewrite Hrun. simpl. split.
  - rewrite Hm. destruct (resolve_short_id_assigns uuid4 pid s) as [_ ->]. eauto.
  - intros c Hc. apply Hall. by rewrite <- Hk.
Qed.

(** A chat that holds a value for a proposal is left alone by a handling of
    that proposal: the value and the tracked handles stay. *)
Lemma handle_new_proposal_keeps_pair c uuid4 clock pid title st en ty s :
  is_Some (stored_pref s c pid) ->
  let s1 := (handle_new_proposal cfg uuid4 clock pid title st en ty s).2 in
  stored_pref s1 c pid = stored_pref s c pid /\ tracked s1 c pid = tracked s c pid.
Proof.
  intros Hs s1.
  destruct (handle_new_proposal_spec
              (fun mem s0 => pref_get mem c pid = stored_pref s c pid /\
                             tracked s0 c pid = tracked s c pid)
              uuid4 clock pid title st en ty s)
    as (mem' & s' & Hrun & HK' & _).
  - intros sid mem s0 c0 [H1 H2] Hmem Hnone.
    assert (Hne : (c, pid) ≠ (c0, pid)).
    { intros [= ->]. rewrite Hmem in H1. rewrite <- H1 in Hs. by destruct Hs. }
    rewrite (schedule_reminders_first (clock c0) c0 pid sid title st en ty s0 Hnone).
    simpl. split.
    + by rewrite pref_get_set_ne.
    + unfold tracked in *. simpl.
      by rewrite track_all_lookup_ne, table_reset_lookup_ne.
  - destruct (resolve_short_id_spec uuid4 pid s) as (sid & m & ->). by split.
  - subst s1. rewrite Hrun. exact HK'.
Qed.

Lemma snapshot_known_noop uuid4 clock p s :
  sp_id p ∈ known_proposals s -> snapshot_proposal cfg uuid4 clock p s = (Return tt, s).
Proof.
  intros Hk. unfold snapshot_proposal, bind, get_state. by rewrite decide_True.
Qed.

Lemma snapshot_marks_known uuid4 clock p s :
  sp_id p ∈ known_proposals (snapshot_proposal cfg uuid4 clock p s).2.
Proof.
  unfold snapshot_proposal, bind, get_state, save_known_proposals, modify.
  destruct (decide (sp_id p ∈ known_proposals s)) as [Hk|Hk]; [done|].
  destruct (handle_new_proposal_spec (fun _ _ => True) uuid4 clock (sp_id p) (sp_title p)
              (fromtimestamp (sp_start p)) (fromtimestamp (sp_end p)) "snapshot"
              (set_known_proposals ({[sp_id p]} ∪ known_proposals s) s))
    as (mem' & s' & Hrun & _ & _ & Hkn & _); [done|done|].
  rewrite Hrun. simpl. rewrite Hkn. simpl.
  apply elem_of_union. left. by apply elem_of_singleton.
Qed.

Lemma known_kept_by_run pid es s :
  pid ∈ known_proposals s -> pid ∈ known_proposals (run cfg float s es).
Proof.
  apply (stable_run (fun s => pid ∈ known_proposals s)).
  apply stable_handler.
  - by repeat split.
  - intros uuid4 p s0 Hs0.
    destruct (resolve_short_id_spec uuid4 p s0) as (sid & m & ->). done.
  - intros s0 p Hs0. simpl. set_solver.
Qed.

(** C3 (corrected form). Off-chain: once the Snapshot monitor has processed a
    proposal, processing it again writes nothing, whatever the loop ran in
    between.  On-chain, where no set of known proposals is kept: a second
    delivery straight after the first writes nothing; after any events in
    between it still assigns no new short id, leaves the value and the tracked
    jobs of every chat that holds a value for the proposal as they are, and
    writes nothing at all if every registered chat holds such a value; the
    chats that hold none are given one. *)
Theorem second_delivery uuid4 clock uuid4' clock' p i v b n1 n2 v' b' n1' n2' s :
  (forall es,
     let s2 := run cfg float (step cfg float s (ESnapshot uuid4 clock p)) es in
     snapshot_proposal cfg uuid4' clock' p s2 = (Return tt, s2)) /\
  (let s1 := step cfg float s (EOnChain uuid4 clock i v b n1 n2) in
   onchain_proposal cfg uuid4' clock' i v' b' n1' n2' s1 = (Return tt, s1)) /\
  (forall es,
     let s2 := run cfg float (step cfg float s (EOnChain uuid4 clock i v b n1 n2)) es in
     let s3 := (onchain_proposal cfg uuid4' clock' i v' b' n1' n2' s2).2 in
     proposal_id_map s3 = proposal_id_map s2 /\
     (forall c, is_Some (stored_pref s2 c (pretty i)) ->
        stored_pref s3 c (pretty i) = stored_pref s2 c (pretty i) /\
        tracked s3 c (pretty i) = tracked s2 c (pretty i)) /\
     ((forall c, c ∈ dict_keys (user_preferences s2) ->
         is_Some (stored_pref s2 c (pretty i))) ->
      s3 = s2) /\
     (forall c, c ∈ dict_keys (user_preferences s3) ->
        is_Some (stored_pref s3 c (pretty i)))).
Proof.
  split; [|split].
  - intros es s2. apply snapshot_known_noop. subst s2.
    apply known_kept_by_run. unfold step. simpl. apply snapshot_marks_known.
  - intros s1. subst s1. unfold step. simpl. unfold onchain_proposal.
    match goal with
    | |- context [ (handle_new_proposal cfg uuid4 clock ?pid ?t ?st ?en ?ty s).2 ] =>
        destruct (handle_new_proposal_settles uuid4 clock pid t st en ty s) as [Hm Hall]
    end.
    by apply handle_new_proposal_noop.
  - intros es s2 s3.
    assert (Hsid : is_Some (dict_get (proposal_id_map s2) (pretty i))).
    { subst s2. unfold step. simpl. unfold onchain_proposal.
      match goal with
      | |- context [ (handle_new_proposal cfg uuid4 clock ?pid ?t ?st ?en ?ty s).2 ] =>
          destruct (handle_new_proposal_settles uuid4 clock pid t st en ty s)
            as [[sid Hm] _]
      end.
      exists sid. by apply short_id_kept_by_run. }
    split; [|split; [|split]].
    + subst s3. unfold onchain_proposal.
      match goal with
      | |- context [ handle_new_proposal cfg uuid4' clock' ?pid ?t ?st ?en ?ty s2 ] =>
          destruct (handle_new_proposal_spec (fun _ _ => True) uuid4' clock' pid t st en ty s2)
            as (mem' & s' & Hrun & _ & Hm & _); [done|done|]
      end.
      rewrite Hrun. simpl. rewrite Hm. destruct Hsid as [sid Hsid].
      by rewrite (resolve_short_id_stored uuid4' (pretty i) sid s2 Hsid).
    + intros c Hc. subst s3. unfold onchain_proposal.
      by apply handle_new_proposal_keeps_pair.
    + intros Hall. subst s3. unfold onchain_proposal.
      by rewrite handle_new_proposal_noop.
    + subst s3. unfold onchain_proposal. apply handle_new_proposal_settles.
Qed.

Lemma reachable_run s es : reachable cfg float s -> reachable cfg float (run cfg float s es).
Proof.
  revert s. induction es as [|e es IH]; intros s Hs; [done|].
  simpl. apply IH. by apply reachable_step.
Qed.

End Properties.

(** * Further properties *)

(** ** Splitting and stripping *)

Lemma append_nil_l s : (EmptyString ++ s)%string = s.
Proof. reflexivity. Qed.

Lemma append_cons c a b : (String c a ++ b)%string = String c (a ++ b)%string.
Proof. reflexivity. Qed.

Lemma split_on_not_nil sep s : split_on sep s ≠ [].
Proof.
  destruct s as [|c s]; cbn [split_on]; [done|].
  case_decide; [done|]. by destruct (split_on sep s).
Qed.

Lemma split_on_no_sep sep s : sep ∉ chars s -> split_on sep s = [s].
Proof.
  induction s as [|c s IH]; cbn [split_on chars]; intros Hn; [done|].
  apply not_elem_of_cons in Hn as [Hne Hn].
  case_decide; [congruence|]. by rewrite IH.
Qed.

Lemma split_on_app sep a b :
  split_on sep (a ++ String sep b)%string = split_on sep a ++ split_on sep b.
Proof.
  induction a as [|c a IH]; [rewrite append_nil_l|rewrite append_cons];
    cbn [split_on].
  - by case_decide.
  - case_decide.
    + by rewrite IH.
    + rewrite IH. pose proof (split_on_not_nil sep a) as Hnn.
      by destruct (split_on sep a).
Qed.

Lemma hd_split_on_app sep a b :
  sep ∉ chars a ->
  hd EmptyString (split_on sep (a ++ b)%string) =
  (a ++ hd EmptyString (split_on sep b))%string.
Proof.
  induction a as [|c a IH]; [rewrite append_nil_l|rewrite append_cons];
    cbn [split_on chars]; intros Hn; [by rewrite append_nil_l|].
  rewrite append_cons.
  apply not_elem_of_cons in Hn as [Hne Hn].
  case_decide; [congruence|]. specialize (IH Hn).
  pose proof (split_on_not_nil sep (a ++ b)%string) as Hnn.
  destruct (split_on sep (a ++ b)%string); [done|]. cbn [hd] in *. by rewrite IH.
Qed.

Lemma hd_app_not_nil {A} (d : A) (l1 l2 : list A) : l1 ≠ [] -> hd d (l1 ++ l2) = hd d l1.
Proof. by destruct l1. Qed.

Lemma rstrip_spaces s :
  (forall c, c ∈ chars s -> is_space c = true) -> rstrip s = EmptyString.
Proof.
  induction s as [|c s IH]; simpl; intros Hs; [done|].
  rewrite IH by (intros c' Hc'; apply Hs, elem_of_cons; by right).
  rewrite Hs; [done|]. apply elem_of_cons. by left.
Qed.

(** ** [parse_intervals] *)

Section ParseIntervals.

Context {F : Type} (float : string -> option F).

Lemma floats_of_fields_app l1 l2 :
  floats_of_fields float (l1 ++ l2) =
  outcome_app (floats_of_fields float l1) (floats_of_fields float l2).
Proof.
  induction l1 as [|x l1 IH]; cbn [floats_of_fields app].
  - by destruct (floats_of_fields float l2).
  - case_decide; [done|].
    destruct (float (strip x)); [|done]. rewrite IH.
    destruct (floats_of_fields float l1); [|done].
    by destruct (floats_of_fields float l2).
Qed.

(** X1. An inline comment is ignored: whatever follows the first [#] of a
    configuration value has no part in the result, be it a list or an
    exception. *)
Theorem parse_intervals_comment value comment :
  parse_intervals float (value ++ String "#" comment)%string = parse_intervals float value.
Proof.
  unfold parse_intervals. rewrite split_on_app.
  by rewrite hd_app_not_nil by apply split_on_not_nil.
Qed.

(** X2. The items between commas are read one by one from the left and their
    numbers joined in that order; the first item [float] refuses raises
    [ValueError] for the whole value. *)
Theorem parse_intervals_comma a b :
  "#"%char ∉ chars a ->
  parse_intervals float (a ++ String "," b)%string =
  outcome_app (parse_intervals float a) (parse_intervals float b).
Proof.
  intros Ha. unfold parse_intervals.
  rewrite (hd_split_on_app "#" a (String "," b) Ha).
  rewrite (split_on_no_sep "#" a Ha). cbn [hd split_on].
  case_decide; [done|].
  pose proof (split_on_not_nil "#" b) as Hnn.
  destruct (split_on "#" b) as [|b0 bs] eqn:Hb; [done|]. cbn [hd].
  by rewrite split_on_app, floats_of_fields_app.
Qed.

(** X3. A value made of white space only, the empty value included, gives
    the empty list and no exception. *)
Theorem parse_intervals_blank value :
  (forall c, c ∈ chars value -> is_space c = true) ->
  parse_intervals float value = Return [].
Proof.
  intros Hs. unfold parse_intervals.
  assert (Hh : "#"%char ∉ chars value) by (intros Hin; by apply Hs in Hin).
  assert (Hc : ","%char ∉ chars value) by (intros Hin; by apply Hs in Hin).
  rewrite (split_on_no_sep "#" value Hh). cbn [hd].
  rewrite (split_on_no_sep "," value Hc). cbn [floats_of_fields].
  unfold strip. rewrite (rstrip_spaces value Hs). cbn [lstrip]. by case_decide.
Qed.

End ParseIntervals.

Section More.

Context (cfg : Config) (float : string -> option Q).

(** ** From a short id back to its proposal *)

Lemma reverse_map_snoc (m : list (string * string)) k v : reverse_map (m ++ [(k, v)]) = dict_set (reverse_map m) v k.
Proof. unfold reverse_map. by rewrite foldl_app. Qed.

Lemma dict_get_set {V} (d : dict V) k k' v :
  dict_get (dict_set d k v) k' = if decide (k = k') then Some v else dict_get d k'.
Proof.
  destruct (decide (k = k')) as [->|Hne].
  - apply dict_get_set_eq.
  - by apply dict_get_set_ne.
Qed.

Lemma reverse_map_lookup (m : list (string * string)) sid :
  dict_get (reverse_map m) sid = fst <$> last (filter (fun kv => kv.2 = sid) m).
Proof.
  induction m as [|[k v] m IH] using rev_ind; [done|].
  rewrite reverse_map_snoc, dict_get_set, filter_app.
  destruct (decide (v = sid)) as [->|Hne].
  - rewrite filter_cons_True by done. rewrite filter_nil. by rewrite last_snoc.
  - rewrite filter_cons_False by done. rewrite filter_nil, app_nil_r. exact IH.
Qed.

Lemma reverse_map_sound (m : list (string * string)) sid pid :
  dict_get (reverse_map m) sid = Some pid -> (pid, sid) ∈ m.
Proof.
  rewrite reverse_map_lookup.
  destruct (last (filter (fun kv => kv.2 = sid) m)) as [[k v]|] eqn:Hlast; [|done].
  simpl. intros [= ->].
  apply last_Some_elem_of, list_elem_of_filter in Hlast as [Hv Hin].
  simpl in Hv. by subst v.
Qed.

Lemma reverse_map_unknown (m : list (string * string)) sid :
  dict_get (reverse_map m) sid = None <-> forall pid, (pid, sid) ∉ m.
Proof.
  rewrite reverse_map_lookup. split.
  - intros Hn pid Hin.
    destruct (last (filter (fun kv => kv.2 = sid) m)) as [kv|] eqn:Hlast; [done|].
    apply last_None in Hlast.
    assert (Hf : (pid, sid) ∈ filter (fun kv : string * string => kv.2 = sid) m)
      by by apply list_elem_of_filter.
    rewrite Hlast in Hf. by apply elem_of_nil in Hf.
  - intros Hn.
    destruct (last (filter (fun kv => kv.2 = sid) m)) as [[k v]|] eqn:Hlast; [|done].
    apply last_Some_elem_of, list_elem_of_filter in Hlast as [Hv Hin].
    simpl in Hv. subst v. by destruct (Hn k).
Qed.

(** X4. The short id of a button resolves to the proposal that was given
    this short id last, and is unknown only if no proposal of the map has it:
    what a button resolves to is always a proposal stored with that very
    short id. *)
Theorem reverse_map_resolves (m : list (string * string)) sid :
  dict_get (reverse_map m) sid = fst <$> last (filter (fun kv => kv.2 = sid) m) /\
  (forall pid, dict_get (reverse_map m) sid = Some pid -> (pid, sid) ∈ m) /\
  (dict_get (reverse_map m) sid = None <-> forall pid, (pid, sid) ∉ m).
Proof.
  split; [apply reverse_map_lookup|]. split.
  - intros pid. apply reverse_map_sound.
  - apply reverse_map_unknown.
Qed.

Lemma dict_get_elem_of {V} (d : dict V) k v : dict_get d k = Some v -> (k, v) ∈ d.
Proof.
  induction d as [|[k0 v0] d IH]; simpl; [done|].
  destruct (decide (k0 = k)) as [->|Hne].
  - intros [= ->]. apply elem_of_cons. by left.
  - intros Hg. apply elem_of_cons. right. by apply IH.
Qed.

Lemma elem_of_dict_get {V} (d : dict V) k v :
  NoDup (dict_keys d) -> (k, v) ∈ d -> dict_get d k = Some v.
Proof.
  unfold dict_keys. induction d as [|[k0 v0] d IH]; simpl; intros Hnd Hin.
  - by apply elem_of_nil in Hin.
  - apply NoDup_cons in Hnd as [Hk0 Hnd].
    apply elem_of_cons in Hin as [[= <- <-]|Hin].
    + by rewrite decide_True.
    + destruct (decide (k0 = k)) as [->|Hne]; [|by apply IH].
      destruct Hk0. apply list_elem_of_fmap. by exists (k, v).
Qed.

Lemma dict_set_absent {V} (d : dict V) k v :
  dict_get d k = None -> dict_set d k v = d ++ [(k, v)].
Proof.
  induction d as [|[k0 v0] d IH]; simpl; [done|].
  destruct (decide (k0 = k)); [done|]. intros Hg. by rewrite IH.
Qed.

(** X5. Where no two proposals share a short id, the two directions agree:
    a proposal has a short id exactly if that short id resolves to the
    proposal. *)
Theorem short_id_round_trip (m : list (string * string)) pid sid :
  NoDup (dict_keys m) -> NoDup m.*2 ->
  dict_get m pid = Some sid <-> dict_get (reverse_map m) sid = Some pid.
Proof.
  intros Hk Hv. split.
  - intros Hg. apply dict_get_elem_of in Hg.
    destruct (dict_get (reverse_map m) sid) as [pid'|] eqn:Hr.
    + apply reverse_map_sound in Hr.
      f_equal.
      destruct (list_elem_of_lookup_1 _ _ Hg) as [i Hi].
      destruct (list_elem_of_lookup_1 _ _ Hr) as [i' Hi'].
      assert (Hii : i' = i).
      { eapply (NoDup_lookup m.*2); [done| |]; rewrite list_lookup_fmap.
        - by rewrite Hi'.
        - by rewrite Hi. }
      subst i'. congruence.
    + destruct (reverse_map_unknown m sid) as [Hu _]. by destruct (Hu Hr pid).
  - intros Hr. apply reverse_map_sound in Hr. by apply elem_of_dict_get.
Qed.

(** X6. The first handling of a proposal gives it a short id that resolves
    to this proposal.  If another proposal had the same short id (the first
    eight characters of the two uuids agree), that proposal keeps its short
    id, but the short id now resolves to the newcomer: the buttons sent for
    the older proposal act on the newer one. *)
Theorem new_short_id_resolves_to_newcomer uuid4 clock pid title st en ty s :
  dict_get (proposal_id_map s) pid = None ->
  let sid := String.substring 0 8 uuid4 in
  let s1 := (handle_new_proposal cfg uuid4 clock pid title st en ty s).2 in
  dict_get (proposal_id_map s1) pid = Some sid /\
  dict_get (reverse_map (proposal_id_map s1)) sid = Some pid /\
  (forall old, dict_get (proposal_id_map s) old = Some sid ->
     dict_get (proposal_id_map s1) old = Some sid /\
     dict_get (reverse_map (proposal_id_map s1)) sid ≠ Some old).
Proof.
  intros Hnone sid s1.
  assert (Hmap : proposal_id_map s1 = proposal_id_map s ++ [(pid, sid)]).
  { subst s1.
    destruct (handle_new_proposal_spec cfg (fun _ _ => True)
                uuid4 clock pid title st en ty s)
      as (mem' & s' & Hrun & _ & Hm & _); [done|done|].
    rewrite Hrun. simpl. rewrite Hm.
    unfold resolve_short_id, bind, load_proposal_id_map, get_state.
    rewrite Hnone. simpl. by apply dict_set_absent. }
  assert (Hrev : dict_get (reverse_map (proposal_id_map s1)) sid = Some pid).
  { rewrite Hmap, reverse_map_snoc. apply dict_get_set_eq. }
  split; [|split; [exact Hrev|]].
  - rewrite Hmap, <- (dict_set_absent _ _ _ Hnone). apply dict_get_set_eq.
  - intros old Hold. split.
    + rewrite Hmap, <- (dict_set_absent _ _ _ Hnone).
      rewrite dict_get_set_ne; [done|]. intros ->. congruence.
    + rewrite Hrev. intros [= ->]. congruence.
Qed.

(** ** Cancelling *)

Lemma cancel_queue_length js q : length (cancel_queue js q) = length q.
Proof.
  revert q. induction js as [|j js IH]; intros q; [done|].
  unfold cancel_queue in *. cbn [foldl]. rewrite IH. apply length_alter.
Qed.

(** X7. [cancel_scheduled_reminders] never raises, whatever the jobs it
    meets (pending, already run, already removed), and cancelling the same
    pair again changes nothing.  It takes no job off the queue and alters
    neither the time nor the content of any job: the handles tracked for the
    pair end up not pending, every other job is as it was. *)
Theorem cancel_scheduled_reminders_idempotent c p s :
  let r := cancel_scheduled_reminders c p s in
  r.1 = Return tt /\
  cancel_scheduled_reminders c p r.2 = (Return tt, r.2) /\
  length (job_queue r.2) = length (job_queue s) /\
  (forall j job, job_queue s !! j = Some job ->
     exists job', job_queue r.2 !! j = Some job' /\
       when job' = when job /\ data job' = data job /\
       (j ∈ default [] (tracked s c p) -> job_live job' = false) /\
       (j ∉ default [] (tracked s c p) -> job' = job)).
Proof.
  intros r. subst r. rewrite cancel_scheduled_reminders_spec. simpl.
  split; [done|]. rewrite cancel_scheduled_reminders_spec.
  destruct (tracked s c p) as [js|] eqn:Ht; simpl.
  - unfold tracked. simpl. rewrite table_delete_lookup_eq.
    split; [done|]. split; [apply cancel_queue_length|].
    intros j job Hj. rewrite cancel_queue_lookup, Hj.
    destruct (decide (j ∈ js)) as [Hin|Hnin]; simpl.
    + exists (cancelled job). split; [done|]. unfold cancelled at 1 2.
      destruct (removed job || executed job); simpl; repeat split; try done.
      * intros _. apply cancelled_not_live.
      * intros _. apply cancelled_not_live.
    + exists job. by repeat split.
  - rewrite Ht. split; [done|]. split; [done|].
    intros j job Hj. exists job. repeat split; try done.
    by intros ?%elem_of_nil.
Qed.

(** ** A rule for invariants of the loop *)

Lemma button_callback_cases net now c data s :
  exists s1,
    same_but_sent s1 (button_callback cfg float net now c data s).2 /\
    (s1 = s \/
     (exists pid sid,
        data !! 0%nat = Some "voted" /\ data !! 1%nat = Some sid /\
        dict_get (reverse_map (proposal_id_map s)) sid = Some pid /\
        s1 = voted_state c pid s) \/
     (exists pid sid param h,
        data !! 0%nat = Some "remind_in" /\ data !! 1%nat = Some sid /\
        dict_get (reverse_map (proposal_id_map s)) sid = Some pid /\
        data !! 2%nat = Some param /\ float param = Some h /\
        s1 = snoozed_state cfg c pid sid (now + timedelta_hours h) s)).
Proof.
  destruct (data !! 1%nat) as [sid|] eqn:H1.
  - destruct (lookup_1_0 data sid H1) as [action H0].
    destruct (dict_get (reverse_map (proposal_id_map s)) sid) as [pid|] eqn:Hm.
    + destruct (decide (action = "voted")) as [->|Hv];
        [|destruct (decide (action = "remind_in")) as [->|Hr]].
      * rewrite (button_callback_voted cfg float net now c data sid pid s) by done.
        eexists. split; [apply reply_and_answer_same|]. right. left. by exists pid, sid.
      * destruct (data !! 2%nat) as [param|] eqn:H2;
          [destruct (float param) as [h|] eqn:Hf|].
        -- rewrite (button_callback_remind_in cfg float net now c data sid pid param h s)
             by done.
           eexists. split; [apply reply_and_answer_same|]. right. right.
           by exists pid, sid, param, h.
        -- destruct (button_callback_raises_early cfg float net now c data s) as [e ->].
           { right. exists sid, pid. repeat split; try done. right. by exists param. }
           exists s. split; [by repeat split|by left].
        -- destruct (button_callback_raises_early cfg float net now c data s) as [e ->].
           { right. exists sid, pid. repeat split; try done. by left. }
           exists s. split; [by repeat split|by left].
      * rewrite (button_callback_other cfg float net now c data action sid pid s) by done.
        exists s. split; [|by left].
        unfold query_answer, bot_call. destruct (answer_ok net); by repeat split.
    + rewrite (button_callback_unknown cfg float net now c data action sid s) by done.
      exists s. split; [|by left].
      unfold query_answer, bot_call. destruct (answer_ok net); by repeat split.
  - destruct (button_callback_raises_early cfg float net now c data s) as [e ->]; [by left|].
    exists s. split; [by repeat split|by left].
Qed.

(** [handle_new_proposal] with the short id it settles on. *)
Lemma handle_new_proposal_inv
    (K : dict (gmap string ReminderPref) -> State -> Prop) uuid4 clock pid title st en ty s :
  let sid := default (String.substring 0 8 uuid4) (dict_get (proposal_id_map s) pid) in
  (forall mem s c,
     K mem s -> pref_get mem c pid = None -> stored_pref s c pid = None ->
     K (set_reminder_pref mem c pid PNull)
       (schedule_reminders cfg (clock c) c pid sid title st en ty s).2) ->
  K (user_preferences s) (resolve_short_id uuid4 pid s).2 ->
  exists mem' s',
    handle_new_proposal cfg uuid4 clock pid title st en ty s =
      (Return tt, set_user_preferences mem' s') /\
    K mem' s' /\
    (forall c p, is_Some (stored_pref s c p) -> pref_get mem' c p = stored_pref s c p) /\
    dict_keys mem' = dict_keys (user_preferences s).
Proof.
  intros sid HK HK0. unfold handle_new_proposal.
  unfold bind at 1. unfold load_user_preferences, get_state.
  unfold bind at 1.
  destruct (resolve_short_id_assigns uuid4 pid s) as [Hr1 _]. fold sid in Hr1.
  destruct (resolve_short_id_spec uuid4 pid s) as (sid' & m & Hr).
  rewrite Hr in Hr1, HK0 |- *. simpl in Hr1, HK0. injection Hr1 as ->.
  destruct (for_each_subscriber_spec cfg clock pid sid title st en ty K HK
              (dict_keys (user_preferences s)) (user_preferences s)
              (set_proposal_id_map m s))
    as (mem' & s' & Hrun & HK' & Hu & Hm & Hkn & Hse & Hk & Hkept & Hall).
  - apply dict_get_keys.
  - done.
  - done.
  - exists mem', s'. unfold bind. rewrite Hrun. simpl. repeat split; done.
Qed.

Section Rule.

Context (I : State -> Prop).
Context (Hsent : forall s s', same_but_sent s s' -> I s -> I s').
Context (Hknown : forall s k, I s -> I (set_known_proposals k s)).
Context (Hstart : forall s c,
  dict_get (user_preferences s) c = None ->
  I s -> I (set_user_preferences (dict_set (user_preferences s) c ∅) s)).
Context (Hvoted : forall s c pid sid,
  dict_get (reverse_map (proposal_id_map s)) sid = Some pid ->
  I s -> I (voted_state c pid s)).
Context (Hsnooze : forall s c pid sid t,
  dict_get (reverse_map (proposal_id_map s)) sid = Some pid ->
  I s -> I (snoozed_state cfg c pid sid t s)).
Context (Hfire : forall s j job,
  job_queue s !! j = Some job -> job_live job = true ->
  I s -> I (set_job_queue (<[j := mark_executed job]> (job_queue s)) s)).
Context (Hhandle : forall uuid4 clock pid title st en ty s,
  I s -> I (handle_new_proposal cfg uuid4 clock pid title st en ty s).2).

Lemma step_rule e s : I s -> I (step cfg float s e).
Proof using All.
  intros Hs. unfold step.
  destruct e as [net c|net u1 u2 n1 n2 clock c|net now c d|u clock p
                |u clock i v b n1 n2|net j]; simpl.
  - unfold start, bind, load_user_preferences, get_state, send_message, bot_call.
    destruct (dict_get (user_preferences s) c) as [per_chat|] eqn:Hc; simpl.
    + destruct net; simpl; [|done]. revert Hs. apply Hsent. by repeat split.
    + pose proof (Hstart s c Hc Hs) as H1. destruct net; simpl; [|done].
      revert H1. apply Hsent. by repeat split.
  - unfold test_proposal, bind, send_message, bot_call.
    pose proof (Hhandle u2 clock ("test_proposal_id_" ++ u1)%string "Test Proposal"
                  (n1 + timedelta_seconds 5) (n2 + timedelta_seconds 120)
                  "snapshot" s Hs) as H.
    destruct (handle_new_proposal _ _ _ _ _ _ _ _ s) as [[[]|e] s']; simpl in *;
      [|done].
    destruct net; simpl; [|done]. revert H. apply Hsent. by repeat split.
  - destruct (button_callback_cases net now c d s)
      as (s1 & Hsame & [->|[(pid & sid & _ & _ & Hm & ->)
                           |(pid & sid & param & h & _ & _ & Hm & _ & _ & ->)]]);
      apply (Hsent _ _ Hsame); eauto.
  - unfold snapshot_proposal, bind, get_state, save_known_proposals, modify.
    destruct (decide (sp_id p ∈ known_proposals s)); [done|].
    by apply Hhandle, Hknown.
  - by apply Hhandle.
  - destruct (job_queue s !! j) as [job|] eqn:Hj.
    + destruct (job_live job) eqn:Hl.
      * rewrite (job_fires_live net j job s Hj Hl). simpl.
        destruct net; [|by apply Hfire].
        pose proof (Hfire s j job Hj Hl Hs) as H1. revert H1. apply Hsent.
        by repeat split.
      * rewrite job_fires_dead; [done|]. intros job'. rewrite Hj. by intros [= <-].
    + rewrite job_fires_dead; [done|]. intros job'. by rewrite Hj.
Qed.

Lemma run_rule es s : I s -> I (run cfg float s es).
Proof using All.
  revert s. induction es as [|e es IH]; intros s Hs; [done|].
  simpl. by apply IH, step_rule.
Qed.

End Rule.

(** The rule for an invariant that does not read the preferences. *)
Section PlainRule.

Context (I : State -> Prop).
Context (Hsent : forall s s', same_but_sent s s' -> I s -> I s').
Context (Hknown : forall s k, I s -> I (set_known_proposals k s)).
Context (Hprefs : forall s p, I s -> I (set_user_preferences p s)).
Context (Hmap : forall s pid sid,
  dict_get (proposal_id_map s) pid = None ->
  I s -> I (set_proposal_id_map (dict_set (proposal_id_map s) pid sid) s)).
Context (Hsched : forall s now c pid sid title st en ty,
  dict_get (proposal_id_map s) pid = Some sid ->
  I s -> I (first_scheduling cfg now c pid sid title st en ty s)).
Context (Hcancel : forall s c p js,
  tracked s c p = Some js ->
  I s -> I (set_SCHEDULED_JOBS (table_delete c p (SCHEDULED_JOBS s))
              (set_job_queue (cancel_queue js (job_queue s)) s))).
Context (Hsnooze : forall s c pid sid t,
  dict_get (reverse_map (proposal_id_map s)) sid = Some pid ->
  I s ->
  I (set_SCHEDULED_JOBS (table_append c pid (length (job_queue s)) (SCHEDULED_JOBS s))
       (set_job_queue (job_queue s ++ [snooze_job cfg c pid sid t]) s))).
Context (Hfire : forall s j job,
  job_queue s !! j = Some job -> job_live job = true ->
  I s -> I (set_job_queue (<[j := mark_executed job]> (job_queue s)) s)).

Lemma plain_handle uuid4 clock pid title st en ty s :
  I s -> I (handle_new_proposal cfg uuid4 clock pid title st en ty s).2.
Proof using All.
  intros Hs.
  set (sid := default (String.substring 0 8 uuid4) (dict_get (proposal_id_map s) pid)).
  destruct (handle_new_proposal_inv
              (fun _ s0 => I s0 /\ dict_get (proposal_id_map s0) pid = Some sid)
              uuid4 clock pid title st en ty s)
    as (mem' & s' & Hrun & [HI _] & _).
  - intros mem s0 c [HI Hm] _ Hnone. fold sid.
    rewrite (schedule_reminders_first cfg (clock c) c pid sid title st en ty s0 Hnone).
    simpl. split; [|done]. by apply (Hsched s0 (clock c) c pid sid title st en ty).
  - destruct (resolve_short_id_assigns uuid4 pid s) as [_ Hm]. fold sid in Hm.
    split; [|exact Hm].
    unfold resolve_short_id, bind, load_proposal_id_map, get_state.
    destruct (dict_get (proposal_id_map s) pid) eqn:Hp; simpl; [done|].
    by apply Hmap.
  - rewrite Hrun. simpl. by apply Hprefs.
Qed.

Lemma plain_step e s : I s -> I (step cfg float s e).
Proof using All.
  apply step_rule; try done.
  - intros. by apply Hprefs.
  - intros s0 c pid sid Hm Hs. unfold voted_state.
    rewrite cancel_scheduled_reminders_spec. simpl.
    destruct (tracked _ c pid) as [js|] eqn:Ht; simpl.
    + apply (Hcancel (set_user_preferences _ s0) c pid js Ht). by apply Hprefs.
    + by apply Hprefs.
  - intros s0 c pid sid t Hm Hs.
    apply (Hsnooze (set_user_preferences _ s0) c pid sid t Hm). by apply Hprefs.
  - intros. by apply plain_handle.
Qed.

Lemma plain_run es s : I s -> I (run cfg float s es).
Proof using All.
  revert s. induction es as [|e es IH]; intros s Hs; [done|].
  simpl. by apply IH, plain_step.
Qed.

End PlainRule.

(** ** What the queue, the table and the preferences never lose *)

Lemma registered_jobs_for now c p sid t l st en fs be job :
  job ∈ registered_jobs cfg now c p sid t l st en fs be ->
  jd_chat_id (data job) = c /\ jd_proposal_id (data job) = p /\
  jd_buttons (data job) = create_inline_buttons cfg sid /\ job_live job = true.
Proof.
  intros [Hin|Hin]%elem_of_app; apply list_elem_of_fmap in Hin as (h & -> & _); done.
Qed.

Lemma job_ages_refl job : job_ages job job.
Proof. by repeat split. Qed.

Lemma job_ages_trans j1 j2 j3 : job_ages j1 j2 -> job_ages j2 j3 -> job_ages j1 j3.
Proof.
  intros (Hw & Hd & Hr & He) (Hw' & Hd' & Hr' & He'). repeat split; try congruence; auto.
Qed.

Lemma job_ages_cancelled job : job_ages job (cancelled job).
Proof.
  unfold cancelled. destruct (removed job || executed job); [apply job_ages_refl|].
  by repeat split.
Qed.

Lemma job_ages_executed job : job_ages job (mark_executed job).
Proof. by repeat split. Qed.

Lemma queue_ages_app q0 q new : queue_ages q0 q -> queue_ages q0 (q ++ new).
Proof.
  intros H j job Hj. destruct (H j job Hj) as (job' & Hj' & Ha).
  exists job'. split; [by apply lookup_app_l_Some|done].
Qed.

Lemma queue_ages_cancel q0 q js : queue_ages q0 q -> queue_ages q0 (cancel_queue js q).
Proof.
  intros H j job Hj. destruct (H j job Hj) as (job' & Hj' & Ha).
  rewrite cancel_queue_lookup, Hj'. destruct (decide (j ∈ js)); simpl.
  - exists (cancelled job'). split; [done|].
    eapply job_ages_trans; [exact Ha|apply job_ages_cancelled].
  - by exists job'.
Qed.

Lemma queue_ages_fire q0 q j job :
  q !! j = Some job -> queue_ages q0 q -> queue_ages q0 (<[j := mark_executed job]> q).
Proof.
  intros Hq H i job0 Hi. destruct (H i job0 Hi) as (job' & Hi' & Ha).
  destruct (decide (i = j)) as [->|Hne].
  - rewrite list_lookup_insert_eq by (by eapply lookup_lt_Some).
    exists (mark_executed job). split; [done|].
    assert (job' = job) as -> by congruence.
    eapply job_ages_trans; [exact Ha|apply job_ages_executed].
  - rewrite list_lookup_insert_ne by done. by exists job'.
Qed.

Lemma queue_ages_run es s : queue_ages (job_queue s) (job_queue (run cfg float s es)).
Proof.
  apply (plain_run (fun s' => queue_ages (job_queue s) (job_queue s'))).
  - intros s1 s2 (_ & _ & _ & _ & Hq). by rewrite Hq.
  - done.
  - done.
  - done.
  - intros. by apply queue_ages_app.
  - intros. by apply queue_ages_cancel.
  - intros. by apply queue_ages_app.
  - intros. by apply queue_ages_fire.
  - intros j job Hj. exists job. split; [done|apply job_ages_refl].
Qed.

(** X8. A job, once in the queue, stays there under its handle for as long
    as the process runs, with the fire time and the content it was created
    with; a job that was removed or has run never becomes pending again. *)
Theorem jobs_never_change es s :
  queue_ages (job_queue s) (job_queue (run cfg float s es)) /\
  (length (job_queue s) <= length (job_queue (run cfg float s es)))%nat.
Proof.
  pose proof (queue_ages_run es s) as H.
  split; [exact H|].
  destruct (decide (length (job_queue s) = 0%nat)) as [->|Hne]; [lia|].
  destruct (lookup_lt_is_Some_2 (job_queue s) (pred (length (job_queue s)))) as [job Hj];
    [lia|].
  destruct (H _ _ Hj) as (job' & Hj' & _). apply lookup_lt_Some in Hj'. lia.
Qed.

Lemma handles_own_step e s : handles_own s -> handles_own (step cfg float s e).
Proof.
  apply (plain_step handles_own).
  - intros s1 s2 (_ & _ & _ & Ht & Hq) H. unfold handles_own, tracked. by rewrite Ht, Hq.
  - done.
  - done.
  - done.
  - intros s0 now c pid sid title st en ty _ H c' p' l j. unfold tracked, first_scheduling.
    simpl. intros Hl Hin.
    destruct (decide ((c', p') = (c, pid))) as [[= -> ->]|Hne].
    + rewrite (track_all_lookup_eq c pid _ []) in Hl by apply table_reset_lookup_eq.
      injection Hl as <-. simpl in Hin. apply elem_of_seq in Hin.
      destruct (lookup_lt_is_Some_2
                  (registered_jobs cfg now c pid sid title (proposal_link cfg ty pid) st en
                     (reminders_from_start cfg) (reminders_before_end cfg))
                  (j - length (job_queue s0))) as [job Hj]; [lia|].
      exists job. split.
      * rewrite lookup_app_r by lia. exact Hj.
      * apply list_elem_of_lookup_2, registered_jobs_for in Hj. tauto.
    + rewrite track_all_lookup_ne, table_reset_lookup_ne in Hl by done.
      destruct (H c' p' l j Hl Hin) as (job & Hj & Hc & Hp).
      exists job. split; [by apply lookup_app_l_Some|done].
  - intros s0 c p js Hjs H c' p' l j. unfold tracked. simpl. intros Hl Hin.
    destruct (decide ((c', p') = (c, p))) as [[= -> ->]|Hne].
    + by rewrite table_delete_lookup_eq in Hl.
    + rewrite table_delete_lookup_ne in Hl by done.
      destruct (H c' p' l j Hl Hin) as (job & Hj & Hc & Hp).
      rewrite cancel_queue_lookup, Hj. destruct (decide (j ∈ js)); simpl.
      * exists (cancelled job). by rewrite cancelled_data.
      * by exists job.
  - intros s0 c pid sid t _ H c' p' l j. unfold tracked. simpl. intros Hl Hin.
    destruct (decide ((c', p') = (c, pid))) as [[= -> ->]|Hne].
    + rewrite table_append_lookup_eq in Hl. injection Hl as <-.
      apply elem_of_app in Hin as [Hin|Hin%list_elem_of_singleton].
      * destruct (table_get (SCHEDULED_JOBS s0) c pid) as [l0|] eqn:Hl0;
          [|by apply elem_of_nil in Hin].
        destruct (H c pid l0 j Hl0 Hin) as (job & Hj & Hc & Hp).
        exists job. split; [by apply lookup_app_l_Some|done].
      * subst j. exists (snooze_job cfg c pid sid t). split; [|done].
        rewrite lookup_app_r by lia. by rewrite Nat.sub_diag.
    + rewrite table_append_lookup_ne in Hl by done.
      destruct (H c' p' l j Hl Hin) as (job & Hj & Hc & Hp).
      exists job. split; [by apply lookup_app_l_Some|done].
  - intros s0 j job Hj _ H c' p' l i. unfold tracked. simpl. intros Hl Hin.
    destruct (H c' p' l i Hl Hin) as (job0 & Hi & Hc & Hp).
    destruct (decide (i = j)) as [->|Hne].
    + rewrite list_lookup_insert_eq by (by eapply lookup_lt_Some).
      exists (mark_executed job). split; [done|].
      assert (job0 = job) as -> by congruence. done.
    + rewrite list_lookup_insert_ne by done. by exists job0.
Qed.

Lemma reachable_handles_own s : reachable cfg float s -> handles_own s.
Proof.
  induction 1 as [s [Hq Ht]|s e _ IH].
  - intros c p l j. unfold tracked, table_get. rewrite Ht. by rewrite lookup_empty.
  - by apply handles_own_step.
Qed.

(** X9. In every state the loop can reach, the job table is clean: each
    handle it tracks points to a job of the queue, and that job was created
    for the very chat and proposal the handle is tracked under. *)
Theorem job_table_is_clean s c p l j :
  reachable cfg float s -> tracked s c p = Some l -> j ∈ l ->
  exists job, job_queue s !! j = Some job /\
              jd_chat_id (data job) = c /\ jd_proposal_id (data job) = p.
Proof. intros Hr. by apply reachable_handles_own. Qed.

Lemma dict_keys_set_mono {V} (d : dict V) k k' v :
  k' ∈ dict_keys d -> k' ∈ dict_keys (dict_set d k v).
Proof.
  unfold dict_keys. induction d as [|[k0 v0] d IH]; simpl.
  - by intros ?%elem_of_nil.
  - destruct (decide (k0 = k)) as [->|Hne]; simpl; [done|].
    intros [->|Hin]%elem_of_cons; apply elem_of_cons; [by left|right; by apply IH].
Qed.

Lemma dict_set_mono {V} (d : dict V) k v k' v' :
  dict_get d k = None -> (k', v') ∈ d -> (k', v') ∈ dict_set d k v.
Proof.
  intros Hn Hin. rewrite dict_set_absent by done. apply elem_of_app. by left.
Qed.

Lemma reverse_map_known (m : list (string * string)) pid sid :
  (pid, sid) ∈ m -> is_Some (dict_get (reverse_map m) sid).
Proof.
  intros Hin. destruct (dict_get (reverse_map m) sid) eqn:Hr; [eauto|].
  destruct (reverse_map_unknown m sid) as [Hu _]. by destruct (Hu Hr pid).
Qed.

Lemma buttons_resolve_app s q new :
  (forall job, job ∈ new ->
     exists sid, (jd_proposal_id (data job), sid) ∈ proposal_id_map s /\
                 jd_buttons (data job) = create_inline_buttons cfg sid) ->
  job_queue s = q ++ new ->
  buttons_resolve cfg (set_job_queue q s) -> buttons_resolve cfg s.
Proof.
  intros Hnew Hq H job. rewrite Hq. intros [Hin|Hin]%elem_of_app.
  - by apply (H job).
  - by apply Hnew.
Qed.

Lemma buttons_resolve_step e s :
  buttons_resolve cfg s -> buttons_resolve cfg (step cfg float s e).
Proof.
  apply (plain_step (buttons_resolve cfg)).
  - intros s1 s2 (_ & Hm & _ & _ & Hq). unfold buttons_resolve. by rewrite Hm, Hq.
  - done.
  - done.
  - intros s0 pid sid Hn H job Hin. destruct (H job Hin) as (sid' & Hs & Hb).
    exists sid'. split; [|done]. simpl. by apply dict_set_mono.
  - intros s0 now c pid sid title st en ty Hm H job. unfold first_scheduling. simpl.
    intros [Hin|Hin]%elem_of_app; [by apply (H job)|].
    apply registered_jobs_for in Hin as (_ & -> & -> & _).
    exists sid. split; [by apply dict_get_elem_of|done].
  - intros s0 c p js _ H job. simpl. intros (j & Hj)%list_elem_of_lookup_1.
    rewrite cancel_queue_lookup in Hj.
    destruct (job_queue s0 !! j) as [job0|] eqn:Hj0;
      [|by destruct (decide (j ∈ js))].
    assert (data job = data job0) as ->.
    { destruct (decide (j ∈ js)); simpl in Hj; injection Hj as <-;
        [apply cancelled_data|done]. }
    apply H. by eapply list_elem_of_lookup_2.
  - intros s0 c pid sid t Hm H job. simpl.
    intros [Hin|Hin%list_elem_of_singleton]%elem_of_app; [by apply (H job)|].
    subst job. exists sid. split; [|done]. simpl. by apply reverse_map_sound.
  - intros s0 j job Hj _ H job'. simpl. intros (i & Hi)%list_elem_of_lookup_1.
    destruct (decide (i = j)) as [->|Hne].
    + rewrite list_lookup_insert_eq in Hi by (by eapply lookup_lt_Some).
      injection Hi as <-. simpl. apply H. by eapply list_elem_of_lookup_2.
    + rewrite list_lookup_insert_ne in Hi by done.
      apply H. by eapply list_elem_of_lookup_2.
Qed.

(** X10. The buttons under every reminder the bot has ever queued carry a
    short id that the identifier map holds for the proposal of the reminder;
    a press of such a button is therefore never answered with
    [Unknown proposal]. *)
Theorem queued_buttons_resolve s job :
  reachable cfg float s -> job ∈ job_queue s ->
  exists sid,
    jd_buttons (data job) = create_inline_buttons cfg sid /\
    (jd_proposal_id (data job), sid) ∈ proposal_id_map s /\
    is_Some (dict_get (reverse_map (proposal_id_map s)) sid).
Proof.
  intros Hr. revert job. induction Hr as [s [Hq _]|s e _ IH].
  - intros job. rewrite Hq. by intros ?%elem_of_nil.
  - intros job Hin.
    destruct (buttons_resolve_step e s) with (job := job) as (sid & Hm & Hb); [|done|].
    + intros job' Hin'. destruct (IH job' Hin') as (sid & Hb & Hm & _). by exists sid.
    + exists sid. split; [done|]. split; [done|]. by eapply reverse_map_known.
Qed.

Lemma prefs_grow_refl s : prefs_grow s s.
Proof. by split. Qed.

Lemma prefs_grow_trans s1 s2 s3 : prefs_grow s1 s2 -> prefs_grow s2 s3 -> prefs_grow s1 s3.
Proof. intros [H1 H2] [H3 H4]. split; eauto. Qed.

Lemma prefs_grow_set prefs c p v s :
  user_preferences s = set_reminder_pref prefs c p v ->
  forall s0, user_preferences s0 = prefs -> prefs_grow s0 s.
Proof.
  intros Hs s0 Hs0. split.
  - intros c'. rewrite Hs, Hs0. apply dict_keys_set_mono.
  - intros c' p'. unfold stored_pref. rewrite Hs, Hs0.
    destruct (decide ((c', p') = (c, p))) as [[= -> ->]|Hne].
    + rewrite pref_get_set_eq. eauto.
    + by rewrite pref_get_set_ne.
Qed.

(** X11. Nothing an event does makes the bot forget: a chat that is
    registered stays registered, and a pair of chat and proposal that has a
    stored value keeps having one, whatever events follow. *)
Theorem preferences_only_grow es s : prefs_grow s (run cfg float s es).
Proof.
  apply (run_rule (prefs_grow s)).
  - intros s1 s2 (Hp & _) [H1 H2]. unfold prefs_grow, stored_pref. rewrite Hp. by split.
  - done.
  - intros s0 c Hc H. eapply prefs_grow_trans; [exact H|]. split.
    + intros c'. simpl. apply dict_keys_set_mono.
    + intros c' p'. unfold stored_pref, pref_get. simpl.
      destruct (decide (c = c')) as [->|Hne].
      * rewrite Hc. simpl. by intros [? ?].
      * by rewrite dict_get_set_ne.
  - intros s0 c pid sid _ H. eapply prefs_grow_trans; [exact H|].
    eapply prefs_grow_set; [|done]. unfold voted_state.
    rewrite cancel_scheduled_reminders_spec. simpl. by destruct (tracked _ c pid).
  - intros s0 c pid sid t _ H. eapply prefs_grow_trans; [exact H|].
    eapply prefs_grow_set; [|done]. done.
  - intros s0 j job _ _ H. exact H.
  - intros uuid4 clock pid title st en ty s0 H. eapply prefs_grow_trans; [exact H|].
    destruct (handle_new_proposal_spec cfg (fun _ _ => True) uuid4 clock pid title st en ty s0)
      as (mem' & s' & Hrun & _ & _ & _ & _ & Hk & Hkept & _); [done|done|].
    rewrite Hrun. split.
    + intros c. simpl. by rewrite Hk.
    + intros c p Hs. unfold stored_pref at 1. simpl. by rewrite Hkept.
  - apply prefs_grow_refl.
Qed.

(** ** One pair at a time *)

Lemma filter_pointwise {A} (f : A -> bool) (q q' : list A) :
  length q = length q' ->
  (forall i a a', q !! i = Some a -> q' !! i = Some a' ->
     a = a' \/ (f a = false /\ f a' = false)) ->
  List.filter f q = List.filter f q'.
Proof.
  revert q'. induction q as [|a q IH]; intros [|a' q'] Hlen H; try done.
  simpl. rewrite (IH q').
  - destruct (H 0%nat a a' eq_refl eq_refl) as [->|[-> ->]]; done.
  - simpl in Hlen. lia.
  - intros i b b' Hb Hb'. by apply (H (S i)).
Qed.

Lemma job_for_data c p job job' : data job' = data job -> job_for c p job' = job_for c p job.
Proof. unfold job_for. by intros ->. Qed.

Lemma cancel_other_pair c p c' p' s :
  handles_own s -> (c', p') ≠ (c, p) ->
  let s' := (cancel_scheduled_reminders c p s).2 in
  live_jobs s' c' p' = live_jobs s c' p' /\ tracked s' c' p' = tracked s c' p'.
Proof.
  intros Hown Hne. rewrite cancel_scheduled_reminders_spec. simpl.
  destruct (tracked s c p) as [js|] eqn:Ht; [|done]. split.
  - unfold live_jobs. simpl. symmetry. apply filter_pointwise.
    + by rewrite cancel_queue_length.
    + intros i a a' Ha. rewrite cancel_queue_lookup, Ha.
      destruct (decide (i ∈ js)) as [Hin|Hnin]; simpl; intros [= <-]; [|by left].
      right. destruct (Hown c p js i Ht Hin) as (job & Hj & Hc & Hp).
      assert (job = a) as -> by congruence.
      assert (job_for c' p' a = false) as Hf.
      { unfold job_for. apply bool_decide_eq_false. rewrite Hc, Hp.
        intros [-> ->]. by apply Hne. }
      rewrite (job_for_data c' p' a (cancelled a)) by apply cancelled_data.
      rewrite Hf. by rewrite !andb_false_r.
  - unfold tracked. simpl. by apply table_delete_lookup_ne.
Qed.

(** X12. In a state the loop can reach, cancelling the reminders of one chat
    for one proposal leaves every other pair alone: the same pending jobs,
    the same tracked handles, the same stored values. *)
Theorem cancel_leaves_other_pairs c p c' p' s :
  reachable cfg float s -> (c', p') ≠ (c, p) ->
  let s' := (cancel_scheduled_reminders c p s).2 in
  live_jobs s' c' p' = live_jobs s c' p' /\
  tracked s' c' p' = tracked s c' p' /\
  user_preferences s' = user_preferences s.
Proof.
  intros Hr Hne. simpl.
  destruct (cancel_other_pair c p c' p' s) as [H1 H2];
    [by apply reachable_handles_own|done|].
  split; [exact H1|]. split; [exact H2|].
  rewrite cancel_scheduled_reminders_spec. simpl. by destruct (tracked s c p).
Qed.

Lemma live_jobs_same s s' c p :
  same_but_sent s s' -> live_jobs s' c p = live_jobs s c p.
Proof. intros (_ & _ & _ & _ & Hq). unfold live_jobs. by rewrite Hq. Qed.

(** X13. A button press by one chat about one proposal touches nothing of
    any other pair: in a state the loop can reach, every other chat, and
    every other proposal of the same chat, keeps its stored value, its
    tracked handles and its pending jobs. *)
Theorem button_press_leaves_other_pairs net now c data c' p' s :
  reachable cfg float s ->
  (c' ≠ c \/ forall sid, data !! 1%nat = Some sid ->
                dict_get (reverse_map (proposal_id_map s)) sid ≠ Some p') ->
  let s' := (button_callback cfg float net now c data s).2 in
  stored_pref s' c' p' = stored_pref s c' p' /\
  tracked s' c' p' = tracked s c' p' /\
  live_jobs s' c' p' = live_jobs s c' p'.
Proof.
  intros Hr Hother. simpl.
  destruct (button_callback_cases net now c data s)
    as (s1 & Hsame & Hcases).
  pose proof Hsame as (Hp & _ & _ & Ht & _).
  unfold stored_pref, tracked. rewrite Hp, Ht, (live_jobs_same _ _ _ _ Hsame).
  fold (stored_pref s1 c' p') (tracked s1 c' p'). clear Hsame Hp Ht.
  destruct Hcases as [->|[(pid & sid & _ & H1 & Hm & ->)
                         |(pid & sid & param & h & _ & H1 & Hm & _ & _ & ->)]]; [done| |].
  - assert (Hne : (c', p') ≠ (c, pid)).
    { intros [= -> ->]. destruct Hother as [Hc|Hs]; [done|]. by apply (Hs sid). }
    unfold voted_state.
    destruct (cancel_other_pair c pid c' p'
                (set_user_preferences
                   (set_reminder_pref (user_preferences s) c pid PVoted) s))
      as [Hl Htr]; [|done|].
    { apply reachable_handles_own in Hr. exact Hr. }
    simpl in Hl, Htr. rewrite Hl, Htr. split; [|done].
    unfold stored_pref. rewrite cancel_scheduled_reminders_spec. simpl.
    assert (user_preferences
              match tracked (set_user_preferences
                   (set_reminder_pref (user_preferences s) c pid PVoted) s) c pid with
              | Some js => _ | None => _ end
            = set_reminder_pref (user_preferences s) c pid PVoted) as ->
      by (by destruct (tracked _ c pid)).
    by apply pref_get_set_ne.
  - assert (Hne : (c', p') ≠ (c, pid)).
    { intros [= -> ->]. destruct Hother as [Hc|Hs]; [done|]. by apply (Hs sid). }
    unfold stored_pref, tracked, live_jobs, snoozed_state. simpl.
    split; [by apply pref_get_set_ne|]. split; [by apply table_append_lookup_ne|].
    rewrite List.filter_app. simpl.
    assert (job_for c' p' (snooze_job cfg c pid sid (now + timedelta_hours h)) = false)
      as ->.
    { unfold job_for. apply bool_decide_eq_false. simpl. intros [-> ->]. by apply Hne. }
    simpl. by rewrite app_nil_r.
Qed.

(** ** The dispatcher *)

Lemma dict_get_in_keys {V} (d : dict V) k : is_Some (dict_get d k) -> k ∈ dict_keys d.
Proof.
  intros [v Hv]. apply dict_get_elem_of in Hv. unfold dict_keys.
  apply list_elem_of_fmap. by exists (k, v).
Qed.

(** X14. Where the default offsets can be applied to the window of the
    proposal within the range of [datetime], [handle_new_proposal] returns,
    sends nothing and registers no chat.  It stores a value for the proposal
    under every chat that is registered: the null value where the chat had
    none, and the value the chat had otherwise, be it null, [voted] or a
    snooze; every other stored value is kept as it was. *)
Theorem handle_new_proposal_marks_subscribers uuid4 clock pid title st en ty s :
  schedulable (reminders_from_start cfg) (reminders_before_end cfg) st en = true ->
  exists s',
    handle_new_proposal cfg uuid4 clock pid title st en ty s = (Return tt, s') /\
    sent s' = sent s /\
    known_proposals s' = known_proposals s /\
    dict_keys (user_preferences s') = dict_keys (user_preferences s) /\
    forall c p,
      stored_pref s' c p =
      match stored_pref s c p with
      | Some v => Some v
      | None => if decide (p = pid /\ c ∈ dict_keys (user_preferences s))
                then Some PNull else None
      end.
Proof.
  intros _.
  destruct (handle_new_proposal_spec cfg
              (fun mem _ => forall c p,
                 pref_get mem c p = stored_pref s c p \/
                 (p = pid /\ stored_pref s c p = None /\ pref_get mem c p = Some PNull))
              uuid4 clock pid title st en ty s)
    as (mem' & s' & Hrun & HK & _ & Hkn & Hse & Hk & Hkept & Hall).
  - intros sid mem s0 c0 HK Hmem _ c p.
    destruct (decide ((c, p) = (c0, pid))) as [[= -> ->]|Hne].
    + right. split; [done|]. split; [|apply pref_get_set_eq].
      destruct (HK c0 pid) as [<-|(_ & _ & H)]; [done|congruence].
    + rewrite pref_get_set_ne by done. apply HK.
  - intros c p. by left.
  - exists (set_user_preferences mem' s'). split; [done|]. split; [done|].
    split; [done|]. split; [done|]. intros c p. unfold stored_pref at 1. simpl.
    destruct (stored_pref s c p) as [v|] eqn:Hs.
    + rewrite Hkept; [done|]. rewrite Hs. eauto.
    + destruct (decide (p = pid /\ c ∈ dict_keys (user_preferences s))) as [[-> Hin]|Hno].
      * destruct (Hall c Hin) as [v Hv].
        destruct (HK c pid) as [H|(_ & _ & H)]; [congruence|done].
      * destruct (HK c p) as [H|(-> & _ & H)]; [congruence|].
        exfalso. apply Hno. split; [done|]. rewrite <- Hk. apply dict_get_in_keys.
        unfold pref_get in H. destruct (dict_get mem' c); [eauto|done].
Qed.

Lemma handle_new_proposal_new_jobs uuid4 clock pid title st en ty s :
  let s' := (handle_new_proposal cfg uuid4 clock pid title st en ty s).2 in
  exists new,
    job_queue s' = job_queue s ++ new /\
    forall job, job ∈ new ->
      job_live job = true /\
      jd_proposal_id (data job) = pid /\
      jd_chat_id (data job) ∈ dict_keys (user_preferences s) /\
      stored_pref s (jd_chat_id (data job)) pid = None.
Proof.
  simpl.
  destruct (handle_new_proposal_spec cfg
              (fun mem s0 =>
                 user_preferences s0 = user_preferences s /\
                 exists new,
                   job_queue s0 = job_queue s ++ new /\
                   forall job, job ∈ new ->
                     job_live job = true /\
                     jd_proposal_id (data job) = pid /\
                     is_Some (dict_get mem (jd_chat_id (data job))) /\
                     stored_pref s (jd_chat_id (data job)) pid = None)
              uuid4 clock pid title st en ty s)
    as (mem' & s' & Hrun & (_ & new & Hq & Hnew) & _ & _ & _ & Hk & _ & _).
  - intros sid mem s0 c0 (Hu & new & Hq & Hnew) _ Hnone.
    rewrite (schedule_reminders_first cfg (clock c0) c0 pid sid title st en ty s0 Hnone).
    simpl. split; [done|]. eexists. split; [rewrite Hq, <- app_assoc; reflexivity|].
    intros job [Hin|Hin]%elem_of_app.
    + destruct (Hnew job Hin) as (Hl & Hp & Hc & Hs). repeat split; try done.
      unfold set_reminder_pref. by apply dict_get_set_is_Some.
    + apply registered_jobs_for in Hin as (Hc & Hp & _ & Hl). repeat split; try done.
      * rewrite Hc. unfold set_reminder_pref. rewrite dict_get_set_eq. eauto.
      * rewrite Hc. unfold stored_pref in *. by rewrite <- Hu.
  - destruct (resolve_short_id_spec uuid4 pid s) as (sid & m & ->). simpl.
    split; [done|]. exists []. split; [by rewrite app_nil_r|].
    by intros job ?%elem_of_nil.
  - rewrite Hrun. simpl. exists new. split; [done|]. intros job Hin.
    destruct (Hnew job Hin) as (Hl & Hp & Hc & Hs). repeat split; try done.
    rewrite <- Hk. by apply dict_get_in_keys.
Qed.

(** X15. The jobs [handle_new_proposal] adds are all pending jobs of the
    proposal it handles, each for a registered chat that had no stored value
    for the proposal: a chat that has voted, snoozed or was already notified
    gets none, and the jobs that were queued are left as they were. *)
Theorem handle_new_proposal_schedules_open_chats_only uuid4 clock pid title st en ty s :
  let s' := (handle_new_proposal cfg uuid4 clock pid title st en ty s).2 in
  exists new,
    job_queue s' = job_queue s ++ new /\
    forall job, job ∈ new ->
      job_live job = true /\
      jd_proposal_id (data job) = pid /\
      jd_chat_id (data job) ∈ dict_keys (user_preferences s) /\
      stored_pref s (jd_chat_id (data job)) pid = None.
Proof. apply handle_new_proposal_new_jobs. Qed.

Lemma Forall2_seq_app {A} (q new : list A) :
  Forall2 (fun j a => (q ++ new) !! j = Some a) (seq (length q) (length new)) new.
Proof.
  revert q. induction new as [|a new IH]; intros q; [constructor|].
  simpl. constructor.
  - rewrite lookup_app_r by lia. by rewrite Nat.sub_diag.
  - specialize (IH (q ++ [a])). rewrite length_app, <- app_assoc in IH. simpl in IH.
    by rewrite Nat.add_1_r in IH.
Qed.

(** X16. Where the default offsets can be applied to the window of the
    proposal within the range of [datetime], a chat that is registered and
    has no stored value for the proposal gets, when the proposal is
    handled, the whole of a first scheduling
    made at the time its turn comes: the handles tracked for the chat and
    the proposal afterwards are those of the jobs of the default offsets,
    from-start first and before-end second, that are not in the past at
    that time, with the short id the proposal is stored under.  The chats
    handled later do not disturb it. *)
Theorem handle_new_proposal_schedules_each_open_chat uuid4 clock pid title st en ty s c :
  schedulable (reminders_from_start cfg) (reminders_before_end cfg) st en = true ->
  c ∈ dict_keys (user_preferences s) -> stored_pref s c pid = None ->
  let s' := (handle_new_proposal cfg uuid4 clock pid title st en ty s).2 in
  let sid := default (String.substring 0 8 uuid4) (dict_get (proposal_id_map s) pid) in
  exists l,
    tracked s' c pid = Some l /\
    Forall2 (fun j job => job_queue s' !! j = Some job) l
      (registered_jobs cfg (clock c) c pid sid title (proposal_link cfg ty pid) st en
         (reminders_from_start cfg) (reminders_before_end cfg)).
Proof.
  intros _ Hin Hnone. simpl.
  set (sid := default (String.substring 0 8 uuid4) (dict_get (proposal_id_map s) pid)).
  destruct (handle_new_proposal_inv
              (fun mem s0 =>
                 forall c, stored_pref s c pid = None -> is_Some (pref_get mem c pid) ->
                   exists l,
                     tracked s0 c pid = Some l /\
                     Forall2 (fun j job => job_queue s0 !! j = Some job) l
                       (registered_jobs cfg (clock c) c pid sid title
                          (proposal_link cfg ty pid) st en
                          (reminders_from_start cfg) (reminders_before_end cfg)))
              uuid4 clock pid title st en ty s)
    as (mem' & s' & Hrun & HK & Hkept & Hk).
  - intros mem s0 c0 HK Hmem Hs0 c1 Hc1. fold sid.
    rewrite (schedule_reminders_first cfg (clock c0) c0 pid sid title st en ty s0 Hs0).
    simpl. destruct (decide (c1 = c0)) as [->|Hne].
    + intros _. eexists. split.
      * unfold tracked. simpl. apply (track_all_lookup_eq c0 pid _ []).
        apply table_reset_lookup_eq.
      * simpl. apply Forall2_seq_app.
    + rewrite pref_get_set_ne by congruence. intros Hsome.
      destruct (HK c1 Hc1 Hsome) as (l & Ht & Hf). exists l. split.
      * unfold tracked. simpl.
        rewrite track_all_lookup_ne, table_reset_lookup_ne by congruence. exact Ht.
      * simpl. eapply Forall2_impl; [exact Hf|]. simpl. intros j job Hj.
        by apply lookup_app_l_Some.
  - intros c1 Hc1 Hsome. unfold stored_pref in Hc1. rewrite Hc1 in Hsome.
    by destruct Hsome.
  - rewrite Hrun. simpl.
    destruct (handle_new_proposal_spec cfg (fun _ _ => True) uuid4 clock pid title st en ty s)
      as (mem2 & s2 & Hrun2 & _ & _ & _ & _ & _ & _ & Hall); [done|done|].
    rewrite Hrun in Hrun2.
    assert (mem' = mem2) as ->.
    { apply (f_equal (fun r => user_preferences r.2)) in Hrun2. exact Hrun2. }
    apply (HK c Hnone). by apply Hall.
Qed.

(** ** The scheduler *)

(** X17. A stored value that is not a mapping makes [schedule_reminders]
    raise before it writes: where the value stored for the pair is null,
    [voted] or a snooze, the call raises [AttributeError] when it looks up
    the offsets, and leaves the state as it was, the handles tracked for the
    pair included. *)
Theorem schedule_reminders_raises_before_it_writes now c p sid t st en ty s :
  ~ absent_or_mapping (stored_pref s c p) ->
  schedule_reminders cfg now c p sid t st en ty s = (Raise AttributeError, s).
Proof.
  intros Hno. pose proof (get_reminder_intervals_spec cfg c p s) as Hg.
  unfold schedule_reminders, bind.
  destruct (stored_pref s c p) as [[| |w|fs be]|] eqn:Hs; simpl in Hno;
    try (by rewrite Hg); by destruct Hno.
Qed.

Lemma filter_later (now now' : Z) (l : list Z) :
  now <= now' ->
  filter (fun w => now' <= w) (filter (fun w => now <= w) l) = filter (fun w => now' <= w) l.
Proof.
  intros Hle. induction l as [|w l IH]; [done|].
  destruct (decide (now <= w)) as [H1|H1].
  - rewrite (filter_cons_True (fun w => now <= w)) by done.
    destruct (decide (now' <= w)).
    + rewrite !filter_cons_True by done. by rewrite IH.
    + rewrite !filter_cons_False by done. exact IH.
  - rewrite (filter_cons_False (fun w => now <= w)) by done.
    rewrite (filter_cons_False (fun w => now' <= w)) by lia. exact IH.
Qed.

Lemma schedule_reminders_times now c p sid t st en ty s :
  absent_or_mapping (stored_pref s c p) ->
  let fs := default (reminders_from_start cfg) (configured_from_start (stored_pref s c p)) in
  let be := default (reminders_before_end cfg) (configured_before_end (stored_pref s c p)) in
  fire_times_from (length (job_queue s)) (schedule_reminders cfg now c p sid t st en ty s).2 =
    filter (fun w => now <= w) ((fun h => st + timedelta_hours h) <$> fs) ++
    filter (fun w => now <= w) ((fun h => en - timedelta_hours h) <$> be).
Proof.
  intros Hok fs be.
  pose proof (get_reminder_intervals_returns cfg c p s Hok) as Hg. fold fs be in Hg.
  rewrite (schedule_reminders_spec cfg now c p sid t st en ty fs be s Hg).
  unfold fire_times_from. simpl. rewrite drop_app_length.
  unfold registered_jobs.
  change (map when ?l) with (when <$> l).
  by rewrite fmap_app, when_from_start_jobs, when_before_end_jobs.
Qed.

(** X18. The later a scheduling is made, the fewer reminders it registers,
    and it never invents one: scheduling at [now'] instead of an earlier
    [now] registers exactly those fire times of the earlier scheduling that
    are not before [now'], in the same order. *)
Theorem later_scheduling_registers_what_is_left now now' c p sid t st en ty s :
  absent_or_mapping (stored_pref s c p) -> now <= now' ->
  fire_times_from (length (job_queue s))
    (schedule_reminders cfg now' c p sid t st en ty s).2 =
  filter (fun w => now' <= w)
    (fire_times_from (length (job_queue s))
       (schedule_reminders cfg now c p sid t st en ty s).2).
Proof.
  intros Hok Hle. rewrite !schedule_reminders_times by done.
  by rewrite filter_app, !filter_later.
Qed.

(** ** Buttons, from the keyboard to the handler *)

Section Press.

(** The text an f-string puts for a float. *)
Context (repr : Q -> string).

Lemma split_on_voted sid :
  "|"%char ∉ chars sid -> split_on "|" (callback_data repr (VotedButton sid)) = ["voted"; sid].
Proof.
  intros Hs. unfold callback_data.
  change ("voted|" ++ sid)%string with ("voted" ++ String "|" sid)%string.
  rewrite split_on_app. by rewrite (split_on_no_sep _ sid).
Qed.

Lemma split_on_remind_in sid h :
  "|"%char ∉ chars sid -> "|"%char ∉ chars (repr h) ->
  split_on "|" (callback_data repr (RemindInButton sid h)) = ["remind_in"; sid; repr h].
Proof.
  intros Hs Hr. unfold callback_data.
  change ("remind_in|" ++ sid ++ "|" ++ repr h)%string
    with ("remind_in" ++ String "|" (sid ++ String "|" (repr h)))%string.
  rewrite !split_on_app. by rewrite (split_on_no_sep _ sid), (split_on_no_sep _ (repr h)).
Qed.

(** X19. A press of a button of a keyboard made by [create_inline_buttons]
    does what the button says.  Where the short id has no bar and resolves,
    and the text of each snooze length has no bar and reads back as that
    length, the payload of the first button takes the handler through the
    voted branch for the proposal the short id resolves to, and the payload
    of a snooze button through the snooze branch with the length the button
    was made for. *)
Theorem made_button_does_what_it_says net now c sid pid row b s :
  "|"%char ∉ chars sid ->
  (forall h, h ∈ button_reminder_times cfg ->
     ("|"%char ∉ chars (repr h)) /\ float (repr h) = Some h) ->
  dict_get (reverse_map (proposal_id_map s)) sid = Some pid ->
  row ∈ create_inline_buttons cfg sid -> b ∈ row ->
  on_callback_query cfg float net now c (callback_data repr b) s =
  match b with
  | VotedButton _ => reply_and_answer net c ThanksForVoting (voted_state c pid s)
  | RemindInButton _ h =>
      reply_and_answer net c (ReminderSet h)
        (snoozed_state cfg c pid sid (now + timedelta_hours h) s)
  end.
Proof.
  intros Hs Hrepr Hm Hrow Hb. unfold on_callback_query, create_inline_buttons in *.
  apply elem_of_cons in Hrow as [->|Hrow].
  - apply list_elem_of_singleton in Hb as ->.
    rewrite split_on_voted by done.
    by apply (button_callback_voted cfg float net now c _ sid pid).
  - change (map ?f ?l) with (f <$> l) in Hrow.
    apply list_elem_of_fmap in Hrow as (h & -> & Hh).
    apply list_elem_of_singleton in Hb as ->.
    destruct (Hrepr h Hh) as [Hbar Hf].
    rewrite split_on_remind_in by done.
    by apply (button_callback_remind_in cfg float net now c _ sid pid (repr h) h).
Qed.

End Press.

(** X20. A payload without a bar makes the handler raise [IndexError] when
    it reads the short id, before it has loaded, written, sent or
    acknowledged anything. *)
Theorem payload_without_bar_raises net now c payload s :
  "|"%char ∉ chars payload ->
  on_callback_query cfg float net now c payload s = (Raise IndexError, s).
Proof.
  intros Hn. unfold on_callback_query. by rewrite split_on_no_sep.
Qed.

(** X21. After any run of events during which no time arithmetic leaves
    the range of [datetime], started on a fresh process, there is no
    orphan: a job that can still fire is tracked in the job table under the
    chat and the proposal it was created for, and the preferences hold a
    value for that pair. *)
Theorem pending_jobs_are_tracked s0 es j job :
  fresh s0 -> forallb (event_in_range cfg float) es = true ->
  job_queue (run cfg float s0 es) !! j = Some job -> job_live job = true ->
  (exists l, tracked (run cfg float s0 es) (jd_chat_id (data job))
               (jd_proposal_id (data job)) = Some l /\ j ∈ l) /\
  is_Some (stored_pref (run cfg float s0 es) (jd_chat_id (data job))
             (jd_proposal_id (data job))).
Proof.
  intros Hf _ Hj Hl.
  destruct (reachable_consistent cfg float (run cfg float s0 es)) as [Hp Ht].
  { by apply reachable_run, reachable_fresh. }
  split.
  - by apply (Ht j job).
  - apply Hp. by eapply list_elem_of_lookup_2.
Qed.

(** ** [start] and [test_proposal] *)

(** X22. [start] from a chat that is not registered appends the chat to the
    preferences with no value for any proposal, and does so before it
    replies: the registration stands when the reply cannot be sent and the
    handler raises.  Nothing else is written; in particular no reminder is
    scheduled for the proposals that were handled before. *)
Theorem start_registers_new_chat net c s :
  dict_get (user_preferences s) c = None ->
  start net c s =
  (if net then Return tt else Raise TelegramError,
   set_sent (sent s ++ if net then [SendMessage c AddedToList None] else [])
     (set_user_preferences (user_preferences s ++ [(c, ∅)]) s)) /\
  forall p, stored_pref (start net c s).2 c p = None /\
            live_jobs (start net c s).2 c p = live_jobs s c p.
Proof.
  intros Hc.
  assert (Hs : start net c s =
    (if net then Return tt else Raise TelegramError,
     set_sent (sent s ++ if net then [SendMessage c AddedToList None] else [])
       (set_user_preferences (user_preferences s ++ [(c, ∅)]) s))).
  { unfold start, bind, load_user_preferences, get_state, send_message, bot_call,
      save_user_preferences, modify. rewrite Hc. simpl.
    rewrite dict_set_absent by done.
    destruct net; simpl; [done|]. f_equal. unfold set_sent. simpl. by rewrite app_nil_r. }
  split; [exact Hs|]. intros p. rewrite Hs. simpl. split; [|done].
  unfold stored_pref, pref_get. simpl. rewrite <- dict_set_absent by done.
  by rewrite dict_get_set_eq.
Qed.

(** X23. [test_proposal] schedules for the chats that are registered, not
    for the chat that asks: from a chat that never sent [start] it adds no
    job for that chat and does not register it, and still replies that the
    test proposal was created. *)
Theorem test_proposal_from_unregistered_chat net uuid_id uuid4 now1 now2 clock c s :
  c ∉ dict_keys (user_preferences s) ->
  let r := test_proposal cfg net uuid_id uuid4 now1 now2 clock c s in
  let pid := ("test_proposal_id_" ++ uuid_id)%string in
  (exists new, job_queue r.2 = job_queue s ++ new /\
               forall job, job ∈ new -> jd_chat_id (data job) ≠ c) /\
  (c ∉ dict_keys (user_preferences r.2)) /\
  r.1 = (if net then Return tt else Raise TelegramError) /\
  sent r.2 = sent s ++ (if net then [SendMessage c (TestProposalCreated pid) None] else []).
Proof.
  intros Hc. simpl.
  set (pid := ("test_proposal_id_" ++ uuid_id)%string).
  destruct (handle_new_proposal_new_jobs uuid4 clock pid "Test Proposal"
              (now1 + timedelta_seconds 5) (now2 + timedelta_seconds 120) "snapshot" s)
    as (new & Hq & Hnew).
  destruct (handle_new_proposal_spec cfg (fun _ _ => True) uuid4 clock pid "Test Proposal"
              (now1 + timedelta_seconds 5) (now2 + timedelta_seconds 120) "snapshot" s)
    as (mem' & s' & Hrun & _ & _ & _ & Hse & Hk & _); [done|done|].
  unfold test_proposal, bind. fold pid. rewrite Hrun in Hq |- *. simpl in Hq.
  unfold send_message, bot_call. destruct net; simpl.
  - split; [exists new; split; [done|]|].
    + intros job Hin Heq. destruct (Hnew job Hin) as (_ & _ & Hin' & _).
      rewrite Heq in Hin'. by apply Hc.
    + split; [by rewrite Hk|]. split; [done|]. by rewrite Hse.
  - split; [exists new; split; [done|]|].
    + intros job Hin Heq. destruct (Hnew job Hin) as (_ & _ & Hin' & _).
      rewrite Heq in Hin'. by apply Hc.
    + split; [by rewrite Hk|]. split; [done|]. by rewrite Hse, app_nil_r.
Qed.

(** ** The monitors *)

Lemma snapshot_entry_of uuid4 clock p s :
  snapshot_entry cfg uuid4 clock (entry_of p) s = snapshot_proposal cfg uuid4 clock p s.
Proof. reflexivity. Qed.

Lemma handle_new_proposal_returns uuid4 clock pid title st en ty s :
  (handle_new_proposal cfg uuid4 clock pid title st en ty s).1 = Return tt.
Proof.
  destruct (handle_new_proposal_spec cfg (fun _ _ => True) uuid4 clock pid title st en ty s)
    as (mem' & s' & -> & _); done.
Qed.

Lemma snapshot_proposal_returns uuid4 clock p s :
  (snapshot_proposal cfg uuid4 clock p s).1 = Return tt.
Proof.
  unfold snapshot_proposal, bind, get_state, save_known_proposals, modify.
  destruct (decide (sp_id p ∈ known_proposals s)); [done|].
  apply handle_new_proposal_returns.
Qed.

Lemma snapshot_for_run uuid4 clock i ps s :
  snapshot_for cfg uuid4 clock i (entry_of <$> ps) s =
  (Return tt, run cfg float s (snapshot_events uuid4 clock i ps)).
Proof.
  revert i s. induction ps as [|p ps IH]; intros i s; [done|].
  rewrite fmap_cons. cbn [snapshot_for]. unfold bind at 1.
  rewrite snapshot_entry_of.
  pose proof (snapshot_proposal_returns (uuid4 i) (clock i) p s) as Hr.
  destruct (snapshot_proposal cfg (uuid4 i) (clock i) p s) as [[[]|e] s1] eqn:Hp;
    [|done].
  rewrite IH. unfold snapshot_events. rewrite imap_cons. cbn [run foldl].
  rewrite Nat.add_0_r. unfold step at 2. cbn [handler]. rewrite Hp. simpl.
  f_equal. f_equal. apply imap_ext. intros k q _. simpl.
  by rewrite Nat.add_succ_r.
Qed.

Lemma run_snapshot_known uuid4 clock i ps s :
  (forall p, p ∈ ps -> sp_id p ∈ known_proposals s) ->
  run cfg float s (snapshot_events uuid4 clock i ps) = s.
Proof.
  revert i. induction ps as [|p ps IH]; intros i Hk; [done|].
  unfold snapshot_events. rewrite imap_cons. cbn [run foldl].
  unfold step at 2. cbn [handler].
  rewrite snapshot_known_noop by (apply Hk, elem_of_cons; by left). simpl.
  specialize (IH (S i)). unfold snapshot_events, run in IH.
  erewrite imap_ext; [apply IH|].
  - intros q Hq. apply Hk, elem_of_cons. by right.
  - intros k q _. simpl. by rewrite Nat.add_succ_r.
Qed.

Lemma run_snapshot_marks uuid4 clock i ps s p :
  p ∈ ps -> sp_id p ∈ known_proposals (run cfg float s (snapshot_events uuid4 clock i ps)).
Proof.
  revert i s. induction ps as [|q ps IH]; intros i s; [by intros ?%elem_of_nil|].
  unfold snapshot_events. rewrite imap_cons. cbn [run foldl].
  intros [->|Hin]%elem_of_cons.
  - apply (known_kept_by_run cfg float). unfold step. cbn [handler].
    apply snapshot_marks_known.
  - specialize (IH (S i) (step cfg float s (ESnapshot (uuid4 (i + 0)%nat) (clock (i + 0)%nat) q))
                  Hin).
    unfold snapshot_events, run in IH.
    erewrite imap_ext; [apply IH|].
    intros k q' _. simpl. by rewrite Nat.add_succ_r.
Qed.

(** X24. One turn of the Snapshot monitor never raises.  On a response
    whose entries are complete, with times [fromtimestamp] accepts and
    windows the default offsets can be applied to, it is the handling of
    the entries one by one, oldest first: the response lists the newest
    proposal first and the loop runs over it in reverse.  A response that
    carries [errors], and a request that fails, write nothing. *)
Theorem snapshot_poll_handles_oldest_first uuid4 clock ps e s :
  forallb (snapshot_in_range cfg) ps = true ->
  snapshot_poll cfg uuid4 clock (SnapshotData (entry_of <$> ps)) s =
    (Return tt, run cfg float s (snapshot_events uuid4 clock 0 (reverse ps))) /\
  snapshot_poll cfg uuid4 clock SnapshotErrors s = (Return tt, s) /\
  snapshot_poll cfg uuid4 clock (SnapshotFailed e) s = (Return tt, s).
Proof.
  intros _. split; [|done]. unfold snapshot_poll, try_except.
  by rewrite <- fmap_reverse, snapshot_for_run.
Qed.

(** X25. The hub is asked for the same newest proposals at every turn: a
    turn that gets the response of the turn before, its entries complete
    and within range, writes nothing, every proposal of the response being
    known by then. *)
Theorem snapshot_poll_twice uuid4 clock uuid4' clock' ps s :
  forallb (snapshot_in_range cfg) ps = true ->
  let s1 := (snapshot_poll cfg uuid4 clock (SnapshotData (entry_of <$> ps)) s).2 in
  (forall p, p ∈ ps -> sp_id p ∈ known_proposals s1) /\
  snapshot_poll cfg uuid4' clock' (SnapshotData (entry_of <$> ps)) s1 = (Return tt, s1).
Proof using cfg float.
  intros _. simpl. unfold snapshot_poll, try_except.
  rewrite <- fmap_reverse, !snapshot_for_run. simpl.
  assert (Hk : forall p, p ∈ ps ->
                 sp_id p ∈ known_proposals
                   (run cfg float s (snapshot_events uuid4 clock 0 (reverse ps)))).
  { intros p Hin. apply run_snapshot_marks. by apply elem_of_reverse. }
  split; [exact Hk|].
  rewrite run_snapshot_known; [done|].
  intros p Hin. apply Hk. by apply elem_of_reverse.
Qed.

(** X26. An entry that has its id and its title but lacks its start or its
    end is lost for good.  The id is put in the known set before the start
    is read; the read raises, the turn ends there without a look at the
    newer entries of the response, and only the known set is written.  From
    then on a complete entry for the same proposal is skipped, whatever
    happens in between: no chat is ever reminded of that proposal. *)
Theorem snapshot_entry_without_times_is_lost uuid4 clock entry pid title newer s :
  se_id entry = Some pid -> se_title entry = Some title ->
  se_start entry = None \/ se_end entry = None ->
  pid ∉ known_proposals s ->
  let s1 := set_known_proposals ({[pid]} ∪ known_proposals s) s in
  snapshot_poll cfg uuid4 clock (SnapshotData (newer ++ [entry])) s = (Return tt, s1) /\
  forall es uuid4' clock' p,
    sp_id p = pid ->
    snapshot_proposal cfg uuid4' clock' p (run cfg float s1 es) =
      (Return tt, run cfg float s1 es).
Proof.
  intros Hid Ht Hmiss Hnew. simpl. split.
  - unfold snapshot_poll, try_except. rewrite reverse_app. simpl.
    unfold bind at 1. unfold snapshot_entry. rewrite Hid, Ht. simpl.
    unfold bind at 1. unfold ret at 1. unfold bind at 1. unfold ret at 1.
    unfold bind at 1. unfold get_state. rewrite decide_False by done.
    unfold bind at 1. unfold save_known_proposals, modify.
    destruct Hmiss as [Hs|He].
    + rewrite Hs. done.
    + rewrite He. destruct (se_start entry); done.
  - intros es uuid4' clock' p Hp. apply snapshot_known_noop. rewrite Hp.
    apply (known_kept_by_run cfg float). simpl.
    apply elem_of_union. left. by apply elem_of_singleton.
Qed.

Lemma onchain_event_returns d s :
  is_Some (oc_block_number d) -> (onchain_event cfg d s).1 = Return tt.
Proof.
  intros [b Hb]. unfold onchain_event, bind. rewrite Hb. simpl.
  unfold onchain_proposal. apply handle_new_proposal_returns.
Qed.

Lemma onchain_for_app done rest s :
  Forall (fun d => is_Some (oc_block_number d)) done ->
  onchain_for cfg (done ++ rest) s = onchain_for cfg rest (onchain_for cfg done s).2 /\
  (onchain_for cfg done s).1 = Return tt.
Proof.
  intros Hok. revert s. induction Hok as [|d done Hd _ IH]; intros s; [done|].
  simpl. unfold bind.
  pose proof (onchain_event_returns d s Hd) as Hr.
  destruct (onchain_event cfg d s) as [[[]|e] s1]; [|done]. apply IH.
Qed.

Lemma delivery_in_range_read d :
  delivery_in_range cfg d = true -> is_Some (oc_block_number d).
Proof. unfold delivery_in_range. destruct (oc_block_number d); [eauto|done]. Qed.

(** X27. The on-chain monitor handles the events of a turn in the order
    they come, and gives up the turn at the first event for which the chain
    height cannot be read: the events before it, if their arithmetic stays
    within the range of [datetime], are handled in full, that event and all
    that follow it in the batch are not handled at all, and the turn itself
    does not raise. *)
Theorem onchain_poll_drops_the_rest done d rest s :
  forallb (delivery_in_range cfg) done = true ->
  oc_block_number d = None ->
  onchain_poll cfg (Some (done ++ d :: rest)) s = onchain_poll cfg (Some done) s /\
  onchain_poll cfg (Some done) s = (Return tt, (onchain_for cfg done s).2) /\
  (onchain_for cfg done s).1 = Return tt.
Proof.
  intros Hin Hd.
  assert (Hok : Forall (fun d' => is_Some (oc_block_number d')) done).
  { apply Forall_forall. intros d' Hd'. apply delivery_in_range_read.
    rewrite forallb_forall in Hin. apply Hin. by apply list_elem_of_In. }
  destruct (onchain_for_app done (d :: rest) s Hok) as [Happ Hret].
  unfold onchain_poll, try_except. rewrite Happ.
  destruct (onchain_for cfg done s) as [[[]|e] s1]; [|done]. simpl.
  unfold bind, onchain_event. rewrite Hd. simpl. unfold bind. simpl. done.
Qed.

End More.

(** * Worked instances

    The statements above at the sample configuration, and the inputs on
    which the behaviour differs from what one might expect. *)

Module Instances.

Import Sample.

(** C1: chat 42 has three pending jobs for P1 and asks for a snooze. *)
Lemma remind_in_adds_one_job_witness :
  let data := ["remind_in"; "abcdef01"; "1.0"] in
  (data !! 0%nat = Some "remind_in" /\ data !! 1%nat = Some "abcdef01" /\
   dict_get (reverse_map (proposal_id_map scheduled)) "abcdef01" = Some "P1" /\
   data !! 2%nat = Some "1.0" /\ float "1.0" = Some 1%Q /\
   hours_after (t0 + 5) 1%Q = true) /\
  live_jobs (button_callback cfg float up (t0 + 5) "42" data scheduled).2 "42" "P1" =
    live_jobs scheduled "42" "P1" ++
    [snooze_job cfg "42" "P1" "abcdef01" (t0 + 5 + timedelta_hours 1)].
Proof.
  intros data.
  assert (H : data !! 0%nat = Some "remind_in" /\ data !! 1%nat = Some "abcdef01" /\
              dict_get (reverse_map (proposal_id_map scheduled)) "abcdef01" = Some "P1" /\
              data !! 2%nat = Some "1.0" /\ float "1.0" = Some 1%Q /\
              hours_after (t0 + 5) 1%Q = true).
  { repeat split; vm_compute; reflexivity. }
  split; [exact H|].
  destruct H as (H0 & H1 & Hm & H2 & Hf & Hr).
  exact (proj2 (proj2 (proj2
    (remind_in_adds_one_job cfg float up (t0 + 5) "42" data "abcdef01" "P1" "1.0" 1%Q
       scheduled H0 H1 Hm H2 Hf Hr)))).
Defined.

(** C1: after the snooze the pair has four pending jobs, not one. *)
Lemma remind_in_does_not_replace :
  ~ (forall cfg float net now c data sid pid param h s,
       data !! 0%nat = Some "remind_in" -> data !! 1%nat = Some sid ->
       dict_get (reverse_map (proposal_id_map s)) sid = Some pid ->
       data !! 2%nat = Some param -> float param = Some h ->
       hours_after now h = true ->
       length (live_jobs (button_callback cfg float net now c data s).2 c pid) = 1%nat).
Proof.
  intros H.
  specialize (H cfg float up (t0 + 5) "42" ["remind_in"; "abcdef01"; "1.0"]
                "abcdef01" "P1" "1.0" 1%Q scheduled).
  assert (Hm : dict_get (reverse_map (proposal_id_map scheduled)) "abcdef01" = Some "P1")
    by (vm_compute; reflexivity).
  assert (Hr : hours_after (t0 + 5) 1%Q = true) by (vm_compute; reflexivity).
  specialize (H eq_refl eq_refl Hm eq_refl eq_refl Hr).
  vm_compute in H. discriminate H.
Qed.

(** C2: an offset one hour after a start that lies two hours back. *)
Lemma past_offset_registers_no_job_witness :
  offset_instant FromStart 0 0 1%Q < 7200000000 /\
  schedule_loop cfg FromStart 7200000000 0 0 "42" "P1" "abcdef01" "T" "" [3%Q; 1%Q] empty =
  schedule_loop cfg FromStart 7200000000 0 0 "42" "P1" "abcdef01" "T" "" [3%Q] empty.
Proof.
  assert (H : offset_instant FromStart 0 0 1%Q < 7200000000) by (vm_compute; reflexivity).
  split; [exact H|].
  exact (proj1 (past_offset_registers_no_job cfg FromStart 7200000000 0 0
                  "42" "P1" "abcdef01" "T" "" [3%Q] 1%Q [] empty) H).
Defined.

(** C2: an offset whose instant is exactly [now] gets its job. *)
Lemma offset_at_now_is_scheduled :
  ~ (forall cfg a now st en c p sid t l h s,
       offset_instant a st en h <= now ->
       job_queue (schedule_loop cfg a now st en c p sid t l [h] s).2 = job_queue s).
Proof.
  intros H.
  specialize (H cfg FromStart t0 t0 0 "42" "P1" "abcdef01" "T" "" 0%Q empty).
  assert (Hle : offset_instant FromStart t0 0 0%Q <= t0) by (vm_compute; discriminate).
  specialize (H Hle). vm_compute in H. discriminate H.
Qed.

(** C3: proposal 7 arrives on-chain before anyone has subscribed, chat 42
    subscribes, and the proposal is delivered again: the second delivery
    schedules reminders. *)
Lemma second_onchain_delivery_schedules :
  ~ (forall cfg float uuid4 clock i v b n1 n2 es uuid4' clock' v' b' n1' n2' s,
       let s2 := run cfg float (step cfg float s (EOnChain uuid4 clock i v b n1 n2)) es in
       (onchain_proposal cfg uuid4' clock' i v' b' n1' n2' s2).2 = s2).
Proof.
  intros H.
  specialize (H cfg float uuid (fun _ => t0) 7 200 100 t0 t0 [EStart true "42"]
                uuid (fun _ => t0) 200 100 t0 t0 empty).
  apply (f_equal (fun s => length (job_queue s))) in H.
  vm_compute in H. discriminate H.
Qed.



(** C6: the first job of chat 42 for P1 fires. *)
Lemma fired_job_stays_tracked_witness :
  exists job,
    (job_queue scheduled !! 0%nat = Some job /\ job_live job = true) /\
    SCHEDULED_JOBS (job_fires true 0 scheduled).2 = SCHEDULED_JOBS scheduled.
Proof.
  destruct (job_queue scheduled !! 0%nat) as [job|] eqn:Hj; [|vm_compute in Hj; discriminate Hj].
  exists job.
  assert (Hl : job_live job = true).
  { vm_compute in Hj. injection Hj as <-. reflexivity. }
  split; [by split|].
  exact (proj1 (proj2 (proj2 (proj2
    (fired_job_stays_tracked true 0 job scheduled Hj Hl))))).
Defined.

(** C6: after it has fired, the job is still in the table. *)
Lemma fired_job_is_still_in_table :
  ~ (forall net j job s,
       job_queue s !! j = Some job -> job_live job = true ->
       forall l,
         tracked (job_fires net j s).2 (jd_chat_id (data job)) (jd_proposal_id (data job))
           = Some l ->
         j ∉ l).
Proof.
  intros H.
  destruct (job_queue scheduled !! 0%nat) as [job|] eqn:Hj; [|vm_compute in Hj; discriminate Hj].
  assert (Hl : job_live job = true).
  { vm_compute in Hj. injection Hj as <-. reflexivity. }
  specialize (H true 0%nat job scheduled Hj Hl [0; 1; 2]%nat).
  vm_compute in Hj. injection Hj as <-.
  apply H; [vm_compute; reflexivity|].
  apply elem_of_cons. by left.
Qed.

(** C7: a first scheduling for chat 42 and P1. *)
Lemma schedule_reminders_registers_witness :
  (absent_or_mapping (stored_pref subscribed "42" "P1") /\
   schedulable
     (default (reminders_from_start cfg)
        (configured_from_start (stored_pref subscribed "42" "P1")))
     (default (reminders_before_end cfg)
        (configured_before_end (stored_pref subscribed "42" "P1")))
     t0 (t0 + 14400000000) = true) /\
  fire_times_from (length (job_queue subscribed))
    (schedule_reminders cfg t0 "42" "P1" "abcdef01" "T" t0 (t0 + 14400000000) "snapshot"
       subscribed).2 =
  filter (fun w => t0 <= w)
    ((fun h => t0 + timedelta_hours h) <$>
     default (reminders_from_start cfg)
       (configured_from_start (stored_pref subscribed "42" "P1"))) ++
  filter (fun w => t0 <= w)
    ((fun h => t0 + 14400000000 - timedelta_hours h) <$>
     default (reminders_before_end cfg)
       (configured_before_end (stored_pref subscribed "42" "P1"))).
Proof.
  assert (H : absent_or_mapping (stored_pref subscribed "42" "P1")) by (vm_compute; exact I).
  assert (Hr : schedulable
                 (default (reminders_from_start cfg)
                    (configured_from_start (stored_pref subscribed "42" "P1")))
                 (default (reminders_before_end cfg)
                    (configured_before_end (stored_pref subscribed "42" "P1")))
                 t0 (t0 + 14400000000) = true) by (vm_compute; reflexivity).
  split; [by split|].
  exact (proj1 (proj2
    (schedule_reminders_registers cfg t0 "42" "P1" "abcdef01" "T" t0 (t0 + 14400000000)
       "snapshot" subscribed H Hr))).
Defined.

(** C7: with the start at [now] the job of offset 0 is registered at [now],
    which is not a future time. *)
Lemma registered_times_include_now :
  ~ (forall cfg now c p sid t st en ty s,
       stored_pref s c p = None ->
       schedulable (reminders_from_start cfg) (reminders_before_end cfg) st en = true ->
       let times :=
         fire_times_from (length (job_queue s))
           (schedule_reminders cfg now c p sid t st en ty s).2 in
       NoDup times /\
       forall w, w ∈ times <->
         now < w /\
         (w ∈ (fun h => st + timedelta_hours h) <$> reminders_from_start cfg \/
          w ∈ (fun h => en - timedelta_hours h) <$> reminders_before_end cfg)).
Proof.
  intros H.
  specialize (H cfg t0 "42" "P1" "abcdef01" "T" t0 (t0 + 14400000000) "snapshot" subscribed).
  assert (Hn : stored_pref subscribed "42" "P1" = None) by (vm_compute; reflexivity).
  assert (Hr : schedulable (reminders_from_start cfg) (reminders_before_end cfg)
                 t0 (t0 + 14400000000) = true) by (vm_compute; reflexivity).
  destruct (H Hn Hr) as [_ Hw].
  destruct (proj1 (Hw t0)) as [Hlt _]; [|lia].
  vm_compute. apply elem_of_cons. by left.
Qed.


(** C9: a button with a short id nobody assigned. *)
Lemma button_callback_acknowledges_witness :
  let data := ["voted"; "ffffffff"] in
  (data !! 0%nat = Some "voted" /\ data !! 1%nat = Some "ffffffff") /\
  button_callback cfg float up t0 "42" data scheduled =
    (Return tt,
     set_sent (sent scheduled ++ [AnswerCallbackQuery "42" (Some ErrorOccurred)]) scheduled).
Proof.
  intros data. split; [by split|].
  pose proof (button_callback_acknowledges cfg float up t0 "42" data "voted" "ffffffff"
                scheduled eq_refl eq_refl) as H.
  assert (Hm : dict_get (reverse_map (proposal_id_map scheduled)) "ffffffff" = None)
    by (vm_compute; reflexivity).
  rewrite Hm in H. exact H.
Defined.

(** C9: a snooze without its parameter is not acknowledged. *)
Lemma snooze_without_parameter_is_not_acknowledged :
  ~ (forall cfg float net now c data sid pid s,
       data !! 1%nat = Some sid ->
       dict_get (reverse_map (proposal_id_map s)) sid = Some pid ->
       exists calls text,
         sent (button_callback cfg float net now c data s).2 =
           sent s ++ calls ++ [AnswerCallbackQuery c text]).
Proof.
  intros H.
  specialize (H cfg float up t0 "42" ["remind_in"; "abcdef01"] "abcdef01" "P1" scheduled).
  assert (Hm : dict_get (reverse_map (proposal_id_map scheduled)) "abcdef01" = Some "P1")
    by (vm_compute; reflexivity).
  destruct (H eq_refl Hm) as (calls & text & Heq).
  vm_compute in Heq. injection Heq as Heq.
  destruct calls; discriminate Heq.
Qed.

(** C10: chat 42 sends [/start] again after P1 was scheduled for it. *)
Lemma start_registered_is_noop_witness :
  exists per_chat,
    dict_get (user_preferences scheduled) "42" = Some per_chat /\
    user_preferences (start true "42" scheduled).2 = user_preferences scheduled.
Proof.
  destruct (dict_get (user_preferences scheduled) "42") as [per_chat|] eqn:Hreg;
    [|vm_compute in Hreg; discriminate Hreg].
  exists per_chat. split; [reflexivity|].
  exact (proj1 (proj1 (start_registered_is_noop true "42" per_chat scheduled Hreg))).
Defined.

End Instances.

(** * Further worked instances *)

Module MoreInstances.

Import Sample MoreSample.

(** X2: two items, the second followed by a comment. *)
Lemma parse_intervals_comma_witness :
  ("#"%char ∉ chars "1.0") /\
  parse_intervals float ("1.0" ++ String "," "0.5 # half")%string =
    Return [1%Q; (1 # 2)%Q].
Proof.
  assert (H : "#"%char ∉ chars "1.0") by (refine (bool_decide_unpack _ _); vm_compute; exact I).
  split; [exact H|].
  rewrite (parse_intervals_comma float "1.0" "0.5 # half" H).
  vm_compute. reflexivity.
Defined.

(** X3: two spaces. *)
Lemma parse_intervals_blank_witness :
  (forall c, c ∈ chars "  " -> is_space c = true) /\
  parse_intervals float "  " = Return [].
Proof.
  assert (H : forall c, c ∈ chars "  " -> is_space c = true).
  { intros c Hin. simpl in Hin.
    apply elem_of_cons in Hin as [->|Hin]; [reflexivity|].
    apply elem_of_cons in Hin as [->|Hin]; [reflexivity|].
    by apply elem_of_nil in Hin. }
  exact (conj H (parse_intervals_blank float "  " H)).
Defined.

(** X5: two proposals with different short ids. *)
Lemma short_id_round_trip_witness :
  let m := [("P1", "abcdef01"); ("P2", "12345678")] in
  (NoDup (dict_keys m) /\ NoDup m.*2) /\
  (dict_get m "P1" = Some "abcdef01" <-> dict_get (reverse_map m) "abcdef01" = Some "P1").
Proof.
  intros m.
  assert (Hk : NoDup (dict_keys m)) by (refine (bool_decide_unpack _ _); vm_compute; exact I).
  assert (Hv : NoDup m.*2) by (refine (bool_decide_unpack _ _); vm_compute; exact I).
  exact (conj (conj Hk Hv) (short_id_round_trip m "P1" "abcdef01" Hk Hv)).
Defined.

(** X6: P1 comes to a process that has no short id for it. *)
Lemma new_short_id_resolves_to_newcomer_witness :
  dict_get (proposal_id_map subscribed) "P1" = None /\
  dict_get
    (reverse_map
       (proposal_id_map
          (handle_new_proposal cfg uuid (fun _ => t0) "P1" "T" t0 (t0 + 1) "snapshot"
             subscribed).2)) "abcdef01" = Some "P1".
Proof.
  assert (H : dict_get (proposal_id_map subscribed) "P1" = None)
    by (vm_compute; reflexivity).
  split; [exact H|].
  pose proof (new_short_id_resolves_to_newcomer cfg uuid (fun _ => t0) "P1" "T" t0 (t0 + 1)
                "snapshot" subscribed H) as Hx.
  cbv zeta in Hx. exact (proj1 (proj2 Hx)).
Defined.

(** X9: the second handle of chat 42 for P1. *)
Lemma job_table_is_clean_witness :
  (reachable cfg float scheduled /\
   tracked scheduled "42" "P1" = Some [0; 1; 2]%nat /\ 1%nat ∈ [0; 1; 2]%nat) /\
  exists job, job_queue scheduled !! 1%nat = Some job /\
              jd_chat_id (data job) = "42" /\ jd_proposal_id (data job) = "P1".
Proof.
  assert (Hr : reachable cfg float scheduled).
  { unfold scheduled, subscribed. apply reachable_run, reachable_run, reachable_fresh.
    split; reflexivity. }
  assert (Ht : tracked scheduled "42" "P1" = Some [0; 1; 2]%nat) by (vm_compute; reflexivity).
  assert (Hin : 1%nat ∈ [0; 1; 2]%nat) by (refine (bool_decide_unpack _ _); vm_compute; exact I).
  exact (conj (conj Hr (conj Ht Hin))
           (job_table_is_clean cfg float scheduled "42" "P1" [0; 1; 2]%nat 1%nat Hr Ht Hin)).
Defined.

(** X10: the first reminder queued for chat 42. *)
Lemma queued_buttons_resolve_witness :
  exists job,
    (reachable cfg float scheduled /\ job ∈ job_queue scheduled) /\
    is_Some (dict_get (reverse_map (proposal_id_map scheduled))
               match jd_buttons (data job) with
               | [VotedButton sid] :: _ => sid
               | _ => ""
               end).
Proof.
  assert (Hr : reachable cfg float scheduled).
  { unfold scheduled, subscribed. apply reachable_run, reachable_run, reachable_fresh.
    split; reflexivity. }
  destruct (job_queue scheduled !! 0%nat) as [job|] eqn:Hj;
    [|vm_compute in Hj; discriminate Hj].
  assert (Hin : job ∈ job_queue scheduled) by (by eapply list_elem_of_lookup_2).
  exists job. split; [by split|].
  destruct (queued_buttons_resolve cfg float scheduled job Hr Hin) as (sid & Hb & _ & Hs).
  rewrite Hb. exact Hs.
Defined.

(** X12: the reminders of chat 42 for P1 are cancelled, those for P2 stay. *)
Lemma cancel_leaves_other_pairs_witness :
  (reachable cfg float two_proposals /\ ("42", "P2") ≠ ("42", "P1")) /\
  live_jobs (cancel_scheduled_reminders "42" "P1" two_proposals).2 "42" "P2" =
    live_jobs two_proposals "42" "P2".
Proof.
  assert (Hr : reachable cfg float two_proposals).
  { unfold two_proposals, scheduled, subscribed.
    apply reachable_run, reachable_run, reachable_run, reachable_fresh.
    split; reflexivity. }
  assert (Hne : ("42", "P2") ≠ ("42", "P1")) by discriminate.
  split; [by split|].
  pose proof (cancel_leaves_other_pairs cfg float "42" "P1" "42" "P2" two_proposals Hr Hne)
    as Hx.
  cbv zeta in Hx. exact (proj1 Hx).
Defined.

(** X13: chat 42 says it has voted on P1; its reminders for P2 stay. *)
Lemma button_press_leaves_other_pairs_witness :
  let data := ["voted"; "abcdef01"] in
  (reachable cfg float two_proposals /\
   ("42" ≠ "42" \/
    forall sid, data !! 1%nat = Some sid ->
      dict_get (reverse_map (proposal_id_map two_proposals)) sid ≠ Some "P2")) /\
  live_jobs (button_callback cfg float up (t0 + 5) "42" data two_proposals).2 "42" "P2" =
    live_jobs two_proposals "42" "P2".
Proof.
  intros data.
  assert (Hr : reachable cfg float two_proposals).
  { unfold two_proposals, scheduled, subscribed.
    apply reachable_run, reachable_run, reachable_run, reachable_fresh.
    split; reflexivity. }
  assert (Ho : "42" ≠ "42" \/
               forall sid, data !! 1%nat = Some sid ->
                 dict_get (reverse_map (proposal_id_map two_proposals)) sid ≠ Some "P2").
  { right. intros sid Hs. injection Hs as <-. vm_compute. discriminate. }
  split; [by split|].
  pose proof (button_press_leaves_other_pairs cfg float up (t0 + 5) "42" data "42" "P2"
                two_proposals Hr Ho) as Hx.
  cbv zeta in Hx. exact (proj2 (proj2 Hx)).
Defined.

(** X14: P1 comes to chat 42, which has no value for it. *)
Lemma handle_new_proposal_marks_subscribers_witness :
  schedulable (reminders_from_start cfg) (reminders_before_end cfg)
    t0 (t0 + 14400000000) = true /\
  (handle_new_proposal cfg uuid (fun _ => t0) "P1" "T" t0 (t0 + 14400000000) "snapshot"
     subscribed).1 = Return tt.
Proof.
  assert (Hr : schedulable (reminders_from_start cfg) (reminders_before_end cfg)
                 t0 (t0 + 14400000000) = true) by (vm_compute; reflexivity).
  split; [exact Hr|].
  destruct (handle_new_proposal_marks_subscribers cfg uuid (fun _ => t0) "P1" "T" t0
              (t0 + 14400000000) "snapshot" subscribed Hr) as (s' & Hrun & _).
  by rewrite Hrun.
Defined.

(** X16: P1 comes while chat 42 has no value for it. *)
Lemma handle_new_proposal_schedules_each_open_chat_witness :
  (schedulable (reminders_from_start cfg) (reminders_before_end cfg)
     t0 (t0 + 14400000000) = true /\
   "42" ∈ dict_keys (user_preferences subscribed) /\
   stored_pref subscribed "42" "P1" = None) /\
  exists l,
    tracked (handle_new_proposal cfg uuid (fun _ => t0) "P1" "T" t0 (t0 + 14400000000)
               "snapshot" subscribed).2 "42" "P1" = Some l.
Proof.
  assert (Hin : "42" ∈ dict_keys (user_preferences subscribed))
    by (refine (bool_decide_unpack _ _); vm_compute; exact I).
  assert (Hn : stored_pref subscribed "42" "P1" = None) by (vm_compute; reflexivity).
  assert (Hr : schedulable (reminders_from_start cfg) (reminders_before_end cfg)
                 t0 (t0 + 14400000000) = true) by (vm_compute; reflexivity).
  split; [by repeat split|].
  pose proof (handle_new_proposal_schedules_each_open_chat cfg uuid (fun _ => t0) "P1" "T"
                t0 (t0 + 14400000000) "snapshot" subscribed "42" Hr Hin Hn) as Hx.
  cbv zeta in Hx. destruct Hx as (l & Hl & _). by exists l.
Defined.

(** X17: a scheduling for chat 42 and P1 after the chat has voted on it. *)
Lemma schedule_reminders_raises_before_it_writes_witness :
  ~ absent_or_mapping (stored_pref voted "42" "P1") /\
  schedule_reminders cfg t0 "42" "P1" "abcdef01" "T" t0 (t0 + 14400000000) "snapshot" voted =
    (Raise AttributeError, voted).
Proof.
  assert (H : ~ absent_or_mapping (stored_pref voted "42" "P1")).
  { vm_compute. intros []. }
  exact (conj H
           (schedule_reminders_raises_before_it_writes cfg t0 "42" "P1" "abcdef01" "T" t0
              (t0 + 14400000000) "snapshot" voted H)).
Defined.

(** X18: a scheduling for chat 42 and P1 made just after the start. *)
Lemma later_scheduling_registers_what_is_left_witness :
  (absent_or_mapping (stored_pref subscribed "42" "P1") /\ t0 <= t0 + 1) /\
  fire_times_from (length (job_queue subscribed))
    (schedule_reminders cfg (t0 + 1) "42" "P1" "abcdef01" "T" t0 (t0 + 14400000000)
       "snapshot" subscribed).2 =
  filter (fun w => t0 + 1 <= w)
    (fire_times_from (length (job_queue subscribed))
       (schedule_reminders cfg t0 "42" "P1" "abcdef01" "T" t0 (t0 + 14400000000)
          "snapshot" subscribed).2).
Proof.
  assert (H : absent_or_mapping (stored_pref subscribed "42" "P1")) by (vm_compute; exact I).
  assert (Hle : t0 <= t0 + 1) by lia.
  exact (conj (conj H Hle)
           (later_scheduling_registers_what_is_left cfg t0 (t0 + 1) "42" "P1" "abcdef01" "T"
              t0 (t0 + 14400000000) "snapshot" subscribed H Hle)).
Defined.

(** X19: chat 42 presses the one-hour button under a reminder for P1. *)
Lemma made_button_does_what_it_says_witness :
  let b := RemindInButton "abcdef01" 1%Q in
  (("|"%char ∉ chars "abcdef01") /\
   (forall h, h ∈ button_reminder_times cfg ->
      ("|"%char ∉ chars (repr h)) /\ float (repr h) = Some h) /\
   dict_get (reverse_map (proposal_id_map scheduled)) "abcdef01" = Some "P1" /\
   [b] ∈ create_inline_buttons cfg "abcdef01" /\ b ∈ [b]) /\
  on_callback_query cfg float up (t0 + 5) "42" (callback_data repr b) scheduled =
    reply_and_answer up "42" (ReminderSet 1%Q)
      (snoozed_state cfg "42" "P1" "abcdef01" (t0 + 5 + timedelta_hours 1%Q) scheduled).
Proof.
  intros b.
  assert (Hs : "|"%char ∉ chars "abcdef01")
    by (refine (bool_decide_unpack _ _); vm_compute; exact I).
  assert (Hrepr : forall h, h ∈ button_reminder_times cfg ->
                    ("|"%char ∉ chars (repr h)) /\ float (repr h) = Some h).
  { intros h Hin. change (button_reminder_times cfg) with [1%Q; (1 # 2)%Q] in Hin.
    apply elem_of_cons in Hin as [->|Hin];
      [|apply elem_of_cons in Hin as [->|Hin]; [|by apply elem_of_nil in Hin]].
    - split; [refine (bool_decide_unpack _ _); vm_compute; exact I|reflexivity].
    - split; [refine (bool_decide_unpack _ _); vm_compute; exact I|reflexivity]. }
  assert (Hm : dict_get (reverse_map (proposal_id_map scheduled)) "abcdef01" = Some "P1")
    by (vm_compute; reflexivity).
  assert (Hrow : [b] ∈ create_inline_buttons cfg "abcdef01").
  { unfold create_inline_buttons. simpl. apply elem_of_cons. right.
    apply elem_of_cons. by left. }
  assert (Hb : b ∈ [b]) by (apply elem_of_cons; by left).
  exact (conj (conj Hs (conj Hrepr (conj Hm (conj Hrow Hb))))
           (made_button_does_what_it_says cfg float repr up (t0 + 5) "42" "abcdef01" "P1"
              [b] b scheduled Hs Hrepr Hm Hrow Hb)).
Defined.

(** X20: a payload that is the action alone. *)
Lemma payload_without_bar_raises_witness :
  ("|"%char ∉ chars "voted") /\
  on_callback_query cfg float up t0 "42" "voted" scheduled = (Raise IndexError, scheduled).
Proof.
  assert (H : "|"%char ∉ chars "voted") by (refine (bool_decide_unpack _ _); vm_compute; exact I).
  exact (conj H (payload_without_bar_raises cfg float up t0 "42" "voted" scheduled H)).
Defined.

(** X21: the first reminder of chat 42 for P1, still pending after the
    chat has registered and P1 has come. *)
Lemma pending_jobs_are_tracked_witness :
  let es := [EStart true "42"; ESnapshot uuid (fun _ => t0) P1] in
  exists job,
    (fresh empty /\ forallb (event_in_range cfg float) es = true /\
     job_queue (run cfg float empty es) !! 0%nat = Some job /\ job_live job = true) /\
    is_Some (stored_pref (run cfg float empty es) (jd_chat_id (data job))
               (jd_proposal_id (data job))).
Proof.
  intros es.
  assert (Hf : fresh empty) by (split; reflexivity).
  assert (Hr : forallb (event_in_range cfg float) es = true) by (vm_compute; reflexivity).
  destruct (job_queue (run cfg float empty es) !! 0%nat) as [job|] eqn:Hj;
    [|vm_compute in Hj; discriminate Hj].
  assert (Hl : job_live job = true).
  { vm_compute in Hj. injection Hj as <-. reflexivity. }
  exists job. split; [by repeat split|].
  exact (proj2 (pending_jobs_are_tracked cfg float empty es 0%nat job Hf Hr Hj Hl)).
Defined.

(** X22: chat 7 registers after P1 was handled. *)
Lemma start_registers_new_chat_witness :
  dict_get (user_preferences scheduled) "7" = None /\
  stored_pref (start true "7" scheduled).2 "7" "P1" = None /\
  live_jobs (start true "7" scheduled).2 "7" "P1" = live_jobs scheduled "7" "P1".
Proof.
  assert (H : dict_get (user_preferences scheduled) "7" = None) by (vm_compute; reflexivity).
  exact (conj H (proj2 (start_registers_new_chat true "7" scheduled H) "P1")).
Defined.

(** X23: chat 7, which is not registered, asks for a test proposal. *)
Lemma test_proposal_from_unregistered_chat_witness :
  ("7" ∉ dict_keys (user_preferences scheduled)) /\
  ("7" ∉ dict_keys
     (user_preferences
        (test_proposal cfg true uuid uuid2 t0 t0 (fun _ => t0) "7" scheduled).2)).
Proof.
  assert (H : "7" ∉ dict_keys (user_preferences scheduled))
    by (refine (bool_decide_unpack _ _); vm_compute; exact I).
  split; [exact H|].
  pose proof (test_proposal_from_unregistered_chat cfg true uuid uuid2 t0 t0 (fun _ => t0)
                "7" scheduled H) as Hx.
  cbv zeta in Hx. exact (proj1 (proj2 Hx)).
Defined.

(** X24: a response that lists P2, the newer, before P1. *)
Lemma snapshot_poll_handles_oldest_first_witness :
  forallb (snapshot_in_range cfg) [P2; P1] = true /\
  snapshot_poll cfg (fun _ => uuid) (fun _ _ => t0) (SnapshotData (entry_of <$> [P2; P1]))
    subscribed =
  (Return tt,
   run cfg float subscribed
     [ESnapshot uuid (fun _ => t0) P1; ESnapshot uuid (fun _ => t0) P2]).
Proof.
  assert (H : forallb (snapshot_in_range cfg) [P2; P1] = true) by (vm_compute; reflexivity).
  split; [exact H|].
  exact (proj1 (snapshot_poll_handles_oldest_first cfg float (fun _ => uuid) (fun _ _ => t0)
                  [P2; P1] ValueError subscribed H)).
Defined.

(** X25: the same response at the next turn. *)
Lemma snapshot_poll_twice_witness :
  forallb (snapshot_in_range cfg) [P2; P1] = true /\
  let s1 := (snapshot_poll cfg (fun _ => uuid) (fun _ _ => t0)
               (SnapshotData (entry_of <$> [P2; P1])) subscribed).2 in
  snapshot_poll cfg (fun _ => uuid2) (fun _ _ => t0 + 60000000)
    (SnapshotData (entry_of <$> [P2; P1])) s1 = (Return tt, s1).
Proof.
  assert (H : forallb (snapshot_in_range cfg) [P2; P1] = true) by (vm_compute; reflexivity).
  split; [exact H|].
  pose proof (snapshot_poll_twice cfg float (fun _ => uuid) (fun _ _ => t0)
                (fun _ => uuid2) (fun _ _ => t0 + 60000000) [P2; P1] subscribed H) as Hx.
  cbv zeta in Hx. exact (proj2 Hx).
Defined.

(** X26: P2 first comes without its start, behind a complete entry for a
    newer proposal. *)
Lemma snapshot_entry_without_times_is_lost_witness :
  (se_id P2_without_start = Some "P2" /\ se_title P2_without_start = Some "Lower the fee" /\
   (se_start P2_without_start = None \/ se_end P2_without_start = None) /\
   "P2" ∉ known_proposals scheduled) /\
  let s1 := set_known_proposals ({["P2"]} ∪ known_proposals scheduled) scheduled in
  snapshot_proposal cfg uuid2 (fun _ => t0) P2 s1 = (Return tt, s1).
Proof.
  assert (Hk : "P2" ∉ known_proposals scheduled)
    by (refine (bool_decide_unpack _ _); vm_compute; exact I).
  split; [repeat split; [by left|exact Hk]|].
  intros s1.
  pose proof (snapshot_entry_without_times_is_lost cfg float (fun _ => uuid2)
                (fun _ _ => t0) P2_without_start "P2" "Lower the fee" [] scheduled
                eq_refl eq_refl (or_introl eq_refl) Hk) as Hx.
  cbv zeta in Hx. exact (proj2 Hx [] uuid2 (fun _ => t0) P2 eq_refl).
Defined.

(** X27: event 7, then event 8 for which the chain height cannot be read,
    then event 7 again. *)
Lemma onchain_poll_drops_the_rest_witness :
  (forallb (delivery_in_range cfg) [event7] = true /\
   oc_block_number event8 = None) /\
  onchain_poll cfg (Some ([event7] ++ event8 :: [event7])) subscribed =
    onchain_poll cfg (Some [event7]) subscribed.
Proof.
  assert (Hok : forallb (delivery_in_range cfg) [event7] = true)
    by (vm_compute; reflexivity).
  split; [by split|].
  exact (proj1 (onchain_poll_drops_the_rest cfg [event7] event8 [event7] subscribed
                  Hok eq_refl)).
Defined.

End MoreInstances.
